(** * Donation tracker: detection, attribution and the rolling-window ledger

    A shallow embedding of [bot/donation_tracker.py] (class [DonationTracker])
    and the properties of its ledger, its pattern extractor, its attribution
    loop and its persistence layer.

    Conventions of the embedding.
    - Python [str] values are Rocq [string]s: the UTF-8 bytes of the text.
      Equality, concatenation, the search of a substring and the replacement
      of one are the same on the bytes as on the characters.  The character
      predicates ([str.isdigit], [str.lower], [str.strip], the
      regular-expression classes) are given on the ASCII characters, where
      they are Python's; a property that depends on them is stated of ASCII
      text ([Str.is_ascii]).
    - Python [int] is [Z].
    - A [datetime] is an [instant]: microseconds since the epoch, in [Z].
      [datetime.isoformat] and [datetime.fromisoformat] are inverse to each
      other on the timestamps the tracker writes, so a stored timestamp is
      kept as the instant it denotes.  Every function that reads the clock
      takes the reading as a parameter.
    - A Python [dict] is an insertion-ordered association list ([dict V]):
      iteration order is observable in the source (the name search stops at
      the first match, the report sorts stably).
    - The ledger is typed: records for the entries the tracker writes, with
      an optional field where the source tests for a missing key.  What is
      written to and read from the files is a JSON document ([json]).
    - Exceptions are values of [exn]; code that can raise lives in the state
      and exception monad [M], which keeps the mutations made before the
      raise, as Python does.
    - A regular expression is a term of [regex]; [re.search] is a
      backtracking search written in continuation-passing style.

    The first part holds the embedding, the second part its properties. *)

From Stdlib Require Import ZArith NArith List Bool Ascii String Lia Arith.
Import ListNotations.

Open Scope string_scope.
Open Scope Z_scope.

(** ** Strings *)

Module Str.

(** An ASCII character: a byte below 128, which is a character of its own
    in UTF-8. *)
Definition is_ascii_char (c : ascii) : bool := (N_of_ascii c <? 128)%N.

(** [s.isascii()]: the text is made of ASCII characters only. *)
Fixpoint is_ascii (s : string) : bool :=
  match s with
  | EmptyString => true
  | String c s' => is_ascii_char c && is_ascii s'
  end.

(** The decimal digits among the ASCII characters, the ones [str.isdigit]
    and [\d] accept there. *)
Definition is_digit (c : ascii) : bool :=
  let n := N_of_ascii c in (48 <=? n)%N && (n <=? 57)%N.

(** White space as [str.strip] and [\s] see it in the ASCII range:
    tab, line feed, vertical tab, form feed, carriage return, the four
    separators 0x1c-0x1f and the space. *)
Definition is_space (c : ascii) : bool :=
  let n := N_of_ascii c in
  ((9 <=? n)%N && (n <=? 13)%N) || ((28 <=? n)%N && (n <=? 32)%N).

Definition is_upper (c : ascii) : bool :=
  let n := N_of_ascii c in (65 <=? n)%N && (n <=? 90)%N.

(** The lower case of an ASCII character. *)
Definition lower_char (c : ascii) : ascii :=
  if is_upper c then ascii_of_N (N_of_ascii c + 32) else c.

(** [s.lower()], on ASCII text. *)
Fixpoint lower (s : string) : string :=
  match s with
  | EmptyString => EmptyString
  | String c s' => String (lower_char c) (lower s')
  end.

(** [all(c is a digit for c in s)] *)
Fixpoint all_digits (s : string) : bool :=
  match s with
  | EmptyString => true
  | String c s' => is_digit c && all_digits s'
  end.

(** [s.isdigit()], on ASCII text: non-empty and made of digits only. *)
Definition isdigit (s : string) : bool :=
  match s with
  | EmptyString => false
  | _ => all_digits s
  end.

(** [s.startswith(p)] *)
Fixpoint startswith (p s : string) : bool :=
  match p, s with
  | EmptyString, _ => true
  | String a p', String b s' => Ascii.eqb a b && startswith p' s'
  | String _ _, EmptyString => false
  end.

(** [s[n:]] *)
Fixpoint drop (n : nat) (s : string) : string :=
  match n, s with
  | O, _ => s
  | S n', String _ s' => drop n' s'
  | S _, EmptyString => EmptyString
  end.

(** [s[:n]] *)
Fixpoint take (n : nat) (s : string) : string :=
  match n, s with
  | O, _ => EmptyString
  | S n', String c s' => String c (take n' s')
  | S _, EmptyString => EmptyString
  end.

(** [p in s] *)
Fixpoint contains (p s : string) : bool :=
  startswith p s ||
  match s with
  | EmptyString => false
  | String _ s' => contains p s'
  end.

(** [s.replace(old, new)] for a non-empty [old]: occurrences are replaced
    left to right, without overlap.  The fuel is the length of [s], one
    unit per character skipped or occurrence replaced. *)
Fixpoint replace_fuel (fuel : nat) (old new s : string) : string :=
  match fuel with
  | O => s
  | S fuel' =>
      match s with
      | EmptyString => EmptyString
      | String c s' =>
          if startswith old s
          then new ++ replace_fuel fuel' old new (drop (length old) s)
          else String c (replace_fuel fuel' old new s')
      end
  end.

Definition replace (old new s : string) : string :=
  match old with
  | EmptyString => s
  | _ => replace_fuel (length s) old new s
  end.

Fixpoint lstrip (s : string) : string :=
  match s with
  | String c s' => if is_space c then lstrip s' else s
  | EmptyString => EmptyString
  end.

Fixpoint rev_onto (s acc : string) : string :=
  match s with
  | EmptyString => acc
  | String c s' => rev_onto s' (String c acc)
  end.

Definition rev (s : string) : string := rev_onto s EmptyString.

(** [s.strip()], on ASCII text. *)
Definition strip (s : string) : string := rev (lstrip (rev (lstrip s))).

End Str.

(** ** Python dictionaries *)

Definition dict (V : Type) : Type := list (string * V).

Section Dict.
Context {V : Type}.

(** [d.get(k)]: the value bound to [k], if any. *)
Fixpoint dget (k : string) (d : dict V) : option V :=
  match d with
  | [] => None
  | (k', v) :: d' => if String.eqb k k' then Some v else dget k d'
  end.

(** [k in d] *)
Definition dmem (k : string) (d : dict V) : bool :=
  match dget k d with Some _ => true | None => false end.

(** [d[k] = v]: a bound key keeps its position, a new key goes last. *)
Fixpoint dset (k : string) (v : V) (d : dict V) : dict V :=
  match d with
  | [] => [(k, v)]
  | (k', v') :: d' =>
      if String.eqb k k' then (k', v) :: d' else (k', v') :: dset k v d'
  end.

(** [del d[k]] on a bound key *)
Definition ddel (k : string) (d : dict V) : dict V :=
  filter (fun kv => negb (String.eqb k (fst kv))) d.

(** [d.keys()] *)
Definition dkeys (d : dict V) : list string := map fst d.

End Dict.

(** ** Time *)

(** A [datetime] in UTC: microseconds since the epoch. *)
Definition instant : Type := Z.

Definition microseconds_per_day : Z := 86400000000.

(** [(now - start).days]: a [timedelta] is normalised with its seconds and
    microseconds non-negative, so [days] is the floor of the difference. *)
Definition days_between (now start : instant) : Z :=
  (now - start) / microseconds_per_day.

(** ** Exceptions *)

(** [UnicodeDecodeError] and [OSError] are what reading a file can raise
    besides the two exceptions the loaders catch: the bytes are no text in
    the encoding of [open], or the file cannot be opened. *)
Inductive exn : Type :=
| KeyError | TypeError | ValueError | AttributeError
| UnicodeDecodeError | OSError.

Inductive result (A : Type) : Type :=
| Return (a : A)
| Raise (e : exn).
Arguments Return {A} a.
Arguments Raise {A} e.

(** ** JSON documents *)

Set Warnings "-register-all".

(** What [json.load] returns and [json.dump] writes, with the values the
    documents of the tracker are made of: [None], integers, strings, lists
    and dictionaries.  [JTime t] is the string [t.isoformat()]; every other
    string is a [JStr]. *)
Inductive json : Type :=
| JNull
| JInt (n : Z)
| JStr (s : string)
| JTime (t : instant)
| JList (l : list json)
| JDict (d : list (string * json)).

(** The content of a data file of the tracker, in the three states its
    loaders are written for: there is no file ([Missing]); the file is a
    text that is not JSON, so that [json.load] raises [JSONDecodeError],
    which the loaders catch ([Corrupt]); the file holds a JSON object
    ([Stored]), which is all the tracker ever writes. *)
Inductive file : Type :=
| Missing
| Corrupt
| Stored (data : dict json).

(** ** The ledger *)

(** [donation_record = {"amount": amount, "timestamp": timestamp}] *)
Module Donation.
Record t : Type := mk { amount : Z; timestamp : instant }.
Definition to_json (r : t) : json :=
  JDict [("amount", JInt (amount r)); ("timestamp", JTime (timestamp r))].
End Donation.

(** An entry of ["weekly_donations"]: the rolling window of one player. *)
Module Weekly.
Record t : Type := mk {
  name : string;
  amount : Z;
  donations : list Donation.t;
  week_start : instant
}.
Definition to_json (e : t) : json :=
  JDict [("name", JStr (name e)); ("amount", JInt (amount e));
         ("donations", JList (map Donation.to_json (donations e)));
         ("week_start", JTime (week_start e))].
End Weekly.

(** An entry of ["total_donations"]: the all-time aggregate of one player. *)
Module Total.
Record t : Type := mk {
  name : string;
  amount : Z;
  donations : list Donation.t
}.
Definition to_json (e : t) : json :=
  JDict [("name", JStr (name e)); ("amount", JInt (amount e));
         ("donations", JList (map Donation.to_json (donations e)))].
End Total.

(** The value stored under a guild id.  A section is [None] when its key is
    missing from the dictionary; ["last_reset"] is [None] for Python's
    [None]. *)
Record guild_data : Type := mk_guild {
  weekly_donations : option (dict Weekly.t);
  total_donations : option (dict Total.t);
  last_reset : option instant
}.

Definition with_weekly (gd : guild_data) (w : dict Weekly.t) : guild_data :=
  mk_guild (Some w) (total_donations gd) (last_reset gd).

Definition with_total (gd : guild_data) (t : dict Total.t) : guild_data :=
  mk_guild (weekly_donations gd) (Some t) (last_reset gd).

Definition with_last_reset (gd : guild_data) (r : instant) : guild_data :=
  mk_guild (weekly_donations gd) (total_donations gd) (Some r).

Definition dict_to_json {V : Type} (f : V -> json) (d : dict V) : json :=
  JDict (map (fun kv => (fst kv, f (snd kv))) d).

Definition section_to_json {V : Type} (key : string) (f : V -> json)
  (o : option (dict V)) : list (string * json) :=
  match o with
  | Some d => [(key, dict_to_json f d)]
  | None => []
  end.

Definition guild_to_json (gd : guild_data) : json :=
  JDict (section_to_json "weekly_donations" Weekly.to_json (weekly_donations gd)
         ++ section_to_json "total_donations" Total.to_json (total_donations gd)
         ++ [("last_reset",
              match last_reset gd with Some r => JTime r | None => JNull end)])%list.

(** The state of a [DonationTracker]: its two dictionaries and the two files
    they are saved to ([data/donations.json], [data/registered_players.json]). *)
Record tracker : Type := mk_tracker {
  donations_data : dict guild_data;
  registered_players : dict (dict string);
  donations_file : file;
  players_file : file
}.

Definition set_donations_data (d : dict guild_data) (t : tracker) : tracker :=
  mk_tracker d (registered_players t) (donations_file t) (players_file t).

Definition set_registered_players (p : dict (dict string)) (t : tracker) : tracker :=
  mk_tracker (donations_data t) p (donations_file t) (players_file t).

(** The JSON object [json.dump(self.donations_data, f)] writes. *)
Definition donations_document (d : dict guild_data) : dict json :=
  map (fun kv => (fst kv, guild_to_json (snd kv))) d.

(** The JSON object [json.dump(self.registered_players, f)] writes. *)
Definition players_document (p : dict (dict string)) : dict json :=
  map (fun kv => (fst kv, dict_to_json JStr (snd kv))) p.

(** ** The state and exception monad *)

Definition M (A : Type) : Type := tracker -> result A * tracker.

Definition ret {A : Type} (a : A) : M A := fun t => (Return a, t).

Definition raise {A : Type} (e : exn) : M A := fun t => (Raise e, t).

Definition bind {A B : Type} (m : M A) (f : A -> M B) : M B :=
  fun t =>
    match m t with
    | (Return a, t') => f a t'
    | (Raise e, t') => (Raise e, t')
    end.

Notation "x <- m ;; k" := (bind m (fun x => k))
  (at level 61, m at next level, right associativity).
Notation "m ;; k" := (bind m (fun _ => k))
  (at level 61, right associativity).

(** [if c: body] *)
Definition when (c : bool) (body : M unit) : M unit :=
  if c then body else ret tt.

(** [for x in l: body(x)] *)
Fixpoint for_each {A : Type} (l : list A) (body : A -> M unit) : M unit :=
  match l with
  | [] => ret tt
  | x :: l' => body x ;; for_each l' body
  end.

(** ** Persistence *)

(** A tenant identifier as the migration test sees it:
    [str(k).isdigit() and len(str(k)) > 10], on an ASCII key (where the
    characters are the bytes). *)
Definition looks_like_guild_id (k : string) : bool :=
  Str.isdigit k && (10 <? length k)%nat.

(** [load_donations]: the dictionary read from the donations file. *)
Definition load_donations (f : file) : dict json :=
  match f with
  | Stored data =>
      if dmem "weekly_donations" data
         && negb (existsb looks_like_guild_id (dkeys data))
      then [("0", JDict data)]
      else data
  | Corrupt => []
  | Missing => []
  end.

(** [load_registered_players]: the dictionary read from the players file. *)
Definition load_registered_players (f : file) : dict json :=
  match f with
  | Stored data =>
      if negb (match data with [] => true | _ => false end)
         && negb (existsb looks_like_guild_id (dkeys data))
      then [("0", JDict data)]
      else data
  | Corrupt => []
  | Missing => []
  end.

(** [save_donations] *)
Definition save_donations : M unit :=
  fun t =>
    (Return tt,
     mk_tracker (donations_data t) (registered_players t)
       (Stored (donations_document (donations_data t))) (players_file t)).

(** [save_registered_players] *)
Definition save_registered_players : M unit :=
  fun t =>
    (Return tt,
     mk_tracker (donations_data t) (registered_players t)
       (donations_file t) (Stored (players_document (registered_players t)))).

(** ** Access paths into [self.donations_data] *)

(** [self.donations_data[guild_id]] *)
Definition guild_item (g : string) : M guild_data :=
  fun t =>
    match dget g (donations_data t) with
    | Some gd => (Return gd, t)
    | None => (Raise KeyError, t)
    end.

(** [self.donations_data[guild_id] = gd] *)
Definition set_guild_item (g : string) (gd : guild_data) : M unit :=
  fun t => (Return tt, set_donations_data (dset g gd (donations_data t)) t).

(** [self.donations_data[guild_id]["weekly_donations"]] *)
Definition weekly_section (g : string) : M (dict Weekly.t) :=
  gd <- guild_item g ;;
  match weekly_donations gd with
  | Some w => ret w
  | None => raise KeyError
  end.

(** [self.donations_data[guild_id]["total_donations"]] *)
Definition total_section (g : string) : M (dict Total.t) :=
  gd <- guild_item g ;;
  match total_donations gd with
  | Some d => ret d
  | None => raise KeyError
  end.

(** [self.donations_data[guild_id]["weekly_donations"][user_id]] *)
Definition weekly_entry (g u : string) : M Weekly.t :=
  w <- weekly_section g ;;
  match dget u w with
  | Some e => ret e
  | None => raise KeyError
  end.

(** [self.donations_data[guild_id]["total_donations"][user_id]] *)
Definition total_entry (g u : string) : M Total.t :=
  d <- total_section g ;;
  match dget u d with
  | Some e => ret e
  | None => raise KeyError
  end.

(** [self.donations_data[guild_id]["weekly_donations"][user_id] = e] *)
Definition set_weekly_entry (g u : string) (e : Weekly.t) : M unit :=
  w <- weekly_section g ;;
  gd <- guild_item g ;;
  set_guild_item g (with_weekly gd (dset u e w)).

(** [self.donations_data[guild_id]["total_donations"][user_id] = e] *)
Definition set_total_entry (g u : string) (e : Total.t) : M unit :=
  d <- total_section g ;;
  gd <- guild_item g ;;
  set_guild_item g (with_total gd (dset u e d)).

(** ** [add_donation] *)

Definition fresh_guild : guild_data := mk_guild (Some []) (Some []) None.

Definition fresh_weekly (player_name : string) (timestamp : instant) : Weekly.t :=
  Weekly.mk player_name 0 [] timestamp.

Definition fresh_total (player_name : string) : Total.t :=
  Total.mk player_name 0 [].

(** [add_donation(guild_id, user_id, player_name, amount)], with the reading
    [current_time] of the clock as a parameter. *)
Definition add_donation (guild_id user_id player_name : string) (amount : Z)
  (current_time : instant) : M unit :=
  let timestamp := current_time in
  (* Initialize server data if not exists *)
  (fun t =>
     when (negb (dmem guild_id (donations_data t)))
       (set_guild_item guild_id fresh_guild) t) ;;
  (* Initialize user data if not exists *)
  w <- weekly_section guild_id ;;
  when (negb (dmem user_id w))
    (set_weekly_entry guild_id user_id (fresh_weekly player_name timestamp)) ;;
  d <- total_section guild_id ;;
  when (negb (dmem user_id d))
    (set_total_entry guild_id user_id (fresh_total player_name)) ;;
  (* Check if player's week has expired *)
  e <- weekly_entry guild_id user_id ;;
  let days_since_start := days_between current_time (Weekly.week_start e) in
  when (7 <=? days_since_start)
    (set_weekly_entry guild_id user_id (fresh_weekly player_name timestamp)) ;;
  (* Add donation *)
  let donation_record := Donation.mk amount timestamp in
  (* Update weekly donations *)
  e <- weekly_entry guild_id user_id ;;
  set_weekly_entry guild_id user_id
    (Weekly.mk (Weekly.name e) (Weekly.amount e + amount)
       (Weekly.donations e) (Weekly.week_start e)) ;;
  e <- weekly_entry guild_id user_id ;;
  set_weekly_entry guild_id user_id
    (Weekly.mk (Weekly.name e) (Weekly.amount e)
       (Weekly.donations e ++ [donation_record]) (Weekly.week_start e)) ;;
  (* Update total donations *)
  e <- total_entry guild_id user_id ;;
  set_total_entry guild_id user_id
    (Total.mk (Total.name e) (Total.amount e + amount) (Total.donations e)) ;;
  e <- total_entry guild_id user_id ;;
  set_total_entry guild_id user_id
    (Total.mk (Total.name e) (Total.amount e)
       (Total.donations e ++ [donation_record])) ;;
  (* Save data *)
  save_donations.

(** ** Queries *)

(** [is_player_registered(guild_id, user_id)] *)
Definition is_player_registered (t : tracker) (guild_id user_id : string) : bool :=
  match dget guild_id (registered_players t) with
  | Some players => dmem user_id players
  | None => false
  end.

(** [get_weekly_donations(guild_id)] *)
Definition get_weekly_donations (t : tracker) (guild_id : string) : dict Weekly.t :=
  match dget guild_id (donations_data t) with
  | Some gd => match weekly_donations gd with Some w => w | None => [] end
  | None => []
  end.

(** [get_total_donations(guild_id)] *)
Definition get_total_donations (t : tracker) (guild_id : string) : dict Total.t :=
  match dget guild_id (donations_data t) with
  | Some gd => match total_donations gd with Some d => d | None => [] end
  | None => []
  end.

(** ** [cleanup_expired_weeks] *)

(** The inner loop that collects [expired_players]. *)
Definition expired_players (current_time : instant) (w : dict Weekly.t) : list string :=
  map fst
    (filter (fun kv => 7 <=? days_between current_time (Weekly.week_start (snd kv))) w).

(** [for user_id in expired_players: del guild_data["weekly_donations"][user_id]] *)
Definition remove_players (l : list string) (w : dict Weekly.t) : dict Weekly.t :=
  fold_left (fun w' u => ddel u w') l w.

(** One iteration of the loop over guilds: the guild data after it and the
    number of records it removed. *)
Definition cleanup_guild (current_time : instant) (gd : guild_data) : guild_data * nat :=
  match weekly_donations gd with
  | None => (gd, O)
  | Some w =>
      let expired := expired_players current_time w in
      (with_weekly gd (remove_players expired w), List.length expired)
  end.

(** The loop over [self.donations_data.items()], with [total_cleaned]. *)
Fixpoint cleanup_guilds (current_time : instant) (d : dict guild_data)
  : dict guild_data * nat :=
  match d with
  | [] => ([], O)
  | (g, gd) :: d' =>
      let (gd', n) := cleanup_guild current_time gd in
      let (d'', m) := cleanup_guilds current_time d' in
      ((g, gd') :: d'', (n + m)%nat)
  end.

(** [cleanup_expired_weeks()], with the clock reading as a parameter. *)
Definition cleanup_expired_weeks (current_time : instant) : M unit :=
  fun t =>
    let (d, total_cleaned) := cleanup_guilds current_time (donations_data t) in
    when (0 <? total_cleaned)%nat save_donations (set_donations_data d t).

(** [reset_weekly_data()] *)
Definition reset_weekly_data (current_time : instant) : M unit :=
  cleanup_expired_weeks current_time ;;
  (fun t =>
     (Return tt,
      set_donations_data
        (map (fun kv => (fst kv, with_last_reset (snd kv) current_time))
           (donations_data t)) t)) ;;
  save_donations.

(** ** Closed forms of the ledger update *)

(** The window entry of a player after a donation of [amount] at
    [current_time], from the entry [o] found before it. *)
Definition credit_weekly (player_name : string) (amount : Z)
  (current_time : instant) (o : option Weekly.t) : Weekly.t :=
  let e0 := match o with Some e => e | None => fresh_weekly player_name current_time end in
  let e1 := if 7 <=? days_between current_time (Weekly.week_start e0)
            then fresh_weekly player_name current_time else e0 in
  Weekly.mk (Weekly.name e1) (Weekly.amount e1 + amount)
    (Weekly.donations e1 ++ [Donation.mk amount current_time])
    (Weekly.week_start e1).

(** The all-time entry of a player after the same donation. *)
Definition credit_total (player_name : string) (amount : Z)
  (current_time : instant) (o : option Total.t) : Total.t :=
  let e0 := match o with Some e => e | None => fresh_total player_name end in
  Total.mk (Total.name e0) (Total.amount e0 + amount)
    (Total.donations e0 ++ [Donation.mk amount current_time]).

(** The guild data after the donation, from complete guild data. *)
Definition credit_guild (user_id player_name : string) (amount : Z)
  (current_time : instant) (gd : guild_data) (w : dict Weekly.t)
  (d : dict Total.t) : guild_data :=
  mk_guild
    (Some (dset user_id (credit_weekly player_name amount current_time (dget user_id w)) w))
    (Some (dset user_id (credit_total player_name amount current_time (dget user_id d)) d))
    (last_reset gd).

(** ** Regular expressions *)

(** The fragment of Python's [re] syntax the tracker's patterns are written
    in.  Matching is the backtracking search of [re]: alternatives are tried
    in priority order (a greedy repetition tries one more iteration first, a
    lazy one tries to stop first) and the first complete match is returned. *)
Inductive char_class : Type :=
| Digit          (* \d *)
| Space          (* \s *)
| NotNewline.    (* the dot: any character but a line feed *)

Definition in_class (k : char_class) (c : ascii) : bool :=
  match k with
  | Digit => Str.is_digit c
  | Space => Str.is_space c
  | NotNewline => negb (Ascii.eqb c "010"%char)
  end.

Inductive regex : Type :=
| Eps                          (* the empty pattern *)
| Chr (a : ascii)              (* a literal character *)
| Cls (k : char_class)         (* a character class *)
| Cat (r1 r2 : regex)          (* r1 r2 *)
| Opt (r : regex)              (* r?  *)
| Star (r : regex)             (* r*  *)
| Lazy (r : regex)             (* r*? *)
| Group (r : regex).           (* (r), a capturing group *)

(** [r+] *)
Definition Plus (r : regex) : regex := Cat r (Star r).

(** A literal word. *)
Fixpoint lit (w : string) : regex :=
  match w with
  | EmptyString => Eps
  | String a EmptyString => Chr a
  | String a w' => Cat (Chr a) (lit w')
  end.

(** A pattern written as the sequence of its parts. *)
Fixpoint seq (l : list regex) : regex :=
  match l with
  | [] => Eps
  | [r] => r
  | r :: l' => Cat r (seq l')
  end.

(** [\d], [\s] and the dot. *)
Definition digit : regex := Cls Digit.
Definition space : regex := Cls Space.
Definition dot : regex := Cls NotNewline.

(** The span of group 1: the subject from where the group started and from
    where it ended. *)
Definition capture : Type := option (string * string).

(** [match.group(1)] *)
Definition group1 (c : capture) : option string :=
  match c with
  | Some (from, to) => Some (Str.take (length from - length to) from)
  | None => None
  end.

Section Matcher.
Context {A : Type}.

(** The continuation of a match: what remains of the pattern, applied to the
    capture so far and to the rest of the subject. *)
Definition cont : Type := capture -> string -> option A.

(** Greedy repetition of [body]: one more iteration first, then the rest of
    the pattern.  [n] bounds the number of iterations. *)
Fixpoint star_loop (body : cont -> cont) (k : cont) (n : nat) : cont :=
  fun c s =>
    match n with
    | O => k c s
    | S n' =>
        match body (star_loop body k n') c s with
        | Some x => Some x
        | None => k c s
        end
    end.

(** Lazy repetition of [body]: the rest of the pattern first, then one more
    iteration. *)
Fixpoint lazy_loop (body : cont -> cont) (k : cont) (n : nat) : cont :=
  fun c s =>
    match n with
    | O => k c s
    | S n' =>
        match k c s with
        | Some x => Some x
        | None => body (lazy_loop body k n') c s
        end
    end.

(** [rmatch r k c s]: match [r] at the start of [s], then [k].  A repetition
    is given as many iterations as [s] has characters: the bodies of the
    repetitions in the tracker's patterns (a class, or a comma and digits)
    consume a character at each iteration, so none needs more. *)
Fixpoint rmatch (r : regex) (k : cont) : cont :=
  match r with
  | Eps => k
  | Chr a =>
      fun c s =>
        match s with
        | String b s' => if Ascii.eqb a b then k c s' else None
        | EmptyString => None
        end
  | Cls p =>
      fun c s =>
        match s with
        | String b s' => if in_class p b then k c s' else None
        | EmptyString => None
        end
  | Cat r1 r2 => rmatch r1 (rmatch r2 k)
  | Opt r1 =>
      fun c s =>
        match rmatch r1 k c s with
        | Some x => Some x
        | None => k c s
        end
  | Star r1 => fun c s => star_loop (rmatch r1) k (length s) c s
  | Lazy r1 => fun c s => lazy_loop (rmatch r1) k (length s) c s
  | Group r1 =>
      fun c s => rmatch r1 (fun _ s' => k (Some (s, s')) s') c s
  end.

End Matcher.

(** The final continuation of a search: the match is complete, its capture
    is the answer. *)
Definition found : @cont capture := fun c _ => Some c.

(** [re.search(pattern, s)]: the attempts at the successive positions of the
    subject, the leftmost match as its capture. *)
Fixpoint search (r : regex) (s : string) : option capture :=
  match rmatch r found None s with
  | Some c => Some c
  | None =>
      match s with
      | EmptyString => None
      | String _ s' => search r s'
      end
  end.

(** ** [parse_donation_message] *)

(** [\s+] *)
Definition ws : regex := Plus space.

(** The capturing group of every pattern, the amount: one or more digits,
    then any number of times a comma and one or more digits. *)
Definition number_body : regex :=
  Cat (Plus digit) (Star (Cat (Chr ",") (Plus digit))).

Definition number : regex := Group number_body.

(** [coins?] and [rubies?] *)
Definition coins : regex := Cat (lit "coin") (Opt (Chr "s")).
Definition rubies : regex := Cat (lit "rubie") (Opt (Chr "s")).

(** The list [patterns], in the order of the source. *)
Definition patterns : list regex :=
  [ (* 1 *) seq [lit "donated"; ws; lit "**"; number; lit "**"; ws; lit "gold"];
    (* 2 *) seq [lit "you have donated"; ws; lit "**"; number; lit "**"; ws; lit "gold"];
    (* 3 *) seq [lit "donated"; ws; number; ws; coins];
    (* 4 *) seq [lit "contributed"; ws; number; ws; coins];
    (* 5 *) seq [lit "gave"; ws; number; ws; coins];
    (* 6 *) seq [number; ws; coins; ws; lit "donated"];
    (* 7 *) seq [number; ws; coins; ws; lit "to"; ws; lit "the"; ws; lit "clan"];
    (* 8 *) seq [lit "clan donation"; Lazy dot; number];
    (* 9 *) seq [number; ws; coins; ws; lit "added"; ws; lit "to"; ws; lit "clan"];
    (* 10 *) seq [lit "clan"; ws; lit "treasury"; Lazy dot; number];
    (* 11 *) seq [number; ws; coins; ws; lit "clan"; ws; lit "donation"];
    (* 12 *) seq [lit "deposited"; ws; number; ws; coins];
    (* 13 *) seq [number; ws; coins; ws; lit "deposited"];
    (* 14 *) seq [number; ws; rubies; ws; lit "donated"];
    (* 15 *) seq [lit "donated"; ws; number; ws; rubies];
    (* 16 *) seq [number; ws; rubies; ws; lit "to"; ws; lit "the"; ws; lit "clan"];
    (* 17 *) seq [number; ws; rubies; ws; lit "added"; ws; lit "to"; ws; lit "clan"] ].

(** The list [donation_keywords]. *)
Definition donation_keywords : list string :=
  ["donated"; "donation"; "contribute"; "clan"; "gave"; "treasury";
   "deposited"; "coins"; "rubies"].

(** The value of a string of decimal digits, most significant first. *)
Fixpoint decimal_value (acc : Z) (s : string) : Z :=
  match s with
  | EmptyString => acc
  | String c s' => decimal_value (10 * acc + (Z.of_N (N_of_ascii c) - 48)) s'
  end.

(** [sys.get_int_max_str_digits()], at its default. *)
Definition int_max_str_digits : nat := 4300.

(** [int(s)] on the strings the capture can hold: a non-empty string of
    digits is its decimal value, unless it is longer than the interpreter's
    limit on integer string conversion (no other failure exists for such a
    string); [None] stands for [ValueError]. *)
Definition py_int (s : string) : option Z :=
  if Str.isdigit s && (length s <=? int_max_str_digits)%nat
  then Some (decimal_value 0 s)
  else None.

(** The loop [for i, pattern in enumerate(patterns)] over the patterns that
    remain. *)
Fixpoint try_patterns (l : list regex) (content_lower : string) : result (option Z) :=
  match l with
  | [] => Return None
  | pattern :: l' =>
      match search pattern content_lower with
      | Some m =>
          match group1 m with
          | Some g =>
              let amount_str := Str.replace "," "" g in
              match py_int amount_str with
              | Some amount => Return (Some amount)
              | None => try_patterns l' content_lower
              end
          | None => Raise AttributeError
          end
      | None => try_patterns l' content_lower
      end
  end.

(** [parse_donation_message(content)]: [Some amount] for the dictionary
    [{"amount": amount}]. *)
Definition parse_donation_message (content : string) : result (option Z) :=
  let content_lower := Str.lower content in
  if negb (existsb (fun keyword => Str.contains keyword content_lower) donation_keywords)
  then Return None
  else try_patterns patterns content_lower.

(** ** What a pattern matches *)

(** [Matches r c s c' s']: the pattern [r] matches a prefix of [s] and leaves
    [s']; the capture goes from [c] to [c'].  This is the relation the
    backtracking search explores. *)
Inductive Matches : regex -> capture -> string -> capture -> string -> Prop :=
| M_eps c s : Matches Eps c s c s
| M_chr a c s : Matches (Chr a) c (String a s) c s
| M_cls k b c s : in_class k b = true -> Matches (Cls k) c (String b s) c s
| M_cat r1 r2 c s c1 s1 c2 s2 :
    Matches r1 c s c1 s1 -> Matches r2 c1 s1 c2 s2 ->
    Matches (Cat r1 r2) c s c2 s2
| M_opt_some r c s c1 s1 : Matches r c s c1 s1 -> Matches (Opt r) c s c1 s1
| M_opt_none r c s : Matches (Opt r) c s c s
| M_star_stop r c s : Matches (Star r) c s c s
| M_star_more r c s c1 s1 c2 s2 :
    Matches r c s c1 s1 -> Matches (Star r) c1 s1 c2 s2 ->
    Matches (Star r) c s c2 s2
| M_lazy_stop r c s : Matches (Lazy r) c s c s
| M_lazy_more r c s c1 s1 c2 s2 :
    Matches r c s c1 s1 -> Matches (Lazy r) c1 s1 c2 s2 ->
    Matches (Lazy r) c s c2 s2
| M_group r c s c1 s1 :
    Matches r c s c1 s1 -> Matches (Group r) c s (Some (s, s1)) s1.

(** Whatever the search step [body] answers, it answers through a match of
    [r] followed by the continuation. *)
Definition answers {A : Type} (r : regex) (body : @cont A -> @cont A) : Prop :=
  forall k c s x, body k c s = Some x ->
    exists c' s', Matches r c s c' s' /\ k c' s' = Some x.

(** The pattern contains a capturing group. *)
Fixpoint has_group (r : regex) : bool :=
  match r with
  | Eps | Chr _ | Cls _ => false
  | Cat r1 r2 => has_group r1 || has_group r2
  | Opt r1 | Star r1 | Lazy r1 => has_group r1
  | Group _ => true
  end.

Definition char_class_eqb (k1 k2 : char_class) : bool :=
  match k1, k2 with
  | Digit, Digit | Space, Space | NotNewline, NotNewline => true
  | _, _ => false
  end.

Fixpoint regex_eqb (r1 r2 : regex) : bool :=
  match r1, r2 with
  | Eps, Eps => true
  | Chr a, Chr b => Ascii.eqb a b
  | Cls k1, Cls k2 => char_class_eqb k1 k2
  | Cat a1 a2, Cat b1 b2 => regex_eqb a1 b1 && regex_eqb a2 b2
  | Opt a, Opt b | Star a, Star b | Lazy a, Lazy b | Group a, Group b => regex_eqb a b
  | _, _ => false
  end.

(** The pattern has exactly one group on every path, the amount. *)
Fixpoint captures_number (r : regex) : bool :=
  match r with
  | Group body => regex_eqb body number_body
  | Cat r1 r2 =>
      (captures_number r1 && negb (has_group r2))
      || (negb (has_group r1) && captures_number r2)
  | _ => false
  end.

(** The texts the amount group matches: groups of one or more digits,
    separated by commas. *)
Inductive number_text : string -> Prop :=
| number_last ds : Str.isdigit ds = true -> number_text ds
| number_more ds u :
    Str.isdigit ds = true -> number_text u -> number_text (ds ++ "," ++ u).

(** The integer a captured text stands for: its digits, commas removed. *)
Definition embedded_integer (g : string) : Z :=
  decimal_value 0 (Str.replace "," "" g).

(** The number of digits of a captured text. *)
Definition digit_count (g : string) : nat := length (Str.replace "," "" g).

(** What one rule contributes: the amount it captures, when it matches and
    the capture converts to an integer. *)
Definition rule_amount (pattern : regex) (content_lower : string) : option Z :=
  match search pattern content_lower with
  | Some m =>
      match group1 m with
      | Some g => py_int (Str.replace "," "" g)
      | None => None
      end
  | None => None
  end.

(** The amount of the first rule, in the order of the list, that
    contributes one. *)
Fixpoint first_amount (l : list regex) (content_lower : string) : option Z :=
  match l with
  | [] => None
  | pattern :: l' =>
      match rule_amount pattern content_lower with
      | Some n => Some n
      | None => first_amount l' content_lower
      end
  end.

(** The pre-filter: some donation keyword occurs in the text. *)
Definition has_keyword (content_lower : string) : bool :=
  existsb (fun keyword => Str.contains keyword content_lower) donation_keywords.

(** A text with its commas left out. *)
Fixpoint without_commas (s : string) : string :=
  match s with
  | EmptyString => EmptyString
  | String c s' =>
      if Ascii.eqb "," c then without_commas s' else String c (without_commas s')
  end.

(** A character of a number text: a digit or a comma. *)
Definition numchar (a : ascii) : bool := Str.is_digit a || Ascii.eqb "," a.

Fixpoint all_numchars (s : string) : bool :=
  match s with
  | EmptyString => true
  | String a s' => numchar a && all_numchars s'
  end.

(** The text after an amount does not go on with a digit or a comma. *)
Definition stops (post : string) : bool :=
  match post with
  | EmptyString => true
  | String a _ => negb (numchar a)
  end.

(** The pattern needs a first character, and never a digit or a comma. *)
Fixpoint heads_ok (r : regex) : bool :=
  match r with
  | Chr x => negb (numchar x)
  | Cls Space => true
  | Cat r1 _ => heads_ok r1
  | Group r1 => heads_ok r1
  | _ => false
  end.

(** One phrasing for each rule, in the order of the rules: what stands before
    the amount and what stands after it. *)
Definition phrasings : list (string * string) :=
  [ ("donated **", "** gold");
    ("you have donated **", "** gold");
    ("donated ", " coins");
    ("contributed ", " coins");
    ("gave ", " coins");
    ("", " coins donated");
    ("", " coins to the clan");
    ("clan donation ", "");
    ("", " coins added to clan");
    ("clan treasury ", "");
    ("", " coins clan donation");
    ("deposited ", " coins");
    ("", " coins deposited");
    ("", " rubies donated");
    ("donated ", " rubies");
    ("", " rubies to the clan");
    ("", " rubies added to clan") ].

(** The phrasing of rule [i] (counted from 0) around the amount [d]. *)
Definition phrasing (i : nat) (d : string) : string :=
  fst (nth i phrasings ("", "")) ++ d ++ snd (nth i phrasings ("", "")).

(** What is shown of the phrasing of rule [i] around the amount [d]: the
    text passes the keyword filter, the amount extracted from it is the
    integer embedded in [d] (when [int] accepts its digits), and rule [i]
    matches it with [d] as its capture. *)
Definition phrase_ok (i : nat) (d : string) : Prop :=
  let post := snd (nth i phrasings ("", "")) in
  has_keyword (phrasing i d) = true
  /\ ((digit_count d <= int_max_str_digits)%nat ->
      first_amount patterns (phrasing i d) = Some (embedded_integer d))
  /\ search (nth i patterns Eps) (phrasing i d) = Some (Some (d ++ post, post)).

(** ** The bound on the iterations *)

(** The pattern can match the empty text. *)
Fixpoint nullable (r : regex) : bool :=
  match r with
  | Eps => true
  | Chr _ | Cls _ => false
  | Cat r1 r2 => nullable r1 && nullable r2
  | Opt _ | Star _ | Lazy _ => true
  | Group r1 => nullable r1
  end.

(** Every repetition of the pattern has a body that cannot match the empty
    text. *)
Fixpoint loops_consume (r : regex) : bool :=
  match r with
  | Eps | Chr _ | Cls _ => true
  | Cat r1 r2 => loops_consume r1 && loops_consume r2
  | Opt r1 | Group r1 => loops_consume r1
  | Star r1 | Lazy r1 => negb (nullable r1) && loops_consume r1
  end.

(** The search with [extra] more iterations allowed to every repetition. *)
Fixpoint rmatch_upto {A : Type} (extra : nat) (r : regex) (k : @cont A) : cont :=
  match r with
  | Eps => k
  | Chr a =>
      fun c s =>
        match s with
        | String b s' => if Ascii.eqb a b then k c s' else None
        | EmptyString => None
        end
  | Cls p =>
      fun c s =>
        match s with
        | String b s' => if in_class p b then k c s' else None
        | EmptyString => None
        end
  | Cat r1 r2 => rmatch_upto extra r1 (rmatch_upto extra r2 k)
  | Opt r1 =>
      fun c s =>
        match rmatch_upto extra r1 k c s with
        | Some x => Some x
        | None => k c s
        end
  | Star r1 =>
      fun c s => star_loop (rmatch_upto extra r1) k (extra + length s) c s
  | Lazy r1 =>
      fun c s => lazy_loop (rmatch_upto extra r1) k (extra + length s) c s
  | Group r1 =>
      fun c s => rmatch_upto extra r1 (fun _ s' => k (Some (s, s')) s') c s
  end.

(** Two continuations that agree on the texts of length at most [n]. *)
Definition agree {A : Type} (n : nat) (K1 K2 : @cont A) : Prop :=
  forall c s, (length s <= n)%nat -> K1 c s = K2 c s.

(** ** [process_donation_message] *)

(** A [discord.Embed], as far as the tracker reads it. *)
Record embed : Type := mk_embed {
  title : option string;
  description : option string
}.

(** A [discord.Message], as far as the tracker reads it: [mentions] holds
    [str(user.id)] for the users of [message.mentions], [guild_id] is
    [str(message.guild.id)]. *)
Record message : Type := mk_message {
  content : string;
  embeds : list embed;
  mentions : list string;
  guild_id : string
}.

(** The reaction added to the message: the check mark when the donation was
    recorded, the question mark when it was detected but not attributed. *)
Inductive reaction : Type := Tracked | Unattributed.

(** [if text:] on an optional string: neither [None] nor empty. *)
Definition truthy (o : option string) : option string :=
  match o with
  | Some EmptyString => None
  | Some s => Some s
  | None => None
  end.

(** The loop over [message.embeds] that looks for a donation in the
    description, then in the title, of each embed and stops at the first
    one found. *)
Fixpoint parse_embeds (l : list embed) : result (option Z) :=
  match l with
  | [] => Return None
  | e :: l' =>
      let in_title :=
        match truthy (title e) with
        | Some s =>
            match parse_donation_message s with
            | Return (Some a) => Return (Some a)
            | Return None => parse_embeds l'
            | Raise x => Raise x
            end
        | None => parse_embeds l'
        end in
      match truthy (description e) with
      | Some s =>
          match parse_donation_message s with
          | Return (Some a) => Return (Some a)
          | Return None => in_title
          | Raise x => Raise x
          end
      | None => in_title
      end
  end.

(** [donation_info]: the message content first, then the embeds. *)
Definition detect_donation (m : message) : result (option Z) :=
  match parse_donation_message (content m) with
  | Return (Some a) => Return (Some a)
  | Return None => parse_embeds (embeds m)
  | Raise x => Raise x
  end.

(** [content_to_search] *)
Definition content_to_search (m : message) : string :=
  fold_left
    (fun acc e =>
       let acc1 := match truthy (description e) with
                   | Some s => acc ++ " " ++ s
                   | None => acc
                   end in
       match truthy (title e) with
       | Some s => acc1 ++ " " ++ s
       | None => acc1
       end)
    (embeds m) (content m).

(** The crossed-swords emoji, U+2694 U+FE0F, in UTF-8. *)
Definition crossed_swords : string :=
  String (ascii_of_N 226) (String (ascii_of_N 154) (String (ascii_of_N 148)
  (String (ascii_of_N 239) (String (ascii_of_N 184) (String (ascii_of_N 143)
   EmptyString))))).

(** [clean_player_name] *)
Definition clean_player_name (player_name : string) : string :=
  Str.strip (Str.replace "  " " " (Str.replace crossed_swords "" player_name)).

(** The loop over [mentioned_users]: every mentioned user who is registered
    is credited.  The result tells whether a donation was recorded. *)
Fixpoint credit_mentions (g : string) (users : list string) (amount : Z)
  (now : instant) (recorded : bool) : M bool :=
  match users with
  | [] => ret recorded
  | user_id :: users' =>
      fun t =>
        if is_player_registered t g user_id
        then
          (player_name <-
             (fun t' =>
                match dget g (registered_players t') with
                | Some players =>
                    match dget user_id players with
                    | Some n => (Return n, t')
                    | None => (Raise KeyError, t')
                    end
                | None => (Raise KeyError, t')
                end) ;;
           add_donation g user_id player_name amount now ;;
           credit_mentions g users' amount now true) t
        else credit_mentions g users' amount now recorded t
  end.

(** The loop over [registered_players.items()]: the first player whose
    cleaned name occurs in the searched text is credited, and the loop
    stops. *)
Fixpoint credit_by_name (g : string) (players : dict string) (text : string)
  (amount : Z) (now : instant) : M bool :=
  match players with
  | [] => ret false
  | (user_id, player_name) :: players' =>
      if Str.contains (Str.lower (clean_player_name player_name)) (Str.lower text)
      then add_donation g user_id player_name amount now ;; ret true
      else credit_by_name g players' text amount now
  end.

(** The body of the [try] block once a donation was detected. *)
Definition attribute_donation (m : message) (amount : Z) (now : instant) : M reaction :=
  let g := guild_id m in
  recorded <- credit_mentions g (mentions m) amount now false ;;
  recorded <-
    (if recorded then ret true
     else fun t =>
       let players := match dget g (registered_players t) with
                      | Some p => p
                      | None => []
                      end in
       credit_by_name g players (content_to_search m) amount now t) ;;
  ret (if recorded then Tracked else Unattributed).

(** [process_donation_message(message)]: the reaction added, if any, and the
    tracker afterwards.  An exception raised inside the [try] block is
    logged and dropped; the mutations made before it remain.  [now] is the
    reading of the clock for the donations of this message. *)
Definition process_donation_message (m : message) (now : instant)
  (t : tracker) : option reaction * tracker :=
  match detect_donation m with
  | Return (Some amount) =>
      match attribute_donation m amount now t with
      | (Return r, t') => (Some r, t')
      | (Raise _, t') => (None, t')
      end
  | Return None => (None, t)
  | Raise _ => (None, t)
  end.

(** ** [generate_weekly_report] *)

(** One line of the summary: the rank (a medal for the first three), the
    name, the amount, the number of donations and the days left. *)
Record report_line : Type := mk_line {
  rank : nat;
  line_name : json;
  line_amount : Z;
  donation_count : nat;
  days_remaining : Z
}.

(** The summary, before it is rendered as text: either the sentence
    [No donations recorded this week.] or the lines, the total and the
    number of donors. *)
Inductive report : Type :=
| NoDonations
| Summary (lines : list report_line) (total_donated : Z) (active_donors : nat).

(** [d[key]] on a JSON value. *)
Definition getitem (d : json) (key : string) : result json :=
  match d with
  | JDict l => match dget key l with Some v => Return v | None => Raise KeyError end
  | _ => Raise TypeError
  end.

(** [not v] *)
Definition falsy (v : json) : bool :=
  match v with
  | JNull => true
  | JInt n => n =? 0
  | JStr s => match s with EmptyString => true | _ => false end
  | JTime _ => false
  | JList l => match l with [] => true | _ => false end
  | JDict d => match d with [] => true | _ => false end
  end.

(** The sort key [x[1]["amount"]] of every item; the amounts are compared as
    integers, anything else is reported as a [TypeError]. *)
Fixpoint amount_keys (items : list (string * json)) : result (list (Z * (string * json))) :=
  match items with
  | [] => Return []
  | (u, data) :: items' =>
      match getitem data "amount" with
      | Return (JInt a) =>
          match amount_keys items' with
          | Return l => Return ((a, (u, data)) :: l)
          | Raise e => Raise e
          end
      | Return _ => Raise TypeError
      | Raise e => Raise e
      end
  end.

(** Insertion in descending order of the key, before the elements of equal
    key. *)
Fixpoint insert_desc {B : Type} (x : Z * B) (l : list (Z * B)) : list (Z * B) :=
  match l with
  | [] => [x]
  | y :: l' => if fst y <=? fst x then x :: l else y :: insert_desc x l'
  end.

(** [sorted(..., reverse=True)]: descending, equal keys in their original
    order. *)
Definition sorted_desc {B : Type} (l : list (Z * B)) : list (Z * B) :=
  fold_right insert_desc [] l.

(** [len(v)].  A timestamp is a string: 25 characters in the form
    [YYYY-MM-DDTHH:MM:SS+00:00], 32 with the microseconds. *)
Definition len (v : json) : result nat :=
  match v with
  | JList l => Return (List.length l)
  | JDict d => Return (List.length d)
  | JStr s => Return (String.length s)
  | JTime t => Return (if t mod 1000000 =? 0 then 25%nat else 32%nat)
  | JNull | JInt _ => Raise TypeError
  end.

(** [v[k1][k2]...[kn]]: the value at the end of a path of keys. *)
Fixpoint getpath (v : json) (path : list string) : result json :=
  match path with
  | [] => Return v
  | key :: path' =>
      match getitem v key with
      | Return v' => getpath v' path'
      | Raise e => Raise e
      end
  end.

(** [len(v[k1][k2]...[kn])] *)
Definition count_at (v : json) (path : list string) : result nat :=
  match getpath v path with
  | Return l => len l
  | Raise e => Raise e
  end.

(** [datetime.fromisoformat(v.replace('Z', '+00:00'))]: the instant of a
    timestamp, [ValueError] for another string, [AttributeError] for a value
    without [replace]. *)
Definition fromisoformat (v : json) : result instant :=
  match v with
  | JTime t => Return t
  | JStr _ => Raise ValueError
  | _ => Raise AttributeError
  end.

(** The body of the loop over [sorted_players], for the player of rank [i]. *)
Definition report_player (current_time : instant) (i : nat) (amount : Z)
  (data : json) : result report_line :=
  match getitem data "name" with
  | Raise e => Raise e
  | Return name =>
      match getitem data "donations" with
      | Raise e => Raise e
      | Return ds =>
          match len ds with
          | Raise e => Raise e
          | Return donation_count =>
              match getitem data "week_start" with
              | Raise e => Raise e
              | Return ws =>
                  match fromisoformat ws with
                  | Raise e => Raise e
                  | Return week_start =>
                      let days_elapsed := days_between current_time week_start in
                      Return (mk_line i name amount donation_count
                                (Z.max 0 (7 - days_elapsed)))
                  end
              end
          end
      end
  end.

Fixpoint report_players (current_time : instant) (i : nat)
  (l : list (Z * (string * json))) : result (list report_line * Z) :=
  match l with
  | [] => Return ([], 0)
  | (amount, (_, data)) :: l' =>
      match report_player current_time i amount data with
      | Raise e => Raise e
      | Return line =>
          match report_players current_time (S i) l' with
          | Raise e => Raise e
          | Return (lines, total) => Return (line :: lines, amount + total)
          end
      end
  end.

(** [generate_weekly_report()] on the dictionary [self.donations_data], with
    the reading of the clock. *)
Definition generate_weekly_report (donations : dict json)
  (current_time : instant) : result report :=
  match dget "weekly_donations" donations with
  | None => Raise KeyError
  | Some weekly_data =>
      if falsy weekly_data then Return NoDonations
      else
        match weekly_data with
        | JDict items =>
            match amount_keys items with
            | Raise e => Raise e
            | Return keyed =>
                let sorted_players := sorted_desc keyed in
                match report_players current_time 1 sorted_players with
                | Raise e => Raise e
                | Return (lines, total_donated) =>
                    Return (Summary lines total_donated (List.length sorted_players))
                end
            end
        | _ => Raise AttributeError
        end
  end.

(** ** Histories of ledger operations *)

(** A call of [add_donation] or of [cleanup_expired_weeks], with the reading
    of the clock at the call. *)
Inductive op : Type :=
| Append (guild_id user_id player_name : string) (amount : Z) (now : instant)
| Sweep (now : instant).

Definition run_op (o : op) : M unit :=
  match o with
  | Append g u name amount now => add_donation g u name amount now
  | Sweep now => cleanup_expired_weeks now
  end.

Definition run_ops (l : list op) : M unit := for_each l run_op.

(** The donation records a history appends for player [u] of guild [g]. *)
Fixpoint appended (g u : string) (l : list op) : list Donation.t :=
  match l with
  | [] => []
  | Append g' u' _ amount now :: l' =>
      if String.eqb g g' && String.eqb u u'
      then Donation.mk amount now :: appended g u l'
      else appended g u l'
  | Sweep _ :: l' => appended g u l'
  end.

(** [sum(events.amount)] *)
Definition sum_amounts (l : list Donation.t) : Z :=
  fold_right (fun r acc => Donation.amount r + acc) 0 l.

(** The guild ids a history uses. *)
Fixpoint guild_ids (l : list op) : list string :=
  match l with
  | [] => []
  | Append g _ _ _ _ :: l' => g :: guild_ids l'
  | Sweep _ :: l' => guild_ids l'
  end.

(** Every guild of the store has its two sections. *)
Definition sections_present (d : dict guild_data) : Prop :=
  forall g gd, In (g, gd) d ->
    weekly_donations gd <> None /\ total_donations gd <> None.

(** The all-time events and running total of a player, empty and zero when
    the player has no entry. *)
Definition total_events (t : tracker) (g u : string) : list Donation.t :=
  match dget u (get_total_donations t g) with
  | Some e => Total.donations e
  | None => []
  end.

Definition total_amount (t : tracker) (g u : string) : Z :=
  match dget u (get_total_donations t g) with
  | Some e => Total.amount e
  | None => 0
  end.

(** Seven days, in microseconds. *)
Definition seven_days : Z := 7 * microseconds_per_day.

(** ** Sample data *)

(** A store with one guild and one player, whose window is anchored at the
    epoch and holds one donation of 100. *)
Definition sample_entry : Weekly.t :=
  Weekly.mk "Alice" 100 [Donation.mk 100 0] 0.

Definition sample_guild : guild_data :=
  mk_guild (Some [("42", sample_entry)])
    (Some [("42", Total.mk "Alice" 100 [Donation.mk 100 0])]) None.

Definition sample_tracker : tracker :=
  mk_tracker [("900000000000000001", sample_guild)]
    [("900000000000000001", [("42", "Alice")])] Missing Missing.


(** The claim that the sweep resets an expired window in place: the entry
    stays, emptied. *)
Definition sweep_resets_in_place : Prop :=
  forall (t : tracker) (now : instant) (g u : string) (gd : guild_data)
         (w : dict Weekly.t) (e : Weekly.t),
    dget g (donations_data t) = Some gd ->
    weekly_donations gd = Some w ->
    dget u w = Some e ->
    seven_days <= now - Weekly.week_start e ->
    exists e',
      dget u (get_weekly_donations (snd (cleanup_expired_weeks now t)) g) = Some e'
      /\ Weekly.donations e' = [] /\ Weekly.amount e' = 0.

(** A fresh tracker: no data, no file. *)
Definition fresh_tracker : tracker := mk_tracker [] [] Missing Missing.

(** A history in which the window of player 42 is reset twice, once by a
    donation after the expiry and once by the sweep. *)
Definition sample_history : list op :=
  [ Append "900000000000000001" "42" "Alice" 100 0;
    Append "900000000000000001" "43" "Bob" 7 1;
    Append "900000000000000001" "42" "Alice" 50 seven_days;
    Sweep (3 * seven_days);
    Append "900000000000000001" "42" "Alice" 25 (3 * seven_days + 1) ].

(** A key of a legacy flat document as the specification describes it: a
    short identity that is not a number. *)
Definition short_non_numeric (k : string) : bool :=
  negb (Str.isdigit k) && (length k <=? 10)%nat.

(** The claim that every legacy flat document is wrapped on load, from
    either file. *)
Definition every_legacy_document_is_wrapped : Prop :=
  forall data : dict json,
    Forall (fun k => short_non_numeric k = true) (dkeys data) ->
    load_donations (Stored data) = [("0", JDict data)]
    /\ load_registered_players (Stored data) = [("0", JDict data)].

(** A flat ledger keyed by player identity. *)
Definition flat_by_player : dict json :=
  [("alice", JDict [("name", JStr "Alice"); ("amount", JInt 100)])].

(** A ledger document in the legacy single-server shape. *)
Definition legacy_ledger : dict json :=
  [("weekly_donations",
    JDict [("42", Weekly.to_json sample_entry)]);
   ("total_donations",
    JDict [("42", Total.to_json (Total.mk "Alice" 100 [Donation.mk 100 0]))]);
   ("last_reset", JNull)].

(** The claim that [load_donations] never returns a dictionary with the key
    ["weekly_donations"] at its top level. *)
Definition load_never_returns_report_shape : Prop :=
  forall f : file, dmem "weekly_donations" (load_donations f) = false.

(** The top-level keys of a stored document are ASCII text. *)
Definition ascii_keys (f : file) : Prop :=
  match f with
  | Stored data => Forall (fun k => Str.is_ascii k = true) (dkeys data)
  | Corrupt | Missing => True
  end.

(** A document that has the legacy section next to a guild id. *)
Definition mixed_ledger : dict json :=
  [("weekly_donations", JDict []); ("12345678901", JDict [])].

(** Two registered players of one guild. *)
Definition two_players : tracker :=
  mk_tracker [] [("900000000000000001", [("42", "Alice"); ("43", "Bob")])]
    Missing Missing.

(** A donation message that mentions both of them. *)
Definition two_mentions : message :=
  mk_message "Alice donated 500 coins to the clan of Bob" []
    ["42"; "43"] "900000000000000001".

(** A donation message that mentions Alice and names Bob. *)
Definition mention_and_name : message :=
  mk_message "Bob says: donated 500 coins" [] ["42"] "900000000000000001".

(** A computation that leaves the players directory alone, whether it
    returns or raises. *)
Definition keeps_players {A : Type} (m : M A) : Prop :=
  forall t, registered_players (snd (m t)) = registered_players t.


(** The generic rule [donated **N** gold] and the more specific rule
    [you have donated **N** gold], first and second of the list. *)
Definition rule_generic_gold : regex := nth 0 patterns Eps.
Definition rule_specific_gold : regex := nth 1 patterns Eps.

(** The claim that, of these two rules, the more specific one decides the
    amount of a text that both match. *)
Definition specific_rule_wins : Prop :=
  forall (content : string) (n1 n2 : Z),
    rule_amount rule_generic_gold (Str.lower content) = Some n1 ->
    rule_amount rule_specific_gold (Str.lower content) = Some n2 ->
    parse_donation_message content = Return (Some n2).

(** A text that both rules match, with different amounts. *)
Definition two_gold_donations : string :=
  "Donated **1** gold. You have donated **2** gold.".

(** How many times the loop over the mentions credits user [u] of guild
    [g']: once for each of its occurrences among the registered mentions of
    guild [g]. *)
Definition credits (t : tracker) (g : string) (users : list string)
  (g' u : string) : nat :=
  if String.eqb g' g
  then count_occ string_dec (filter (is_player_registered t g) users) u
  else O.

From Stdlib Require Permutation Sorted.

(** ** The players directory *)

(** [self.registered_players[guild_id]] *)
Definition players_item (g : string) : M (dict string) :=
  fun t =>
    match dget g (registered_players t) with
    | Some players => (Return players, t)
    | None => (Raise KeyError, t)
    end.

(** [self.registered_players[guild_id] = players] *)
Definition set_players_item (g : string) (players : dict string) : M unit :=
  fun t => (Return tt, set_registered_players (dset g players (registered_players t)) t).

(** [register_player(guild_id, user_id, player_name)] *)
Definition register_player (guild_id user_id player_name : string) : M bool :=
  (fun t =>
     when (negb (dmem guild_id (registered_players t)))
       (set_players_item guild_id []) t) ;;
  players <- players_item guild_id ;;
  set_players_item guild_id (dset user_id player_name players) ;;
  save_registered_players ;;
  ret true.

(** [unregister_player(guild_id, user_id)]; [pop] removes the key. *)
Definition unregister_player (guild_id user_id : string) : M bool :=
  fun t =>
    if dmem guild_id (registered_players t)
       && match dget guild_id (registered_players t) with
          | Some players => dmem user_id players
          | None => false
          end
    then
      (players <- players_item guild_id ;;
       set_players_item guild_id (ddel user_id players) ;;
       save_registered_players ;;
       ret true) t
    else ret false t.

(** [get_registered_players(guild_id)] *)
Definition get_registered_players (t : tracker) (guild_id : string) : dict string :=
  match dget guild_id (registered_players t) with
  | Some players => players
  | None => []
  end.

(** ** The weekly target *)

(** The targets live in a file of their own, [data/weekly_target.json], which
    every call reads and, for [set_weekly_target], writes: the functions
    take the content of that file and return the new one.  The content is
    given by what reading it comes to: there is no file ([NoTargets]); the
    file is a text that is not JSON, so that [json.load] raises
    [JSONDecodeError] ([TargetsNotJson]); [open] or [json.load] raises
    another exception [e], as [UnicodeDecodeError] on bytes that are no
    text ([TargetsUnreadable e]); or the file holds the JSON value [v],
    an object or not ([Targets v]). *)
Inductive targets_file : Type :=
| NoTargets
| TargetsNotJson
| TargetsUnreadable (e : exn)
| Targets (v : json).

(** [load_weekly_target()]: of the exceptions of the reading, only
    [JSONDecodeError] and [FileNotFoundError] are caught. *)
Definition load_weekly_target (f : targets_file) : result json :=
  match f with
  | Targets v => Return v
  | TargetsUnreadable e => Raise e
  | TargetsNotJson => Return (JDict [("targets", JDict [])])
  | NoTargets => Return (JDict [("targets", JDict [])])
  end.

(** [save_weekly_target(targets)] *)
Definition save_weekly_target (targets : json) : targets_file := Targets targets.

(** [set_weekly_target(guild_id, amount)].  The assignment
    [targets["targets"][guild_id] = amount] needs a value that is indexed by
    a string, a dictionary ([TypeError]), with the key ["targets"]
    ([KeyError]), and under that key a value that takes a string key, again
    a dictionary ([TypeError]).  Nothing is written when it raises. *)
Definition set_weekly_target (guild_id : string) (amount : Z) (f : targets_file)
  : result unit * targets_file :=
  match load_weekly_target f with
  | Raise e => (Raise e, f)
  | Return (JDict targets) =>
      match dget "targets" targets with
      | None => (Raise KeyError, f)
      | Some (JDict d) =>
          (Return tt,
           save_weekly_target
             (JDict (dset "targets" (JDict (dset guild_id (JInt amount) d)) targets)))
      | Some _ => (Raise TypeError, f)
      end
  | Return _ => (Raise TypeError, f)
  end.

(** [get_weekly_target(guild_id)]: [targets["targets"].get(guild_id, 0)];
    only a dictionary is indexed by a string, and only a dictionary has
    [get]. *)
Definition get_weekly_target (guild_id : string) (f : targets_file) : result json :=
  match load_weekly_target f with
  | Raise e => Raise e
  | Return (JDict targets) =>
      match dget "targets" targets with
      | None => Raise KeyError
      | Some (JDict d) =>
          Return (match dget guild_id d with Some v => v | None => JInt 0 end)
      | Some _ => Raise AttributeError
      end
  | Return _ => Raise TypeError
  end.

(** The targets file is usable: there is none, it is a text that is not
    JSON, or it holds an object with an object under ["targets"]. *)
Definition has_targets (f : targets_file) : Prop :=
  f = NoTargets \/ f = TargetsNotJson \/
  exists targets d, f = Targets (JDict targets)
                    /\ dget "targets" targets = Some (JDict d).

(** ** Invariants of the ledger *)

(** The window of a player is consistent: its running total is the sum of
    its events, and each of its events lies less than seven whole days after
    its anchor. *)
Definition window_ok (e : Weekly.t) : Prop :=
  Weekly.amount e = sum_amounts (Weekly.donations e)
  /\ Forall (fun r => days_between (Donation.timestamp r) (Weekly.week_start e) < 7)
       (Weekly.donations e).

(** The window of a player holds the last events of the player's all-time
    list. *)
Definition window_in_history (t : tracker) (g u : string) (e : Weekly.t) : Prop :=
  exists older, total_events t g u = (older ++ Weekly.donations e)%list.

(** Both, for every window of the store. *)
Definition windows_ok (t : tracker) : Prop :=
  forall g u e,
    dget u (get_weekly_donations t g) = Some e ->
    window_ok e /\ window_in_history t g u e.

(** The donations file holds the document of the store. *)
Definition in_sync (t : tracker) : Prop :=
  donations_file t = Stored (donations_document (donations_data t)).

(** No window of the store is seven days old at [now]. *)
Definition nothing_expired (now : instant) (t : tracker) : Prop :=
  forall g gd w u e,
    In (g, gd) (donations_data t) ->
    weekly_donations gd = Some w ->
    In (u, e) w ->
    now - Weekly.week_start e < seven_days.

(** The guild [g] is complete in the store, or not in it yet. *)
Definition guild_complete (t : tracker) (g : string) : Prop :=
  forall gd, dget g (donations_data t) = Some gd ->
    weekly_donations gd <> None /\ total_donations gd <> None.

(** ** Texts and amounts *)

(** [pre ++ g ++ post] is how the text reads around an occurrence of [g]. *)
Definition occurs_in (g text : string) : Prop :=
  exists pre post, text = pre ++ g ++ post.

(** A name is plain: ASCII text once the crossed swords are taken out of
    it.  On such a name [clean_player_name] is what the source computes. *)
Definition plain_name (player_name : string) : bool :=
  Str.is_ascii (Str.replace crossed_swords "" player_name).

(** The texts are ASCII. *)
Definition all_ascii (texts : list string) : Prop :=
  Forall (fun s => Str.is_ascii s = true) texts.

(** The names of the players are plain. *)
Definition plain_names (players : dict string) : Prop :=
  Forall (fun p => plain_name (snd p) = true) players.

(** The test of the name search: the cleaned name of the player, in lower
    case, occurs in the text in lower case. *)
Definition name_found (text : string) (player_name : string) : bool :=
  Str.contains (Str.lower (clean_player_name player_name)) (Str.lower text).

(** The text holds a decimal digit. *)
Fixpoint has_digit (s : string) : bool :=
  match s with
  | EmptyString => false
  | String c s' => Str.is_digit c || has_digit s'
  end.

(** The texts of an embed that [process_donation_message] reads: the
    description, then the title, each when it is not empty. *)
Definition embed_texts (e : embed) : list string :=
  (match truthy (description e) with Some s => [s] | None => [] end
   ++ match truthy (title e) with Some s => [s] | None => [] end)%list.

(** The texts of a message in which a donation is looked for. *)
Definition message_texts (m : message) : list string :=
  content m :: flat_map embed_texts (embeds m).

(** A computation that, whether it returns or raises, leaves alone the
    players directory, its file, and every guild of the store but [g]. *)
Definition touches_only_guild {A : Type} (g : string) (m : M A) : Prop :=
  forall t,
    registered_players (snd (m t)) = registered_players t
    /\ players_file (snd (m t)) = players_file t
    /\ forall g', g' <> g ->
         dget g' (donations_data (snd (m t))) = dget g' (donations_data t).

(** No player of the list is found by name in the text. *)
Definition nobody_named (text : string) (players : dict string) : bool :=
  forallb (fun p => negb (name_found text (snd p))) players.

(** A computation that, run on a tracker in which user [u] is not registered
    in guild [g], leaves alone the players directory and what the store
    holds for that user in that guild, whether it returns or raises. *)
Definition never_credits {A : Type} (g u : string) (m : M A) : Prop :=
  forall t,
    is_player_registered t g u = false ->
    registered_players (snd (m t)) = registered_players t
    /\ dget u (get_weekly_donations (snd (m t)) g)
       = dget u (get_weekly_donations t g)
    /\ dget u (get_total_donations (snd (m t)) g)
       = dget u (get_total_donations t g).

(** The keys of the window dictionary of guild [g] are pairwise distinct, as
    those of a Python dictionary are. *)
Definition distinct_windows (t : tracker) (g : string) : Prop :=
  forall gd w,
    dget g (donations_data t) = Some gd ->
    weekly_donations gd = Some w ->
    NoDup (dkeys w).

(** ** The lines of the weekly report *)

(** The line of the summary for the window [e], at rank [i]. *)
Definition summary_line (current_time : instant) (i : nat) (e : Weekly.t)
  : report_line :=
  mk_line i (JStr (Weekly.name e)) (Weekly.amount e)
    (List.length (Weekly.donations e))
    (Z.max 0 (7 - days_between current_time (Weekly.week_start e))).

(** The lines for the windows [l], ranked from [i] on. *)
Fixpoint summary_lines (current_time : instant) (i : nat) (l : list Weekly.t)
  : list report_line :=
  match l with
  | [] => []
  | e :: l' => summary_line current_time i e :: summary_lines current_time (S i) l'
  end.

(** Amounts in descending order. *)
Definition descending (l : list Z) : Prop :=
  Sorted.StronglySorted (fun a b => b <= a) l.

(** [sum(data["amount"] for data in weekly_data.values())] *)
Definition sum_weekly (w : dict Weekly.t) : Z :=
  fold_right (fun kv acc => Weekly.amount (snd kv) + acc) 0 w.

(** [sum(data["amount"] for data in total_data.values())] *)
Definition sum_total (d : dict Total.t) : Z :=
  fold_right (fun kv acc => Total.amount (snd kv) + acc) 0 d.

(** ** The commands ([bot/commands.py]) *)

(** The context of a command, as far as the handlers read it:
    [str(ctx.guild.id)], [str(ctx.author.id)] and
    [ctx.author.guild_permissions.manage_messages].  The handlers are given
    with what they answer, before it is rendered as text; the permission
    checks of their decorators are made by the framework before a handler
    runs and are not part of it. *)
Record ctx : Type := mk_ctx {
  ctx_guild : string;
  ctx_author : string;
  manage_messages : bool
}.

(** The check at the head of the public commands: a user without the
    permission must be registered in the guild. *)
Definition must_register (c : ctx) (t : tracker) : bool :=
  negb (manage_messages c)
  && negb (is_player_registered t (ctx_guild c) (ctx_author c)).

(** [(now - start).seconds]: the seconds of the normalised difference, less
    than a day. *)
Definition timedelta_seconds (now start : instant) : Z :=
  ((now - start) mod microseconds_per_day) / 1000000.

(** *** [weekly_donations]: the leaderboard *)

(** A line of the leaderboard: the rank (a medal for the first three), the
    name, the weekly amount, the all-time amount, and the days and hours
    shown as left. *)
Record leader_line : Type := mk_leader {
  leader_rank : nat;
  leader_name : string;
  leader_weekly : Z;
  leader_total : Z;
  leader_days : Z;
  leader_hours : Z
}.

(** The body of the loop over [enumerate(sorted_weekly[:10], 1)]. *)
Definition leader_line_of (total_data : dict Total.t) (current_time : instant)
  (i : nat) (item : string * Weekly.t) : leader_line :=
  let (user_id, data) := item in
  let week_start := Weekly.week_start data in
  let days_elapsed := days_between current_time week_start in
  let days_remaining := Z.max 0 (7 - days_elapsed) in
  let hours_remaining :=
    Z.max 0 (24 - timedelta_seconds current_time week_start / 3600) in
  let total_amount :=
    match dget user_id total_data with
    | Some e => Total.amount e
    | None => 0
    end in
  mk_leader i (Weekly.name data) (Weekly.amount data) total_amount
    days_remaining hours_remaining.

Fixpoint leader_lines (total_data : dict Total.t) (current_time : instant)
  (i : nat) (l : list (string * Weekly.t)) : list leader_line :=
  match l with
  | [] => []
  | item :: l' =>
      leader_line_of total_data current_time i item
      :: leader_lines total_data current_time (S i) l'
  end.

(** [sorted(weekly_data.items(), key=lambda x: x[1]["amount"], reverse=True)] *)
Definition sorted_weekly (weekly_data : dict Weekly.t) : list (string * Weekly.t) :=
  map snd (sorted_desc (map (fun kv => (Weekly.amount (snd kv), kv)) weekly_data)).

(** The block [if weekly_data:] of [weekly_donations]: the lines of the
    field of the weekly donations, for the first ten of the ranking. *)
Definition weekly_leaderboard (weekly_data : dict Weekly.t)
  (total_data : dict Total.t) (current_time : instant) : list leader_line :=
  leader_lines total_data current_time 1 (firstn 10 (sorted_weekly weekly_data)).

(** What is left of a window at [now]: the time until it is seven days
    old. *)
Definition time_left (now : instant) (e : Weekly.t) : Z :=
  Weekly.week_start e + seven_days - now.

(** The time a line shows as left, in microseconds. *)
Definition microseconds_per_hour : Z := 3600000000.

Definition time_shown (l : leader_line) : Z :=
  leader_days l * microseconds_per_day + leader_hours l * microseconds_per_hour.

(** *** [player_stats] *)

Inductive stats_reply : Type :=
| StatsMustRegister
| SpecifyPlayer
| PlayerNotFound (player_name : string)
| PlayerStats (player_name : string)
    (weekly_amount : Z) (weekly_count : nat)
    (total_amount : Z) (total_count : nat) (average : option Z).

(** The loop over [players.items()] that finds the player by name, without
    regard to case: the first match, with the name as registered. *)
Fixpoint find_player (players : dict string) (player_name : string)
  : option (string * string) :=
  match players with
  | [] => None
  | (uid, name) :: players' =>
      if String.eqb (Str.lower name) (Str.lower player_name)
      then Some (uid, name)
      else find_player players' player_name
  end.

(** [player_stats(ctx, player_name)]; [None] when the argument is left out. *)
Definition player_stats (c : ctx) (player_name : option string) (t : tracker)
  : stats_reply :=
  let guild_id := ctx_guild c in
  let user_id := ctx_author c in
  if must_register c t then StatsMustRegister
  else
    let asked :=
      match truthy player_name with
      | Some n => Some n
      | None => dget user_id (get_registered_players t guild_id)
      end in
    match asked with
    | None => SpecifyPlayer
    | Some player_name =>
        let players := get_registered_players t guild_id in
        match find_player players player_name with
        | None => PlayerNotFound player_name
        | Some (EmptyString, name) => PlayerNotFound name
        | Some (target_user_id, name) =>
            let weekly_data := get_weekly_donations t guild_id in
            let total_data := get_total_donations t guild_id in
            let (weekly_amount, weekly_count) :=
              match dget target_user_id weekly_data with
              | Some e => (Weekly.amount e, List.length (Weekly.donations e))
              | None => (0, O)
              end in
            let (total_amount, total_count) :=
              match dget target_user_id total_data with
              | Some e => (Total.amount e, List.length (Total.donations e))
              | None => (0, O)
              end in
            PlayerStats name weekly_amount weekly_count total_amount total_count
              (if (0 <? total_count)%nat
               then Some (total_amount / Z.of_nat total_count)
               else None)
        end
    end.

(** *** [test_donate] *)


(** ** The daily task ([main.py]) *)

(** [now.weekday()]: Monday is 0 and Sunday is 6; the first day of the epoch
    was a Thursday. *)
Definition weekday (now : instant) : Z :=
  (now / microseconds_per_day + 3) mod 7.

Section DailyCleanup.

(** The text of a report, as [generate_weekly_report] joins its lines. *)
Variable render : report -> string.

(** [daily_cleanup()], with the reading of the clock, which stands for the
    readings made during the call, and whether [bot.get_channel] finds the
    channel: the text that is posted, if any. *)
Definition daily_cleanup (now : instant) (channel : bool) : M (option string) :=
  cleanup_expired_weeks now ;;
  if weekday now =? 6
  then
    if channel
    then
      fun t =>
        match generate_weekly_report (donations_document (donations_data t)) now with
        | Raise e => (Raise e, t)
        | Return r =>
            let report := render r in
            if negb (String.eqb report "")
               && negb (Str.contains "No donations recorded" report)
            then (Return (Some report), t)
            else (Return None, t)
        end
    else ret None
  else ret None.

End DailyCleanup.

(** ** The utilities ([bot/utils.py]) *)

(** *** [chunk_list] *)

(** [range(0, stop, step)]: [ValueError] for a step of zero, nothing for a
    negative step, and for a positive step the multiples of the step below
    [stop], of which there are [stop] over [step], rounded up. *)
Definition range_by (stop : nat) (step : Z) : result (list nat) :=
  if step =? 0 then Raise ValueError
  else if step <? 0 then Return []
  else
    let k := Z.to_nat step in
    Return (map (fun j => (j * k)%nat) (List.seq 0 ((stop + k - 1) / k))).

(** [chunk_list(lst, chunk_size)]: the slices [lst[i:i + chunk_size]]. *)
Definition chunk_list {A : Type} (lst : list A) (chunk_size : Z)
  : result (list (list A)) :=
  match range_by (List.length lst) chunk_size with
  | Raise e => Raise e
  | Return starts =>
      Return (map (fun i => firstn (Z.to_nat chunk_size) (skipn i lst)) starts)
  end.

(** *** [calculate_donation_streak] *)

(** [t.date()], as the number of days since the epoch. *)
Definition date_of (t : instant) : Z := t / microseconds_per_day.

(** [timezone.timedelta(days=n)]: the name [timezone] is the class
    [datetime.timezone], which has no attribute [timedelta]; looking it up
    raises [AttributeError]. *)
Definition timezone_timedelta (days : Z) : result Z := Raise AttributeError.

(** The loop over [sorted_donations], with the streak and the date reached
    so far. *)
Fixpoint streak_loop (sorted_donations : list Donation.t) (streak : Z)
  (current_date : Z) : result Z :=
  match sorted_donations with
  | [] => Return streak
  | donation :: rest =>
      let donation_date := date_of (Donation.timestamp donation) in
      if donation_date =? current_date
      then streak_loop rest (if streak =? 0 then 1 else streak) donation_date
      else
        match timezone_timedelta (streak + 1) with
        | Raise e => Raise e
        | Return delta =>
            if donation_date =? current_date - delta
            then streak_loop rest (streak + 1) donation_date
            else Return streak
        end
  end.

(** [calculate_donation_streak(donations)], with the reading of the clock;
    the donations are sorted by timestamp, newest first. *)
Definition calculate_donation_streak (donations : list Donation.t)
  (now : instant) : result Z :=
  match donations with
  | [] => Return 0
  | _ =>
      let sorted_donations :=
        map snd (sorted_desc (map (fun d => (Donation.timestamp d, d)) donations)) in
      streak_loop sorted_donations 0 (date_of now)
  end.

(** Every donation of the list is dated today. *)
Definition all_today (donations : list Donation.t) (now : instant) : bool :=
  forallb (fun d => date_of (Donation.timestamp d) =? date_of now) donations.

(** *** [parse_mention] *)

(** The pattern of a mention: the two characters that open it, an optional
    exclamation mark, one or more digits as group 1, and the closing
    bracket. *)
Definition mention_pattern : regex :=
  seq [lit "<@"; Opt (Chr "!"); Group (Plus digit); Chr ">"].

(** [re.match(pattern, s)]: a match at the start of the subject. *)
Definition re_match (r : regex) (s : string) : option capture :=
  rmatch r found None s.

(** [parse_mention(mention_str)]; [int] raises [ValueError] on more digits
    than the interpreter converts. *)
Definition parse_mention (mention_str : string) : result (option Z) :=
  match re_match mention_pattern mention_str with
  | Some m =>
      match group1 m with
      | Some g =>
          match py_int g with
          | Some n => Return (Some n)
          | None => Raise ValueError
          end
      | None => Raise TypeError
      end
  | None => Return None
  end.

(** *** [format_number] *)

(** The character of a decimal digit. *)
Definition digit_char (d : Z) : ascii := ascii_of_N (Z.to_N (48 + d)).

(** The decimal digits of [n], least significant first, pushed in front of
    [acc]; [fuel] bounds the number of digits. *)
Fixpoint digits_upto (fuel : nat) (n : Z) (acc : string) : string :=
  match fuel with
  | O => acc
  | S fuel' =>
      let acc' := String (digit_char (n mod 10)) acc in
      if n <? 10 then acc' else digits_upto fuel' (n / 10) acc'
  end.

(** [str(n)] for a natural number: its decimal digits, of which there are no
    more than binary ones. *)
Definition decimal (n : Z) : string :=
  digits_upto (S (Z.to_nat (Z.log2 n))) n "".

(** The digits with a comma between the groups of three, counted from the
    right. *)
Fixpoint group_thousands (digits : string) : string :=
  match digits with
  | EmptyString => EmptyString
  | String c rest =>
      String c
        (if negb (length rest =? 0)%nat && (length rest mod 3 =? 0)%nat
         then String "," (group_thousands rest)
         else group_thousands rest)
  end.

(** [format_number(num)], the format [{num:,}]. *)
Definition format_number (num : Z) : string :=
  if num <? 0
  then "-" ++ group_thousands (decimal (- num))
  else group_thousands (decimal num).

(** *** [validate_player_name] and [sanitize_player_name] *)

Definition is_lower (c : ascii) : bool :=
  let n := N_of_ascii c in (97 <=? n)%N && (n <=? 122)%N.

(** The class of the two patterns: a letter, a digit, white space, a dash,
    an underscore or a dot. *)
Definition name_char (c : ascii) : bool :=
  is_lower c || Str.is_upper c || Str.is_digit c || Str.is_space c
  || Ascii.eqb c "-" || Ascii.eqb c "_" || Ascii.eqb c ".".

Fixpoint all_chars (p : ascii -> bool) (s : string) : bool :=
  match s with
  | EmptyString => true
  | String c s' => p c && all_chars p s'
  end.

Fixpoint filter_chars (p : ascii -> bool) (s : string) : string :=
  match s with
  | EmptyString => EmptyString
  | String c s' => if p c then String c (filter_chars p s') else filter_chars p s'
  end.

(** The substitution of one space for every run of white space; [in_run]
    tells that the character before was white space. *)
Fixpoint collapse_spaces (in_run : bool) (s : string) : string :=
  match s with
  | EmptyString => EmptyString
  | String c s' =>
      if Str.is_space c
      then if in_run then collapse_spaces true s'
           else String " " (collapse_spaces true s')
      else String c (collapse_spaces false s')
  end.

Definition is_empty (s : string) : bool :=
  match s with EmptyString => true | _ => false end.

(** [validate_player_name(name)].  The pattern, one or more characters of
    the class between the start and the end of the stripped name, matches
    exactly the non-empty names made of characters of the class. *)
Definition validate_player_name (name : string) : bool :=
  if is_empty name || (length (Str.strip name) =? 0)%nat then false
  else if (50 <? length name)%nat then false
  else negb (is_empty (Str.strip name)) && all_chars name_char (Str.strip name).

(** [sanitize_player_name(name)] *)
Definition sanitize_player_name (name : string) : string :=
  if is_empty name then ""
  else
    let name := Str.strip name in
    let name := collapse_spaces false name in
    let name := filter_chars name_char name in
    if (50 <? length name)%nat then Str.strip (Str.take 50 name) else name.
(** * Properties *)

(** ** Strings *)

Lemma append_assoc (s1 s2 s3 : string) : (s1 ++ s2) ++ s3 = s1 ++ (s2 ++ s3).
Proof. induction s1 as [|a s1 IH]; simpl; [reflexivity | now rewrite IH]. Qed.

Lemma append_empty_r (s : string) : s ++ "" = s.
Proof. induction s as [|a s IH]; simpl; [reflexivity | now rewrite IH]. Qed.

Lemma length_append (s1 s2 : string) :
  length (s1 ++ s2) = (length s1 + length s2)%nat.
Proof. induction s1 as [|a s1 IH]; simpl; [reflexivity | now rewrite IH]. Qed.

Lemma take_append (s1 s2 : string) : Str.take (length s1) (s1 ++ s2) = s1.
Proof. induction s1 as [|a s1 IH]; simpl; [reflexivity | now rewrite IH]. Qed.

(** ** Dictionaries *)

Section DictFacts.
Context {V : Type}.

Lemma dget_dset_same (k : string) (v : V) (d : dict V) :
  dget k (dset k v d) = Some v.
Proof.
  induction d as [|[k' v'] d IH]; simpl.
  - now rewrite String.eqb_refl.
  - destruct (String.eqb k k') eqn:E; simpl; now rewrite E.
Qed.

Lemma dget_dset_other (k k' : string) (v : V) (d : dict V) :
  k' <> k -> dget k' (dset k v d) = dget k' d.
Proof.
  intros Hne. induction d as [|[k0 v0] d IH]; simpl.
  - destruct (String.eqb_spec k' k); [contradiction | reflexivity].
  - destruct (String.eqb_spec k k0) as [->|Hk]; simpl.
    + destruct (String.eqb_spec k' k0); [contradiction | reflexivity].
    + now rewrite IH.
Qed.

Lemma dget_ddel_same (k : string) (d : dict V) : dget k (ddel k d) = None.
Proof.
  induction d as [|[k' v'] d IH]; simpl; [reflexivity|].
  destruct (String.eqb k k') eqn:E; simpl; [assumption | now rewrite E].
Qed.

Lemma dget_ddel_other (k k' : string) (d : dict V) :
  k' <> k -> dget k' (ddel k d) = dget k' d.
Proof.
  intros Hne. induction d as [|[k0 v0] d IH]; simpl; [reflexivity|].
  destruct (String.eqb_spec k k0) as [->|Hk]; simpl.
  - destruct (String.eqb_spec k' k0); [contradiction | assumption].
  - now rewrite IH.
Qed.

Lemma dmem_dkeys (k : string) (d : dict V) :
  dmem k d = true <-> In k (dkeys d).
Proof.
  unfold dmem. induction d as [|[k' v'] d IH]; simpl.
  - split; [discriminate | contradiction].
  - destruct (String.eqb_spec k k') as [->|Hk].
    + split; auto.
    + rewrite IH. split; [auto | intros [H|H]; [congruence | assumption]].
Qed.

Lemma dkeys_dset_bound (k : string) (v : V) (d : dict V) :
  dmem k d = true -> dkeys (dset k v d) = dkeys d.
Proof.
  unfold dmem. induction d as [|[k' v'] d IH]; simpl; [discriminate|].
  destruct (String.eqb k k') eqn:E; simpl; [reflexivity|].
  intros H. now rewrite IH.
Qed.

Lemma dkeys_dset_fresh (k : string) (v : V) (d : dict V) :
  dmem k d = false -> dkeys (dset k v d) = (dkeys d ++ [k])%list.
Proof.
  unfold dmem. induction d as [|[k' v'] d IH]; simpl; [reflexivity|].
  destruct (String.eqb k k') eqn:E; simpl; [discriminate|].
  intros H. now rewrite IH.
Qed.

End DictFacts.

Section DictFacts2.
Context {V : Type}.

Lemma dset_dset_same (k : string) (v v' : V) (d : dict V) :
  dset k v (dset k v' d) = dset k v d.
Proof.
  induction d as [|[k0 v0] d IH]; simpl.
  - now rewrite String.eqb_refl.
  - destruct (String.eqb k k0) eqn:E; simpl; rewrite E; [reflexivity|].
    now rewrite IH.
Qed.

Lemma dmem_dset_same (k : string) (v : V) (d : dict V) :
  dmem k (dset k v d) = true.
Proof. unfold dmem. now rewrite dget_dset_same. Qed.

Lemma dmem_false_dget (k : string) (d : dict V) :
  dmem k d = false -> dget k d = None.
Proof. unfold dmem. now destruct (dget k d). Qed.

Lemma dmem_true_dget (k : string) (d : dict V) :
  dmem k d = true -> exists v, dget k d = Some v.
Proof. unfold dmem. destruct (dget k d) as [v|]; [now exists v | discriminate]. Qed.

End DictFacts2.

Section DictFacts3.
Context {V : Type}.

Lemma dget_In (k : string) (v : V) (d : dict V) :
  dget k d = Some v -> In (k, v) d.
Proof.
  induction d as [|[k0 v0] d IH]; simpl; [discriminate|].
  destruct (String.eqb_spec k k0) as [->|Hk].
  - intros [= ->]. now left.
  - intros H. right. now apply IH.
Qed.

Lemma In_dget_NoDup (k : string) (v : V) (d : dict V) :
  NoDup (dkeys d) -> In (k, v) d -> dget k d = Some v.
Proof.
  induction d as [|[k0 v0] d IH]; simpl; [contradiction|].
  intros Hnd [Heq|Hin].
  - injection Heq as -> ->. now rewrite String.eqb_refl.
  - inversion Hnd as [|? ? Hnotin Hnd']; subst.
    destruct (String.eqb_spec k k0) as [->|Hk].
    + exfalso. apply Hnotin. change (In (fst (k0, v)) (map fst d)).
      now apply in_map.
    + now apply IH.
Qed.

Lemma In_dset (k k' : string) (v v' : V) (d : dict V) :
  In (k', v') (dset k v d) -> (k', v') = (k, v) \/ In (k', v') d.
Proof.
  induction d as [|[k0 v0] d IH]; simpl.
  - intros [H|[]]. left. now symmetry.
  - destruct (String.eqb_spec k k0) as [->|Hk]; simpl.
    + intros [H|H]; [left; now symmetry | right; now right].
    + intros [H|H]; [right; now left|].
      destruct (IH H) as [H'|H']; [now left | right; now right].
Qed.

Lemma dget_map_values {W : Type} (f : V -> W) (k : string) (d : dict V) :
  dget k (map (fun kv => (fst kv, f (snd kv))) d) = option_map f (dget k d).
Proof.
  induction d as [|[k0 v0] d IH]; simpl; [reflexivity|].
  now destruct (String.eqb k k0).
Qed.

Lemma dkeys_map_values {W : Type} (f : V -> W) (d : dict V) :
  dkeys (map (fun kv => (fst kv, f (snd kv))) d) = dkeys d.
Proof.
  unfold dkeys. rewrite map_map. reflexivity.
Qed.

End DictFacts3.

Section DictFacts4.
Context {V : Type}.

(** Assignment and deletion keep the keys pairwise distinct. *)
Lemma NoDup_dkeys_dset (k : string) (v : V) (d : dict V) :
  NoDup (dkeys d) -> NoDup (dkeys (dset k v d)).
Proof.
  intros H. destruct (dmem k d) eqn:E.
  - now rewrite dkeys_dset_bound.
  - rewrite dkeys_dset_fresh by assumption.
    apply NoDup_app; [assumption | repeat constructor; intros [] |].
    intros x Hx [<-|[]]. apply dmem_dkeys in Hx. congruence.
Qed.

Lemma NoDup_dkeys_ddel (k : string) (d : dict V) :
  NoDup (dkeys d) -> NoDup (dkeys (ddel k d)).
Proof.
  unfold ddel, dkeys. induction d as [|[k0 v0] d IH]; simpl; [trivial|].
  intros H. inversion H as [|? ? Hnotin Hnd]; subst.
  destruct (String.eqb k k0); simpl; [now apply IH|].
  constructor; [|now apply IH].
  intros Hin. apply Hnotin. apply in_map_iff in Hin as [[k1 v1] [Hk Hin]].
  apply filter_In in Hin as [Hin _]. apply in_map_iff. now exists (k1, v1).
Qed.

End DictFacts4.

(** ** The ledger update in closed form *)

Lemma guild_item_found (g : string) (gd : guild_data) (t : tracker) :
  dget g (donations_data t) = Some gd -> guild_item g t = (Return gd, t).
Proof. intros H. unfold guild_item. now rewrite H. Qed.

Lemma set_weekly_entry_found (g u : string) (e : Weekly.t) (t : tracker)
  (gd : guild_data) (w : dict Weekly.t) :
  dget g (donations_data t) = Some gd ->
  weekly_donations gd = Some w ->
  set_weekly_entry g u e t
  = (Return tt, set_donations_data (dset g (with_weekly gd (dset u e w)) (donations_data t)) t).
Proof.
  intros Hg Hw. unfold set_weekly_entry, weekly_section, bind.
  rewrite (guild_item_found _ _ _ Hg), Hw. simpl.
  now rewrite (guild_item_found _ _ _ Hg).
Qed.

Lemma set_total_entry_found (g u : string) (e : Total.t) (t : tracker)
  (gd : guild_data) (d : dict Total.t) :
  dget g (donations_data t) = Some gd ->
  total_donations gd = Some d ->
  set_total_entry g u e t
  = (Return tt, set_donations_data (dset g (with_total gd (dset u e d)) (donations_data t)) t).
Proof.
  intros Hg Hd. unfold set_total_entry, total_section, bind.
  rewrite (guild_item_found _ _ _ Hg), Hd. simpl.
  now rewrite (guild_item_found _ _ _ Hg).
Qed.

Lemma weekly_section_found (g : string) (t : tracker) (gd : guild_data)
  (w : dict Weekly.t) :
  dget g (donations_data t) = Some gd ->
  weekly_donations gd = Some w ->
  weekly_section g t = (Return w, t).
Proof.
  intros Hg Hw. unfold weekly_section, bind.
  now rewrite (guild_item_found _ _ _ Hg), Hw.
Qed.

Lemma total_section_found (g : string) (t : tracker) (gd : guild_data)
  (d : dict Total.t) :
  dget g (donations_data t) = Some gd ->
  total_donations gd = Some d ->
  total_section g t = (Return d, t).
Proof.
  intros Hg Hd. unfold total_section, bind.
  now rewrite (guild_item_found _ _ _ Hg), Hd.
Qed.

Lemma weekly_entry_found (g u : string) (t : tracker) (gd : guild_data)
  (w : dict Weekly.t) (e : Weekly.t) :
  dget g (donations_data t) = Some gd ->
  weekly_donations gd = Some w ->
  dget u w = Some e ->
  weekly_entry g u t = (Return e, t).
Proof.
  intros Hg Hw He. unfold weekly_entry, bind.
  now rewrite (weekly_section_found _ _ _ _ Hg Hw), He.
Qed.

Lemma total_entry_found (g u : string) (t : tracker) (gd : guild_data)
  (d : dict Total.t) (e : Total.t) :
  dget g (donations_data t) = Some gd ->
  total_donations gd = Some d ->
  dget u d = Some e ->
  total_entry g u t = (Return e, t).
Proof.
  intros Hg Hd He. unfold total_entry, bind.
  now rewrite (total_section_found _ _ _ _ Hg Hd), He.
Qed.

Lemma bind_return {A B : Type} (m : M A) (f : A -> M B) (t t' : tracker) (a : A) :
  m t = (Return a, t') -> bind m f t = f a t'.
Proof. intros H. unfold bind. now rewrite H. Qed.

Lemma bind_raise {A B : Type} (m : M A) (f : A -> M B) (t t' : tracker) (e : exn) :
  m t = (Raise e, t') -> bind m f t = (Raise e, t').
Proof. intros H. unfold bind. now rewrite H. Qed.

(** The bookkeeping of an update under guild [g]: writing twice under the
    same key keeps the last value. *)
Lemma set_donations_data_twice (d d' : dict guild_data) (t : tracker) :
  set_donations_data d (set_donations_data d' t) = set_donations_data d t.
Proof. reflexivity. Qed.

Ltac lookup :=
  simpl; first [ eassumption | apply dget_dset_same | reflexivity ].

Ltac run_found :=
  first
    [ erewrite (bind_return (weekly_section _)) by (eapply weekly_section_found; lookup)
    | erewrite (bind_return (total_section _)) by (eapply total_section_found; lookup)
    | erewrite (bind_return (weekly_entry _ _)) by (eapply weekly_entry_found; lookup)
    | erewrite (bind_return (total_entry _ _)) by (eapply total_entry_found; lookup)
    | erewrite (bind_return (set_weekly_entry _ _ _)) by (eapply set_weekly_entry_found; lookup)
    | erewrite (bind_return (set_total_entry _ _ _)) by (eapply set_total_entry_found; lookup) ];
  simpl donations_data; rewrite ?set_donations_data_twice, ?dset_dset_same.

(** The three steps shared by every run of [add_donation] once the entries of
    the player exist: the expiry check and the two updates. *)
Lemma add_donation_tail (g u name : string) (amount : Z) (now : instant)
  (t : tracker) (gd : guild_data) (w : dict Weekly.t) (d : dict Total.t)
  (e : Weekly.t) (te : Total.t) :
  dget g (donations_data t) = Some gd ->
  weekly_donations gd = Some w ->
  total_donations gd = Some d ->
  dget u w = Some e ->
  dget u d = Some te ->
  (e <- weekly_entry g u ;;
   when (7 <=? days_between now (Weekly.week_start e))
     (set_weekly_entry g u (fresh_weekly name now)) ;;
   e <- weekly_entry g u ;;
   set_weekly_entry g u
     (Weekly.mk (Weekly.name e) (Weekly.amount e + amount)
        (Weekly.donations e) (Weekly.week_start e)) ;;
   e <- weekly_entry g u ;;
   set_weekly_entry g u
     (Weekly.mk (Weekly.name e) (Weekly.amount e)
        (Weekly.donations e ++ [Donation.mk amount now]) (Weekly.week_start e)) ;;
   e <- total_entry g u ;;
   set_total_entry g u
     (Total.mk (Total.name e) (Total.amount e + amount) (Total.donations e)) ;;
   e <- total_entry g u ;;
   set_total_entry g u
     (Total.mk (Total.name e) (Total.amount e)
        (Total.donations e ++ [Donation.mk amount now])) ;;
   save_donations) t
  = save_donations
      (set_donations_data
         (dset g
            (mk_guild
               (Some (dset u (credit_weekly name amount now (Some e)) w))
               (Some (dset u (credit_total name amount now (Some te)) d))
               (last_reset gd))
            (donations_data t)) t).
Proof.
  intros Hg Hw Hd He Hte.
  run_found.
  unfold credit_weekly, credit_total.
  destruct (7 <=? days_between now (Weekly.week_start e)); simpl when.
  - do 9 run_found. unfold with_weekly, with_total; simpl.
    rewrite ?dset_dset_same. reflexivity.
  - erewrite (bind_return (ret tt)) by reflexivity.
    do 8 run_found. unfold with_weekly, with_total; simpl.
    rewrite ?dset_dset_same. reflexivity.
Qed.

(** On a guild whose two sections exist, [add_donation] returns normally and
    leaves the guild as [credit_guild] describes, saved to the file. *)
Lemma add_donation_found (g u name : string) (amount : Z) (now : instant)
  (t : tracker) (gd : guild_data) (w : dict Weekly.t) (d : dict Total.t) :
  dget g (donations_data t) = Some gd ->
  weekly_donations gd = Some w ->
  total_donations gd = Some d ->
  add_donation g u name amount now t
  = save_donations
      (set_donations_data
         (dset g (credit_guild u name amount now gd w d) (donations_data t)) t).
Proof.
  intros Hg Hw Hd.
  assert (Hmem : dmem g (donations_data t) = true) by (unfold dmem; now rewrite Hg).
  unfold add_donation, credit_guild.
  erewrite bind_return by (rewrite Hmem; reflexivity).
  run_found.
  destruct (dmem u w) eqn:Euw; simpl when.
  - erewrite (bind_return (ret tt)) by reflexivity.
    destruct (dmem_true_dget _ _ Euw) as [e He].
    run_found.
    destruct (dmem u d) eqn:Eud; simpl when.
    + erewrite (bind_return (ret tt)) by reflexivity.
      destruct (dmem_true_dget _ _ Eud) as [te Hte].
      rewrite (add_donation_tail g u name amount now t gd w d e te) by assumption.
      now rewrite He, Hte.
    + run_found.
      erewrite (add_donation_tail g u name amount now _ _ w _ e)
        by (lookup || apply dget_dset_same).
      simpl. rewrite ?set_donations_data_twice, ?dset_dset_same.
      now rewrite He, (dmem_false_dget _ _ Eud).
  - do 2 run_found.
    destruct (dmem u d) eqn:Eud; simpl when.
    + erewrite (bind_return (ret tt)) by reflexivity.
      destruct (dmem_true_dget _ _ Eud) as [te Hte].
      erewrite (add_donation_tail g u name amount now _ _ _ d _ te)
        by (lookup || apply dget_dset_same).
      simpl. rewrite ?set_donations_data_twice, ?dset_dset_same.
      now rewrite Hte, (dmem_false_dget _ _ Euw).
    + run_found.
      erewrite (add_donation_tail g u name amount now)
        by (lookup || apply dget_dset_same).
      simpl. rewrite ?set_donations_data_twice, ?dset_dset_same.
      now rewrite (dmem_false_dget _ _ Euw), (dmem_false_dget _ _ Eud).
Qed.

(** On a guild that is not in the store yet, [add_donation] creates it. *)
Lemma add_donation_fresh (g u name : string) (amount : Z) (now : instant)
  (t : tracker) :
  dget g (donations_data t) = None ->
  add_donation g u name amount now t
  = save_donations
      (set_donations_data
         (dset g (credit_guild u name amount now fresh_guild [] []) (donations_data t)) t).
Proof.
  intros Hg.
  assert (Hmem : dmem g (donations_data t) = false) by (unfold dmem; now rewrite Hg).
  transitivity
    (add_donation g u name amount now
       (set_donations_data (dset g fresh_guild (donations_data t)) t)).
  - unfold add_donation.
    erewrite bind_return by (rewrite Hmem; reflexivity).
    symmetry.
    erewrite bind_return by (simpl; rewrite dmem_dset_same; reflexivity).
    reflexivity.
  - erewrite add_donation_found by (lookup || reflexivity).
    simpl. now rewrite set_donations_data_twice, dset_dset_same.
Qed.

(** ** The seven-day test *)

Lemma days_between_expired (now start : instant) :
  (7 <=? days_between now start) = true <-> seven_days <= now - start.
Proof.
  unfold days_between, seven_days, microseconds_per_day.
  rewrite Z.leb_le. split; intros H.
  - pose proof (Z.mul_div_le (now - start) 86400000000 ltac:(lia)). lia.
  - apply Z.div_le_lower_bound; lia.
Qed.

Lemma days_between_young (now start : instant) :
  (7 <=? days_between now start) = false <-> now - start < seven_days.
Proof.
  pose proof (days_between_expired now start) as H.
  destruct (7 <=? days_between now start).
  - split; [discriminate|].
    intros Hlt. assert (seven_days <= now - start) by (apply H; reflexivity). lia.
  - split; [intros _ | reflexivity].
    destruct (Z.lt_ge_cases (now - start) seven_days) as [Hlt|Hge]; [assumption|].
    apply H in Hge. discriminate.
Qed.

Lemma save_donations_data (t : tracker) :
  donations_data (snd (save_donations t)) = donations_data t.
Proof. reflexivity. Qed.

Lemma save_donations_returns (t : tracker) : fst (save_donations t) = Return tt.
Proof. reflexivity. Qed.

(** ** Appending to the window *)

(** C2. For a player whose window is anchored at [week_start e],
    [add_donation] at [now] returns normally; when [now - week_start e] is
    less than seven days the donation joins the window (the running total
    and the event list grow, the anchor stays), and when it is seven days or
    more the window is reset first, so that it holds the new donation alone
    and is anchored at [now]. *)
Theorem add_donation_window_anchor
  (t : tracker) (g u player_name : string) (amount : Z) (now : instant)
  (gd : guild_data) (w : dict Weekly.t) (d : dict Total.t) (e : Weekly.t) :
  dget g (donations_data t) = Some gd ->
  weekly_donations gd = Some w ->
  total_donations gd = Some d ->
  dget u w = Some e ->
  let after := add_donation g u player_name amount now t in
  fst after = Return tt /\
  (now - Weekly.week_start e < seven_days ->
   dget u (get_weekly_donations (snd after) g)
   = Some (Weekly.mk (Weekly.name e) (Weekly.amount e + amount)
             (Weekly.donations e ++ [Donation.mk amount now])
             (Weekly.week_start e))) /\
  (seven_days <= now - Weekly.week_start e ->
   dget u (get_weekly_donations (snd after) g)
   = Some (Weekly.mk player_name amount [Donation.mk amount now] now)).
Proof.
  intros Hg Hw Hd He after. subst after.
  rewrite (add_donation_found g u player_name amount now t gd w d Hg Hw Hd).
  split; [reflexivity|].
  unfold get_weekly_donations. rewrite save_donations_data. simpl donations_data.
  rewrite dget_dset_same. simpl. rewrite dget_dset_same, He.
  unfold credit_weekly.
  split; intros Hage.
  - apply days_between_young in Hage. now rewrite Hage.
  - apply days_between_expired in Hage. now rewrite Hage.
Qed.

Lemma add_donation_window_anchor_witness :
  let after := add_donation "900000000000000001" "42" "Alice" 50
                 (seven_days - 1) sample_tracker in
  fst after = Return tt /\
  ((seven_days - 1) - 0 < seven_days ->
   dget "42" (get_weekly_donations (snd after) "900000000000000001")
   = Some (Weekly.mk "Alice" (100 + 50)
             ([Donation.mk 100 0] ++ [Donation.mk 50 (seven_days - 1)]) 0)) /\
  (seven_days <= (seven_days - 1) - 0 ->
   dget "42" (get_weekly_donations (snd after) "900000000000000001")
   = Some (Weekly.mk "Alice" 50 [Donation.mk 50 (seven_days - 1)] (seven_days - 1))).
Proof.
  apply (add_donation_window_anchor sample_tracker "900000000000000001" "42"
           "Alice" 50 (seven_days - 1) sample_guild
           [("42", sample_entry)] [("42", Total.mk "Alice" 100 [Donation.mk 100 0])]
           sample_entry); reflexivity.
Defined.

(** At seven days to the microsecond the window is reset: the sample player
    ends with the new donation alone. *)
Example add_donation_at_seven_days :
  dget "42"
    (get_weekly_donations
       (snd (add_donation "900000000000000001" "42" "Alice" 50 seven_days sample_tracker))
       "900000000000000001")
  = Some (Weekly.mk "Alice" 50 [Donation.mk 50 seven_days] seven_days).
Proof. reflexivity. Qed.

(** ** The expiry sweep *)

Lemma dget_remove_players_in (l : list string) (u : string) (w : dict Weekly.t) :
  In u l -> dget u (remove_players l w) = None.
Proof.
  unfold remove_players. revert w. induction l as [|x l IH]; simpl; [contradiction|].
  intros w [->|Hin].
  - clear IH. generalize (dget_ddel_same u w). generalize (ddel u w).
    induction l as [|y l IH]; simpl; intros w' Hw'; [assumption|].
    apply IH. destruct (String.eqb_spec u y) as [->|Hne].
    + apply dget_ddel_same.
    + now rewrite dget_ddel_other.
  - now apply IH.
Qed.

Lemma dget_remove_players_notin (l : list string) (u : string) (w : dict Weekly.t) :
  ~ In u l -> dget u (remove_players l w) = dget u w.
Proof.
  unfold remove_players. revert w. induction l as [|x l IH]; simpl; intros w Hnotin.
  - reflexivity.
  - rewrite IH by tauto. apply dget_ddel_other. intros ->. tauto.
Qed.

Lemma In_expired_players (now : instant) (w : dict Weekly.t) (u : string) :
  In u (expired_players now w) <->
  exists e, In (u, e) w /\ seven_days <= now - Weekly.week_start e.
Proof.
  unfold expired_players. rewrite in_map_iff. split.
  - intros [[u' e] [Hu Hin]]. simpl in Hu. subst u'.
    apply filter_In in Hin as [Hin Hexp]. simpl in Hexp.
    exists e. split; [assumption|]. now apply days_between_expired.
  - intros [e [Hin Hexp]]. exists (u, e). split; [reflexivity|].
    apply filter_In. split; [assumption|]. simpl. now apply days_between_expired.
Qed.

Lemma cleanup_guilds_dget (now : instant) (d : dict guild_data) (g : string) :
  dget g (fst (cleanup_guilds now d))
  = option_map (fun gd => fst (cleanup_guild now gd)) (dget g d).
Proof.
  induction d as [|[g0 gd0] d IH]; simpl; [reflexivity|].
  destruct (cleanup_guild now gd0) as [gd' n] eqn:E1.
  destruct (cleanup_guilds now d) as [d' m] eqn:E2. simpl in *.
  destruct (String.eqb g g0); [simpl; now rewrite E1 | assumption].
Qed.

Lemma cleanup_expired_weeks_returns (now : instant) (t : tracker) :
  fst (cleanup_expired_weeks now t) = Return tt.
Proof.
  unfold cleanup_expired_weeks.
  destruct (cleanup_guilds now (donations_data t)) as [d n].
  now destruct (0 <? n)%nat.
Qed.

Lemma cleanup_expired_weeks_data (now : instant) (t : tracker) :
  donations_data (snd (cleanup_expired_weeks now t))
  = fst (cleanup_guilds now (donations_data t)).
Proof.
  unfold cleanup_expired_weeks.
  destruct (cleanup_guilds now (donations_data t)) as [d n].
  now destruct (0 <? n)%nat.
Qed.

Lemma cleanup_guild_total (now : instant) (gd : guild_data) :
  total_donations (fst (cleanup_guild now gd)) = total_donations gd.
Proof. unfold cleanup_guild. now destruct (weekly_donations gd). Qed.

Lemma cleanup_keeps_totals (now : instant) (t : tracker) (g : string) :
  get_total_donations (snd (cleanup_expired_weeks now t)) g
  = get_total_donations t g.
Proof.
  unfold get_total_donations.
  rewrite cleanup_expired_weeks_data, cleanup_guilds_dget.
  destruct (dget g (donations_data t)) as [gd|]; simpl; [|reflexivity].
  now rewrite cleanup_guild_total.
Qed.

Lemma cleanup_weekly (now : instant) (t : tracker) (g : string)
  (gd : guild_data) (w : dict Weekly.t) :
  dget g (donations_data t) = Some gd ->
  weekly_donations gd = Some w ->
  get_weekly_donations (snd (cleanup_expired_weeks now t)) g
  = remove_players (expired_players now w) w.
Proof.
  intros Hg Hw. unfold get_weekly_donations.
  rewrite cleanup_expired_weeks_data, cleanup_guilds_dget, Hg. simpl.
  unfold cleanup_guild. now rewrite Hw.
Qed.

(** C3, as amended. The sweep at [now] returns normally and removes from
    ["weekly_donations"] the entry of every player whose window is seven days
    old or more (the entry is deleted, not emptied); it leaves the entry of
    every player whose window is younger as it was; and it changes no
    all-time aggregate.  The keys of the dictionary are pairwise distinct, as
    those of a Python dictionary are. *)
Theorem cleanup_expired_weeks_removes_expired
  (t : tracker) (now : instant) (g : string) (gd : guild_data)
  (w : dict Weekly.t) :
  dget g (donations_data t) = Some gd ->
  weekly_donations gd = Some w ->
  NoDup (dkeys w) ->
  let after := cleanup_expired_weeks now t in
  fst after = Return tt /\
  (forall u e, dget u w = Some e ->
     seven_days <= now - Weekly.week_start e ->
     dget u (get_weekly_donations (snd after) g) = None) /\
  (forall u e, dget u w = Some e ->
     now - Weekly.week_start e < seven_days ->
     dget u (get_weekly_donations (snd after) g) = Some e) /\
  (forall g', get_total_donations (snd after) g' = get_total_donations t g').
Proof.
  intros Hg Hw Hnd after. subst after.
  split; [apply cleanup_expired_weeks_returns|].
  rewrite (cleanup_weekly now t g gd w Hg Hw).
  split; [|split].
  - intros u e He Hexp. apply dget_remove_players_in.
    apply In_expired_players. exists e. split; [now apply dget_In | assumption].
  - intros u e He Hyoung. rewrite dget_remove_players_notin; [assumption|].
    intros Hin. apply In_expired_players in Hin as [e' [Hin Hexp]].
    apply (In_dget_NoDup _ _ _ Hnd) in Hin. rewrite He in Hin.
    injection Hin as <-. lia.
  - intros g'. apply cleanup_keeps_totals.
Qed.

Lemma cleanup_expired_weeks_removes_expired_witness :
  let after := cleanup_expired_weeks seven_days sample_tracker in
  fst after = Return tt /\
  (forall u e, dget u [("42", sample_entry)] = Some e ->
     seven_days <= seven_days - Weekly.week_start e ->
     dget u (get_weekly_donations (snd after) "900000000000000001") = None) /\
  (forall u e, dget u [("42", sample_entry)] = Some e ->
     seven_days - Weekly.week_start e < seven_days ->
     dget u (get_weekly_donations (snd after) "900000000000000001") = Some e) /\
  (forall g', get_total_donations (snd after) g' = get_total_donations sample_tracker g').
Proof.
  apply (cleanup_expired_weeks_removes_expired sample_tracker seven_days
           "900000000000000001" sample_guild [("42", sample_entry)]).
  - reflexivity.
  - reflexivity.
  - simpl. constructor; [simpl; tauto | constructor].
Defined.

(** C3, as stated, fails: the window of the sample player is seven days old
    at [seven_days], and after the sweep the player has no entry at all in
    ["weekly_donations"], so none that was reset in place. *)
Lemma sweep_resets_in_place_counterexample : ~ sweep_resets_in_place.
Proof.
  intros H.
  assert (Hexp : seven_days <= seven_days - Weekly.week_start sample_entry)
    by (vm_compute; discriminate).
  destruct (H sample_tracker seven_days "900000000000000001" "42" sample_guild
              [("42", sample_entry)] sample_entry eq_refl eq_refl eq_refl Hexp)
    as [e' [He' _]].
  vm_compute in He'. discriminate.
Qed.

(** ** Idempotence of the sweep *)

Lemma remove_players_filter (l : list string) (w : dict Weekly.t) :
  remove_players l w
  = filter (fun kv => negb (existsb (String.eqb (fst kv)) l)) w.
Proof.
  unfold remove_players. revert w. induction l as [|x l IH]; intros w; simpl.
  - induction w as [|kv w IHw]; simpl; [reflexivity | now rewrite <- IHw].
  - rewrite IH. unfold ddel. clear IH.
    induction w as [|kv w IHw]; simpl; [reflexivity|].
    rewrite (String.eqb_sym (fst kv) x).
    destruct (String.eqb x (fst kv)); simpl; [assumption|].
    destruct (existsb (String.eqb (fst kv)) l); simpl; [assumption|].
    now rewrite IHw.
Qed.

(** After the expired players are removed, nobody is expired. *)
Lemma expired_players_after_removal (now : instant) (w : dict Weekly.t) :
  expired_players now (remove_players (expired_players now w) w) = [].
Proof.
  rewrite remove_players_filter. unfold expired_players at 1.
  match goal with |- map fst ?l = [] => destruct l as [|kv rest] eqn:E end;
    [reflexivity | exfalso].
  assert (Hin : In kv (kv :: rest)) by now left.
  rewrite <- E in Hin. apply filter_In in Hin as [Hin Hexp].
  apply filter_In in Hin as [Hin Hkept].
  apply negb_true_iff in Hkept.
  assert (Hex : existsb (String.eqb (fst kv)) (expired_players now w) = true).
  { apply existsb_exists. exists (fst kv). split; [|apply String.eqb_refl].
    unfold expired_players. apply in_map. apply filter_In. now split. }
  congruence.
Qed.

Lemma cleanup_guild_idempotent (now : instant) (gd : guild_data) :
  cleanup_guild now (fst (cleanup_guild now gd)) = (fst (cleanup_guild now gd), O).
Proof.
  unfold cleanup_guild. destruct (weekly_donations gd) as [w|] eqn:Hw; simpl.
  - rewrite expired_players_after_removal. reflexivity.
  - now rewrite Hw.
Qed.

Lemma cleanup_guilds_idempotent (now : instant) (d : dict guild_data) :
  cleanup_guilds now (fst (cleanup_guilds now d)) = (fst (cleanup_guilds now d), O).
Proof.
  induction d as [|[g gd] d IH]; simpl; [reflexivity|].
  pose proof (cleanup_guild_idempotent now gd) as Hgd.
  destruct (cleanup_guild now gd) as [gd' n].
  destruct (cleanup_guilds now d) as [d' m]. simpl in *.
  now rewrite Hgd, IH.
Qed.

(** C5. The sweep is idempotent: run a second time at the same [now], with
    no donation in between, it returns normally and leaves the tracker (the
    store and the file it is saved to) exactly as the first run left it. *)
Theorem cleanup_expired_weeks_idempotent (t : tracker) (now : instant) :
  let once := snd (cleanup_expired_weeks now t) in
  cleanup_expired_weeks now once = (Return tt, once).
Proof.
  intros once.
  assert (Hdata : donations_data once = fst (cleanup_guilds now (donations_data t)))
    by apply cleanup_expired_weeks_data.
  unfold cleanup_expired_weeks at 1.
  rewrite Hdata, cleanup_guilds_idempotent. simpl.
  rewrite <- Hdata. now destruct once.
Qed.

(** ** The all-time aggregate *)

Lemma sum_amounts_app (l1 l2 : list Donation.t) :
  sum_amounts (l1 ++ l2) = sum_amounts l1 + sum_amounts l2.
Proof.
  induction l1 as [|r l1 IH]; simpl; [reflexivity|].
  unfold sum_amounts in *. simpl. rewrite IH. lia.
Qed.

Lemma sections_present_dset (d : dict guild_data) (g : string) (gd : guild_data) :
  sections_present d ->
  weekly_donations gd <> None -> total_donations gd <> None ->
  sections_present (dset g gd d).
Proof.
  intros Hd Hw Ht g' gd' Hin.
  apply In_dset in Hin as [Heq|Hin]; [injection Heq as -> ->; now split|].
  now apply (Hd g').
Qed.

Lemma sections_present_cleanup (now : instant) (d : dict guild_data) :
  sections_present d -> sections_present (fst (cleanup_guilds now d)).
Proof.
  induction d as [|[g gd] d IH]; intros Hd; simpl; [assumption|].
  destruct (cleanup_guild now gd) as [gd' n] eqn:E1.
  destruct (cleanup_guilds now d) as [d' m] eqn:E2. simpl in *.
  intros g0 gd0 [Heq|Hin].
  - injection Heq as <- <-.
    destruct (Hd g gd (or_introl eq_refl)) as [Hw Ht].
    replace gd' with (fst (cleanup_guild now gd)) by now rewrite E1.
    rewrite cleanup_guild_total. split; [|assumption].
    unfold cleanup_guild. destruct (weekly_donations gd); [discriminate | contradiction].
  - apply (IH (fun g1 gd1 H => Hd g1 gd1 (or_intror H)) g0 gd0 Hin).
Qed.

(** The effect of one [add_donation] on the all-time aggregate of every
    player. *)
Lemma add_donation_total (g u name : string) (amount : Z) (now : instant)
  (t : tracker) :
  sections_present (donations_data t) ->
  let after := add_donation g u name amount now t in
  fst after = Return tt /\
  sections_present (donations_data (snd after)) /\
  forall g' u',
    dget u' (get_total_donations (snd after) g')
    = if String.eqb g' g && String.eqb u' u
      then Some (credit_total name amount now (dget u' (get_total_donations t g')))
      else dget u' (get_total_donations t g').
Proof.
  intros Hsec after. subst after.
  destruct (dget g (donations_data t)) as [gd|] eqn:Hg.
  - destruct (Hsec g gd (dget_In _ _ _ Hg)) as [Hw Ht].
    destruct (weekly_donations gd) as [w|] eqn:Ew; [|contradiction].
    destruct (total_donations gd) as [d|] eqn:Ed; [|contradiction].
    rewrite (add_donation_found g u name amount now t gd w d Hg Ew Ed).
    split; [reflexivity|]. split.
    + simpl. apply sections_present_dset; [assumption| |]; discriminate.
    + intros g' u'. unfold get_total_donations.
      rewrite save_donations_data. simpl donations_data.
      destruct (String.eqb_spec g' g) as [->|Hne]; simpl.
      * rewrite dget_dset_same, Hg, Ed. simpl.
        destruct (String.eqb_spec u' u) as [->|Hneu].
        -- now rewrite dget_dset_same.
        -- now rewrite dget_dset_other.
      * now rewrite dget_dset_other.
  - rewrite (add_donation_fresh g u name amount now t Hg).
    split; [reflexivity|]. split.
    + simpl. apply sections_present_dset; [assumption| |]; discriminate.
    + intros g' u'. unfold get_total_donations.
      rewrite save_donations_data. simpl donations_data.
      destruct (String.eqb_spec g' g) as [->|Hne]; simpl.
      * rewrite dget_dset_same, Hg. unfold credit_guild. cbn [total_donations].
        destruct (String.eqb_spec u' u) as [->|Hneu].
        -- now rewrite dget_dset_same.
        -- now rewrite dget_dset_other.
      * now rewrite dget_dset_other.
Qed.

Lemma run_op_total (o : op) (t : tracker) :
  sections_present (donations_data t) ->
  let after := run_op o t in
  fst after = Return tt /\
  sections_present (donations_data (snd after)) /\
  forall g u,
    total_events (snd after) g u = (total_events t g u ++ appended g u [o])%list /\
    total_amount (snd after) g u = total_amount t g u + sum_amounts (appended g u [o]).
Proof.
  intros Hsec. destruct o as [g0 u0 name amount now | now]; simpl run_op.
  - destruct (add_donation_total g0 u0 name amount now t Hsec) as [Hret [Hsec' Htot]].
    split; [assumption|]. split; [assumption|].
    intros g u. unfold total_events, total_amount. rewrite Htot. simpl appended.
    destruct (String.eqb g g0 && String.eqb u u0); simpl.
    + unfold sum_amounts. simpl.
      destruct (dget u (get_total_donations t g)); simpl; split; (reflexivity || lia).
    + rewrite app_nil_r. split; [reflexivity | unfold sum_amounts; simpl; lia].
  - split; [apply cleanup_expired_weeks_returns|]. split.
    + rewrite cleanup_expired_weeks_data. now apply sections_present_cleanup.
    + intros g u. unfold total_events, total_amount.
      rewrite cleanup_keeps_totals. simpl. rewrite app_nil_r.
      split; [reflexivity | unfold sum_amounts; simpl; lia].
Qed.

Lemma appended_cons (g u : string) (o : op) (l : list op) :
  appended g u (o :: l) = (appended g u [o] ++ appended g u l)%list.
Proof.
  destruct o as [g0 u0 name amount now | now]; simpl; [|reflexivity].
  now destruct (String.eqb g g0 && String.eqb u u0).
Qed.

Lemma run_ops_total (ops : list op) (t : tracker) :
  sections_present (donations_data t) ->
  let after := run_ops ops t in
  fst after = Return tt /\
  forall g u,
    total_events (snd after) g u = (total_events t g u ++ appended g u ops)%list /\
    total_amount (snd after) g u = total_amount t g u + sum_amounts (appended g u ops).
Proof.
  revert t. induction ops as [|o ops IH]; intros t Hsec.
  - simpl. split; [reflexivity|]. intros g u. rewrite app_nil_r.
    split; [reflexivity | unfold sum_amounts; simpl; lia].
  - destruct (run_op_total o t Hsec) as [Hret [Hsec' Hstep]].
    unfold run_ops in *. cbn [for_each].
    destruct (run_op o t) as [r t1] eqn:E. cbn [fst snd] in Hret, Hsec', Hstep. subst r.
    rewrite (bind_return _ _ _ _ _ E).
    destruct (IH t1 Hsec') as [Hret' Hrest].
    split; [assumption|].
    intros g u. destruct (Hstep g u) as [He1 Ha1]. destruct (Hrest g u) as [He2 Ha2].
    rewrite He2, Ha2, He1, Ha1, (appended_cons g u o ops), sum_amounts_app.
    split; [now rewrite app_assoc | lia].
Qed.

(** C4. From a store whose guilds are complete and whose all-time running
    totals equal the sums of their events, every history of appends and
    sweeps runs to its end, and for every player the all-time events are the
    former ones followed by every donation appended for that player, in
    append order, the running total grows by the sum of the appended
    amounts, and the running total still equals the sum of the events: no
    window reset removes anything from it. *)
Theorem total_aggregate_history (t : tracker) (ops : list op) :
  sections_present (donations_data t) ->
  (forall g u, total_amount t g u = sum_amounts (total_events t g u)) ->
  let after := run_ops ops t in
  fst after = Return tt /\
  forall g u,
    total_events (snd after) g u = (total_events t g u ++ appended g u ops)%list /\
    total_amount (snd after) g u = total_amount t g u + sum_amounts (appended g u ops) /\
    total_amount (snd after) g u = sum_amounts (total_events (snd after) g u).
Proof.
  intros Hsec Hinv after. subst after.
  destruct (run_ops_total ops t Hsec) as [Hret Hall].
  split; [assumption|].
  intros g u. destruct (Hall g u) as [He Ha].
  split; [assumption|]. split; [assumption|].
  rewrite Ha, He, sum_amounts_app, Hinv. reflexivity.
Qed.

Lemma total_aggregate_history_witness :
  let after := run_ops sample_history fresh_tracker in
  fst after = Return tt /\
  forall g u,
    total_events (snd after) g u
    = (total_events fresh_tracker g u ++ appended g u sample_history)%list /\
    total_amount (snd after) g u
    = total_amount fresh_tracker g u + sum_amounts (appended g u sample_history) /\
    total_amount (snd after) g u = sum_amounts (total_events (snd after) g u).
Proof.
  apply (total_aggregate_history fresh_tracker sample_history).
  - intros g gd H. simpl in H. contradiction.
  - intros g u. reflexivity.
Defined.

(** On the sample history the player 42 donated 100, 50 and 25: the all-time
    total is 175 although the window was reset twice and holds 25. *)
Example total_survives_resets :
  let after := snd (run_ops sample_history fresh_tracker) in
  total_amount after "900000000000000001" "42" = 175 /\
  dget "42" (get_weekly_donations after "900000000000000001")
  = Some (Weekly.mk "Alice" 25 [Donation.mk 25 (3 * seven_days + 1)] (3 * seven_days + 1)).
Proof. vm_compute. split; reflexivity. Qed.

(** ** Persistence *)

Lemma short_non_numeric_not_guild_id (k : string) :
  short_non_numeric k = true -> looks_like_guild_id k = false.
Proof.
  unfold short_non_numeric, looks_like_guild_id.
  destruct (Str.isdigit k); simpl; [discriminate | reflexivity].
Qed.

Lemma no_guild_id_existsb (keys : list string) :
  Forall (fun k => looks_like_guild_id k = false) keys ->
  existsb looks_like_guild_id keys = false.
Proof.
  induction 1 as [|k keys Hk _ IH]; simpl; [reflexivity|].
  now rewrite Hk, IH.
Qed.

(** C7, as amended. For a stored document whose top-level keys are ASCII
    text and none of whose top-level keys looks like a guild id (digits
    only, more than 10 characters), the load yields one synthetic tenant
    ["0"] whose value is the whole document, unchanged: from the donations
    file when the document has the key ["weekly_donations"], from the
    players file when the document is not empty.  Otherwise the document is
    returned as it is. *)
Theorem legacy_document_migration (data : dict json) :
  Forall (fun k => Str.is_ascii k = true) (dkeys data) ->
  Forall (fun k => looks_like_guild_id k = false) (dkeys data) ->
  (dmem "weekly_donations" data = true ->
   load_donations (Stored data) = [("0", JDict data)]) /\
  (dmem "weekly_donations" data = false ->
   load_donations (Stored data) = data) /\
  (data <> [] -> load_registered_players (Stored data) = [("0", JDict data)]) /\
  (data = [] -> load_registered_players (Stored data) = []).
Proof.
  intros _ Hkeys. apply no_guild_id_existsb in Hkeys.
  unfold load_donations, load_registered_players. rewrite Hkeys.
  repeat split.
  - intros ->. reflexivity.
  - intros ->. reflexivity.
  - destruct data; [contradiction | reflexivity].
  - intros ->. reflexivity.
Qed.

Lemma legacy_document_migration_witness :
  (dmem "weekly_donations" legacy_ledger = true ->
   load_donations (Stored legacy_ledger) = [("0", JDict legacy_ledger)]) /\
  (dmem "weekly_donations" legacy_ledger = false ->
   load_donations (Stored legacy_ledger) = legacy_ledger) /\
  (legacy_ledger <> [] ->
   load_registered_players (Stored legacy_ledger) = [("0", JDict legacy_ledger)]) /\
  (legacy_ledger = [] -> load_registered_players (Stored legacy_ledger) = []).
Proof.
  apply (legacy_document_migration legacy_ledger).
  - repeat constructor.
  - repeat constructor.
Defined.

(** C7, as stated, fails: a flat ledger whose only key is the short,
    non-numeric identity [alice] is returned as it is by [load_donations],
    because it has no ["weekly_donations"] key. *)
Lemma every_legacy_document_is_wrapped_counterexample :
  ~ every_legacy_document_is_wrapped.
Proof.
  intros H.
  destruct (H flat_by_player) as [Hload _].
  - repeat constructor.
  - vm_compute in Hload. discriminate.
Qed.

(** C10. A players dictionary that sits under the synthetic tenant ["0"] does
    not survive a save and a load: what is loaded is the saved document
    wrapped once more under ["0"], which differs from the saved document. *)
Theorem players_roundtrip_wraps_again (t : tracker) (players : dict string) :
  let t0 := set_registered_players [("0", players)] t in
  let saved := players_document (registered_players t0) in
  let loaded := load_registered_players (players_file (snd (save_registered_players t0))) in
  saved = [("0", dict_to_json JStr players)] /\
  loaded = [("0", JDict [("0", dict_to_json JStr players)])] /\
  loaded <> saved.
Proof.
  intros t0 saved loaded. subst t0 saved loaded. simpl.
  split; [reflexivity|]. split; [reflexivity|].
  unfold dict_to_json. intros H. injection H as H.
  destruct players as [|[k v] players]; simpl in H; discriminate.
Qed.

(** The same on the JSON documents: whatever sits under ["0"] alone is
    wrapped again. *)
Lemma load_registered_players_wraps_default_tenant (doc : json) :
  load_registered_players (Stored [("0", doc)]) = [("0", JDict [("0", doc)])].
Proof. reflexivity. Qed.

(** ** The weekly report *)

Lemma digits_key_is_not_weekly (keys : list string) :
  Forall (fun k => Str.isdigit k = true) keys -> ~ In "weekly_donations" keys.
Proof.
  intros Hall Hin. rewrite Forall_forall in Hall.
  specialize (Hall _ Hin). vm_compute in Hall. discriminate.
Qed.

Lemma dmem_false_notin {V : Type} (k : string) (d : dict V) :
  ~ In k (dkeys d) -> dmem k d = false.
Proof.
  intros H. destruct (dmem k d) eqn:E; [|reflexivity].
  apply dmem_dkeys in E. contradiction.
Qed.

Lemma generate_weekly_report_missing_key (donations : dict json) (now : instant) :
  dmem "weekly_donations" donations = false ->
  generate_weekly_report donations now = Raise KeyError.
Proof.
  intros H. unfold generate_weekly_report.
  now rewrite (dmem_false_dget _ _ H).
Qed.

(** C9, as amended. On a store whose top-level keys are guild ids (strings of
    digits) [generate_weekly_report] raises [KeyError]; it returns a summary
    only on a store that has the key ["weekly_donations"] at its top level;
    and, from a file whose top-level keys are ASCII text, [load_donations]
    returns such a store exactly when the stored document has that key next
    to a key that looks like a guild id. *)
Theorem generate_weekly_report_key_error :
  (forall (donations : dict json) (now : instant),
     Forall (fun k => Str.isdigit k = true) (dkeys donations) ->
     generate_weekly_report donations now = Raise KeyError) /\
  (forall (donations : dict json) (now : instant) (r : report),
     generate_weekly_report donations now = Return r ->
     dmem "weekly_donations" donations = true) /\
  (forall f : file,
     ascii_keys f ->
     (dmem "weekly_donations" (load_donations f) = true <->
      exists data, f = Stored data /\ dmem "weekly_donations" data = true /\
                   existsb looks_like_guild_id (dkeys data) = true)).
Proof.
  split; [|split].
  - intros donations now Hkeys. apply generate_weekly_report_missing_key.
    apply dmem_false_notin. now apply digits_key_is_not_weekly.
  - intros donations now r H.
    destruct (dmem "weekly_donations" donations) eqn:E; [reflexivity|].
    rewrite (generate_weekly_report_missing_key _ now E) in H. discriminate.
  - intros f _. split.
    + destruct f as [| |data]; simpl; try discriminate.
      destruct (dmem "weekly_donations" data) eqn:Ew; simpl.
      * destruct (existsb looks_like_guild_id (dkeys data)) eqn:Eg; simpl.
        -- intros _. exists data. auto.
        -- discriminate.
      * rewrite Ew. discriminate.
    + intros [data [-> [Hw Hg]]]. simpl. now rewrite Hw, Hg.
Qed.

(** On the store of a tracker whose guild ids are strings of digits, the
    report raises. *)
Lemma generate_weekly_report_on_store (t : tracker) (now : instant) :
  Forall (fun g => Str.isdigit g = true) (dkeys (donations_data t)) ->
  generate_weekly_report (donations_document (donations_data t)) now
  = Raise KeyError.
Proof.
  intros H. apply generate_weekly_report_missing_key, dmem_false_notin.
  unfold donations_document. rewrite dkeys_map_values.
  now apply digits_key_is_not_weekly.
Qed.

(** C9, as stated, fails in its last part: the stored document
    [mixed_ledger] is returned unchanged by [load_donations], with its
    top-level ["weekly_donations"] key, and the report on it succeeds. *)
Lemma load_never_returns_report_shape_counterexample :
  ~ load_never_returns_report_shape.
Proof.
  intros H. specialize (H (Stored mixed_ledger)). vm_compute in H. discriminate.
Qed.

Example report_on_mixed_ledger :
  generate_weekly_report (load_donations (Stored mixed_ledger)) 0 = Return NoDonations.
Proof. reflexivity. Qed.

(** The report on a legacy-shaped store, for comparison: two players, in
    descending order of their amounts. *)
Example report_on_legacy_store :
  generate_weekly_report
    [("weekly_donations",
      JDict [("42", Weekly.to_json sample_entry);
             ("43", Weekly.to_json (Weekly.mk "Bob" 250 [Donation.mk 250 5] 5))])]
    (2 * microseconds_per_day)
  = Return (Summary [mk_line 1 (JStr "Bob") 250 1 6; mk_line 2 (JStr "Alice") 100 1 5]
              350 2).
Proof. reflexivity. Qed.

(** ** The round trip of the ledger document *)

Lemma dmem_dset_other {V : Type} (k k' : string) (v : V) (d : dict V) :
  k' <> k -> dmem k' (dset k v d) = dmem k' d.
Proof. intros H. unfold dmem. now rewrite dget_dset_other. Qed.

Lemma dmem_map_values {V W : Type} (f : V -> W) (k : string) (d : dict V) :
  dmem k (map (fun kv => (fst kv, f (snd kv))) d) = dmem k d.
Proof. unfold dmem. rewrite dget_map_values. now destruct (dget k d). Qed.

Lemma dmem_cleanup_guilds (now : instant) (d : dict guild_data) (k : string) :
  dmem k (fst (cleanup_guilds now d)) = dmem k d.
Proof. unfold dmem. rewrite cleanup_guilds_dget. now destruct (dget k d). Qed.

(** On a complete store [add_donation] rebinds the key of the guild and
    nothing else. *)
Lemma add_donation_data (g u name : string) (amount : Z) (now : instant)
  (t : tracker) :
  sections_present (donations_data t) ->
  exists gd', donations_data (snd (add_donation g u name amount now t))
              = dset g gd' (donations_data t).
Proof.
  intros Hsec.
  destruct (dget g (donations_data t)) as [gd|] eqn:Hg.
  - destruct (Hsec g gd (dget_In _ _ _ Hg)) as [Hw Ht].
    destruct (weekly_donations gd) as [w|] eqn:Ew; [|contradiction].
    destruct (total_donations gd) as [d|] eqn:Ed; [|contradiction].
    rewrite (add_donation_found g u name amount now t gd w d Hg Ew Ed).
    eexists. reflexivity.
  - rewrite (add_donation_fresh g u name amount now t Hg).
    eexists. reflexivity.
Qed.

Lemma run_ops_keys (ops : list op) (t : tracker) (k : string) :
  sections_present (donations_data t) ->
  ~ In k (guild_ids ops) ->
  dmem k (donations_data (snd (run_ops ops t))) = dmem k (donations_data t).
Proof.
  revert t. induction ops as [|o ops IH]; intros t Hsec Hk; [reflexivity|].
  destruct (run_op_total o t Hsec) as [Hret [Hsec' _]].
  assert (Hstep : dmem k (donations_data (snd (run_op o t))) = dmem k (donations_data t)).
  { destruct o as [g u name amount now | now]; simpl run_op.
    - destruct (add_donation_data g u name amount now t Hsec) as [gd' ->].
      apply dmem_dset_other. intros ->. apply Hk. now left.
    - rewrite cleanup_expired_weeks_data. apply dmem_cleanup_guilds. }
  unfold run_ops in *. cbn [for_each].
  destruct (run_op o t) as [r t1] eqn:E. cbn [fst snd] in Hret, Hsec', Hstep. subst r.
  rewrite (bind_return _ _ _ _ _ E), IH, Hstep; [reflexivity | assumption |].
  intros Hin. apply Hk. destruct o; simpl; auto.
Qed.

Lemma load_donations_tenant_keyed (data : dict json) :
  dmem "weekly_donations" data = false -> load_donations (Stored data) = data.
Proof. intros H. simpl. now rewrite H. Qed.

Lemma run_ops_sections (ops : list op) (t : tracker) :
  sections_present (donations_data t) ->
  sections_present (donations_data (snd (run_ops ops t))).
Proof.
  revert t. induction ops as [|o ops IH]; intros t Hsec; [assumption|].
  destruct (run_op_total o t Hsec) as [Hret [Hsec' _]].
  unfold run_ops in *. cbn [for_each].
  destruct (run_op o t) as [r t1] eqn:E. cbn [fst snd] in Hret, Hsec'. subst r.
  rewrite (bind_return _ _ _ _ _ E). now apply IH.
Qed.

(** Reading the document of a store: a guild, then a player of a section. *)
Lemma getitem_dict_to_json {V : Type} (f : V -> json) (d : dict V) (k : string) :
  getitem (dict_to_json f d) k
  = match dget k d with Some v => Return (f v) | None => Raise KeyError end.
Proof.
  unfold dict_to_json. cbn [getitem]. rewrite dget_map_values.
  now destruct (dget k d).
Qed.

Lemma getitem_donations_document (d : dict guild_data) (g : string) :
  getitem (JDict (donations_document d)) g
  = match dget g d with
    | Some gd => Return (guild_to_json gd)
    | None => Raise KeyError
    end.
Proof.
  unfold donations_document. cbn [getitem]. rewrite dget_map_values.
  now destruct (dget g d).
Qed.

Lemma getitem_guild_weekly (gd : guild_data) (w : dict Weekly.t) :
  weekly_donations gd = Some w ->
  getitem (guild_to_json gd) "weekly_donations"
  = Return (dict_to_json Weekly.to_json w).
Proof. intros H. unfold guild_to_json. rewrite H. reflexivity. Qed.

Lemma getitem_guild_total (gd : guild_data) (d : dict Total.t) :
  total_donations gd = Some d ->
  getitem (guild_to_json gd) "total_donations"
  = Return (dict_to_json Total.to_json d).
Proof.
  intros H. unfold guild_to_json. rewrite H.
  destruct (weekly_donations gd); reflexivity.
Qed.

(** C8. From a complete store that has no ["weekly_donations"] key at its top
    level, after any history of appends and sweeps none of which names a
    guild ["weekly_donations"] (a guild id is [str(guild.id)], a string of
    digits), [save_donations] followed by [load_donations] gives back the
    document of the store, neither wrapped nor altered: it has the guilds of
    the store, and what is read in it for a player is what the store holds
    for that player, the running total and the number of events of the
    weekly window and those of the all-time aggregate; for a player without
    an entry in the store the document has none either. *)
Theorem ledger_roundtrip (t : tracker) (ops : list op) :
  sections_present (donations_data t) ->
  dmem "weekly_donations" (donations_data t) = false ->
  ~ In "weekly_donations" (guild_ids ops) ->
  let after := snd (run_ops ops t) in
  let saved := snd (save_donations after) in
  let loaded := load_donations (donations_file saved) in
  loaded = donations_document (donations_data after) /\
  dkeys loaded = dkeys (donations_data after) /\
  forall g u,
    match dget u (get_weekly_donations after g) with
    | Some e =>
        getpath (JDict loaded) [g; "weekly_donations"; u; "amount"]
        = Return (JInt (Weekly.amount e))
        /\ count_at (JDict loaded) [g; "weekly_donations"; u; "donations"]
           = Return (List.length (Weekly.donations e))
    | None =>
        getpath (JDict loaded) [g; "weekly_donations"; u] = Raise KeyError
    end
    /\
    match dget u (get_total_donations after g) with
    | Some e =>
        getpath (JDict loaded) [g; "total_donations"; u; "amount"]
        = Return (JInt (Total.amount e))
        /\ count_at (JDict loaded) [g; "total_donations"; u; "donations"]
           = Return (List.length (Total.donations e))
    | None =>
        getpath (JDict loaded) [g; "total_donations"; u] = Raise KeyError
    end.
Proof.
  intros Hsec Hkey Hids after saved loaded.
  assert (Hloaded : loaded = donations_document (donations_data after)).
  { subst loaded saved. cbn [save_donations snd donations_file].
    apply load_donations_tenant_keyed.
    unfold donations_document. rewrite dmem_map_values.
    subst after. rewrite run_ops_keys; assumption. }
  rewrite Hloaded. split; [reflexivity|].
  split; [apply dkeys_map_values|].
  pose proof (run_ops_sections ops t Hsec) as Hsec'. fold after in Hsec'.
  intros g u. unfold get_weekly_donations, get_total_donations, count_at.
  cbn [getpath]. rewrite getitem_donations_document.
  destruct (dget g (donations_data after)) as [gd|] eqn:Hg;
    [|split; reflexivity].
  destruct (Hsec' g gd (dget_In _ _ _ Hg)) as [Hw Ht].
  destruct (weekly_donations gd) as [w|] eqn:Ew; [|contradiction].
  destruct (total_donations gd) as [d|] eqn:Ed; [|contradiction].
  rewrite (getitem_guild_weekly gd w Ew), (getitem_guild_total gd d Ed).
  rewrite !getitem_dict_to_json.
  split.
  - destruct (dget u w) as [e|]; [|reflexivity].
    split; [reflexivity|]. cbn. now rewrite length_map.
  - destruct (dget u d) as [e|]; [|reflexivity].
    split; [reflexivity|]. cbn. now rewrite length_map.
Qed.

Lemma ledger_roundtrip_witness :
  let after := snd (run_ops sample_history fresh_tracker) in
  let saved := snd (save_donations after) in
  let loaded := load_donations (donations_file saved) in
  loaded = donations_document (donations_data after) /\
  dkeys loaded = dkeys (donations_data after) /\
  forall g u,
    match dget u (get_weekly_donations after g) with
    | Some e =>
        getpath (JDict loaded) [g; "weekly_donations"; u; "amount"]
        = Return (JInt (Weekly.amount e))
        /\ count_at (JDict loaded) [g; "weekly_donations"; u; "donations"]
           = Return (List.length (Weekly.donations e))
    | None =>
        getpath (JDict loaded) [g; "weekly_donations"; u] = Raise KeyError
    end
    /\
    match dget u (get_total_donations after g) with
    | Some e =>
        getpath (JDict loaded) [g; "total_donations"; u; "amount"]
        = Return (JInt (Total.amount e))
        /\ count_at (JDict loaded) [g; "total_donations"; u; "donations"]
           = Return (List.length (Total.donations e))
    | None =>
        getpath (JDict loaded) [g; "total_donations"; u] = Raise KeyError
    end.
Proof.
  apply (ledger_roundtrip fresh_tracker sample_history).
  - intros g gd H. simpl in H. contradiction.
  - reflexivity.
  - cbn. intros H. repeat (destruct H as [H|H]; [discriminate|]). exact H.
Defined.

(** What the loaded document of the sample history reads as for player 42:
    the window restarted by the last donation, and the three donations of
    all time. *)
Example ledger_roundtrip_sample :
  let after := snd (run_ops sample_history fresh_tracker) in
  let loaded := load_donations (donations_file (snd (save_donations after))) in
  getpath (JDict loaded) ["900000000000000001"; "weekly_donations"; "42"; "amount"]
  = Return (JInt 25)
  /\ count_at (JDict loaded)
       ["900000000000000001"; "total_donations"; "42"; "donations"]
     = Return 3%nat
  /\ getpath (JDict loaded) ["900000000000000001"; "total_donations"; "42"; "amount"]
     = Return (JInt 175).
Proof. vm_compute. repeat split; reflexivity. Qed.

(** ** Attribution *)

Lemma keeps_players_bind {A B : Type} (m : M A) (f : A -> M B) :
  keeps_players m -> (forall a, keeps_players (f a)) -> keeps_players (bind m f).
Proof.
  intros Hm Hf t. unfold bind. specialize (Hm t).
  destruct (m t) as [[a|e] t1]; simpl in *; [|assumption].
  now rewrite Hf.
Qed.

Lemma keeps_players_ret {A : Type} (a : A) : keeps_players (ret a).
Proof. intros t. reflexivity. Qed.

Lemma keeps_players_raise {A : Type} (e : exn) : keeps_players (@raise A e).
Proof. intros t. reflexivity. Qed.

Lemma keeps_players_when (c : bool) (m : M unit) :
  keeps_players m -> keeps_players (when c m).
Proof. intros H. destruct c; [assumption | apply keeps_players_ret]. Qed.

Lemma keeps_players_guild_item (g : string) : keeps_players (guild_item g).
Proof. intros t. unfold guild_item. now destruct (dget g (donations_data t)). Qed.

Lemma keeps_players_set_guild_item (g : string) (gd : guild_data) :
  keeps_players (set_guild_item g gd).
Proof. intros t. reflexivity. Qed.

Lemma keeps_players_save : keeps_players save_donations.
Proof. intros t. reflexivity. Qed.

Lemma keeps_players_weekly_section (g : string) : keeps_players (weekly_section g).
Proof.
  apply keeps_players_bind; [apply keeps_players_guild_item|].
  intros gd. destruct (weekly_donations gd);
    [apply keeps_players_ret | apply keeps_players_raise].
Qed.

Lemma keeps_players_total_section (g : string) : keeps_players (total_section g).
Proof.
  apply keeps_players_bind; [apply keeps_players_guild_item|].
  intros gd. destruct (total_donations gd);
    [apply keeps_players_ret | apply keeps_players_raise].
Qed.

Lemma keeps_players_weekly_entry (g u : string) : keeps_players (weekly_entry g u).
Proof.
  apply keeps_players_bind; [apply keeps_players_weekly_section|].
  intros w. destruct (dget u w); [apply keeps_players_ret | apply keeps_players_raise].
Qed.

Lemma keeps_players_total_entry (g u : string) : keeps_players (total_entry g u).
Proof.
  apply keeps_players_bind; [apply keeps_players_total_section|].
  intros w. destruct (dget u w); [apply keeps_players_ret | apply keeps_players_raise].
Qed.

Lemma keeps_players_set_weekly_entry (g u : string) (e : Weekly.t) :
  keeps_players (set_weekly_entry g u e).
Proof.
  apply keeps_players_bind; [apply keeps_players_weekly_section|]. intros w.
  apply keeps_players_bind; [apply keeps_players_guild_item|]. intros gd.
  apply keeps_players_set_guild_item.
Qed.

Lemma keeps_players_set_total_entry (g u : string) (e : Total.t) :
  keeps_players (set_total_entry g u e).
Proof.
  apply keeps_players_bind; [apply keeps_players_total_section|]. intros w.
  apply keeps_players_bind; [apply keeps_players_guild_item|]. intros gd.
  apply keeps_players_set_guild_item.
Qed.

Create HintDb keeps discriminated.
#[local] Hint Resolve keeps_players_ret keeps_players_raise keeps_players_when
  keeps_players_guild_item keeps_players_set_guild_item keeps_players_save
  keeps_players_weekly_section keeps_players_total_section
  keeps_players_weekly_entry keeps_players_total_entry
  keeps_players_set_weekly_entry keeps_players_set_total_entry : keeps.

Lemma keeps_players_add_donation (g u name : string) (amount : Z) (now : instant) :
  keeps_players (add_donation g u name amount now).
Proof.
  unfold add_donation.
  repeat first [ solve [auto with keeps] | apply keeps_players_bind; [|intros ?] ].
  intros t. destruct (dmem g (donations_data t)); reflexivity.
Qed.

Lemma is_player_registered_ext (t t' : tracker) (g u : string) :
  registered_players t' = registered_players t ->
  is_player_registered t' g u = is_player_registered t g u.
Proof. intros H. unfold is_player_registered. now rewrite H. Qed.

Lemma existsb_registered_ext (t t' : tracker) (g : string) (users : list string) :
  registered_players t' = registered_players t ->
  existsb (is_player_registered t' g) users = existsb (is_player_registered t g) users.
Proof.
  intros H. induction users as [|u users IH]; simpl; [reflexivity|].
  now rewrite IH, (is_player_registered_ext t t' g u H).
Qed.

(** The loop over the mentions records a donation exactly when one of the
    mentioned users is registered. *)
Lemma credit_mentions_recorded (g : string) (users : list string) (amount : Z)
  (now : instant) (recorded : bool) (t t' : tracker) (r : bool) :
  credit_mentions g users amount now recorded t = (Return r, t') ->
  r = recorded || existsb (is_player_registered t g) users.
Proof.
  revert recorded t. induction users as [|u users IH]; intros recorded t; simpl.
  - intros [= <- <-]. now rewrite orb_false_r.
  - destruct (is_player_registered t g u) eqn:Hreg; simpl.
    + unfold bind at 1.
      destruct (dget g (registered_players t)) as [players|];
        [destruct (dget u players) as [name|]|]; try discriminate.
      unfold bind at 1.
      pose proof (keeps_players_add_donation g u name amount now t) as Hkeep.
      destruct (add_donation g u name amount now t) as [[[]|e] t1]; [|discriminate].
      intros H. apply IH in H. subst r. now rewrite orb_true_r.
    + apply IH.
Qed.

(** Mentions come before names: when a mentioned user is registered, the
    outcome of the attribution is the outcome of the loop over the mentions,
    and the search of the names in the text is not run. *)
Lemma mentions_take_precedence (m : message) (amount : Z) (now : instant)
  (t : tracker) :
  existsb (is_player_registered t (guild_id m)) (mentions m) = true ->
  attribute_donation m amount now t
  = match credit_mentions (guild_id m) (mentions m) amount now false t with
    | (Return _, t') => (Return Tracked, t')
    | (Raise e, t') => (Raise e, t')
    end.
Proof.
  intros Hreg. unfold attribute_donation. unfold bind at 1.
  destruct (credit_mentions (guild_id m) (mentions m) amount now false t)
    as [[r|e] t1] eqn:E; [|reflexivity].
  apply credit_mentions_recorded in E. rewrite Hreg in E. simpl in E. subst r.
  reflexivity.
Qed.

Lemma credits_ext (t t' : tracker) (g : string) (users : list string) (g' u : string) :
  registered_players t' = registered_players t ->
  credits t' g users g' u = credits t g users g' u.
Proof.
  intros H. unfold credits. destruct (String.eqb g' g); [|reflexivity].
  f_equal. apply filter_ext. intros x. now apply is_player_registered_ext.
Qed.

(** The loop over the mentions credits every registered mention, not only
    the first one: on a complete store it returns normally, and the
    all-time events of each user grow by one record for each of the user's
    occurrences among the registered mentions. *)
Lemma credit_mentions_credits_all (g : string) (amount : Z) (now : instant)
  (users : list string) (recorded : bool) (t : tracker) :
  sections_present (donations_data t) ->
  let after := credit_mentions g users amount now recorded t in
  fst after = Return (recorded || existsb (is_player_registered t g) users) /\
  forall g' u,
    total_events (snd after) g' u
    = (total_events t g' u
       ++ repeat (Donation.mk amount now) (credits t g users g' u))%list.
Proof.
  revert recorded t. induction users as [|u0 users IH]; intros recorded t Hsec.
  - cbn [credit_mentions]. split; [cbn; now rewrite orb_false_r|].
    intros g' u. unfold credits. cbn. destruct (String.eqb g' g); now rewrite app_nil_r.
  - cbn [credit_mentions existsb].
    destruct (is_player_registered t g u0) eqn:Hreg.
    + assert (Hname : exists name,
                (fun t' : tracker =>
                   match dget g (registered_players t') with
                   | Some players =>
                       match dget u0 players with
                       | Some n => (Return n, t')
                       | None => (Raise KeyError, t')
                       end
                   | None => (Raise KeyError, t')
                   end) t = (Return name, t)).
      { unfold is_player_registered in Hreg.
        destruct (dget g (registered_players t)) as [players|]; [|discriminate].
        destruct (dmem_true_dget _ _ Hreg) as [name Hn]. exists name.
        now rewrite Hn. }
      destruct Hname as [name Hname].
      rewrite (bind_return _ _ _ _ _ Hname).
      destruct (add_donation_total g u0 name amount now t Hsec) as [Hret [Hsec' Htot]].
      pose proof (keeps_players_add_donation g u0 name amount now t) as Hkeep.
      destruct (add_donation g u0 name amount now t) as [r t1] eqn:E.
      cbn [fst snd] in Hret, Hsec', Htot, Hkeep. subst r.
      rewrite (bind_return _ _ _ _ _ E).
      destruct (IH true t1 Hsec') as [Hret1 Hall1].
      split.
      * rewrite Hret1. cbn. now rewrite orb_true_r.
      * intros g' u. rewrite Hall1, (credits_ext t t1 g users g' u Hkeep).
        assert (Hstep : total_events t1 g' u
                        = (total_events t g' u
                           ++ (if String.eqb g' g && String.eqb u u0
                               then [Donation.mk amount now] else []))%list).
        { unfold total_events. rewrite Htot.
          destruct (String.eqb g' g && String.eqb u u0).
          - unfold credit_total.
            now destruct (dget u (get_total_donations t g')).
          - now rewrite app_nil_r. }
        rewrite Hstep, <- app_assoc. f_equal.
        unfold credits. cbn [filter]. rewrite Hreg.
        destruct (String.eqb_spec g' g) as [->|Hg]; cbn [andb]; [|reflexivity].
        cbn [count_occ].
        destruct (String.eqb_spec u u0) as [Heq|Hu];
          destruct (string_dec u0 u) as [Heq'|Hu']; try congruence; reflexivity.
    + destruct (IH recorded t Hsec) as [Hret1 Hall1].
      split; [rewrite Hret1; reflexivity|].
      intros g' u. rewrite Hall1. unfold credits. cbn [filter]. now rewrite Hreg.
Qed.

(** C1, on the code. The claim is that a donation with mentions goes to the
    first registered mention alone, so that one record is appended, and that
    the names in the text are not consulted.  The message [two_mentions]
    carries a donation of 500 and mentions the two registered players 42 and
    43: the loop over the mentions has no [break], so the donation is
    recorded once for each of them; two records are appended, not one. *)
Theorem two_registered_mentions_both_credited :
  let after := process_donation_message two_mentions 0 two_players in
  fst after = Some Tracked /\
  total_events (snd after) "900000000000000001" "42" = [Donation.mk 500 0] /\
  total_events (snd after) "900000000000000001" "43" = [Donation.mk 500 0] /\
  total_amount (snd after) "900000000000000001" "42"
  + total_amount (snd after) "900000000000000001" "43" = 1000.
Proof. vm_compute. repeat split; reflexivity. Qed.

(** With one registered mention, the player named in the text is not
    credited. *)
Example mention_wins_over_name :
  let after := process_donation_message mention_and_name 0 two_players in
  fst after = Some Tracked /\
  total_events (snd after) "900000000000000001" "42" = [Donation.mk 500 0] /\
  total_events (snd after) "900000000000000001" "43" = [].
Proof. vm_compute. repeat split; reflexivity. Qed.

(** ** The backtracking search only finds matches *)

Section Soundness.
Context {A : Type}.

Lemma star_loop_sound (r : regex) (body : cont -> cont) :
  answers r body -> forall n, answers (Star r) (fun k : @cont A => star_loop body k n).
Proof.
  intros Hbody n. induction n as [|n IH]; intros k c s x; simpl.
  - intros H. exists c, s. split; [constructor | assumption].
  - destruct (body (star_loop body k n) c s) as [y|] eqn:E.
    + intros [= ->]. apply Hbody in E as [c1 [s1 [Hm Hk]]].
      apply IH in Hk as [c2 [s2 [Hm2 Hk2]]].
      exists c2, s2. split; [eapply M_star_more; eassumption | assumption].
    + intros H. exists c, s. split; [constructor | assumption].
Qed.

Lemma lazy_loop_sound (r : regex) (body : cont -> cont) :
  answers r body -> forall n, answers (Lazy r) (fun k : @cont A => lazy_loop body k n).
Proof.
  intros Hbody n. induction n as [|n IH]; intros k c s x; simpl.
  - intros H. exists c, s. split; [constructor | assumption].
  - destruct (k c s) as [y|] eqn:E.
    + intros [= ->]. exists c, s. split; [constructor | assumption].
    + intros H. apply Hbody in H as [c1 [s1 [Hm Hk]]].
      apply IH in Hk as [c2 [s2 [Hm2 Hk2]]].
      exists c2, s2. split; [eapply M_lazy_more; eassumption | assumption].
Qed.

(** Whatever [rmatch] answers, it answers through a match of the pattern. *)
Lemma rmatch_sound (r : regex) : answers r (@rmatch A r).
Proof.
  induction r as [|a|p|r1 IH1 r2 IH2|r IH|r IH|r IH|r IH]; intros k c s x; simpl.
  - intros H. exists c, s. split; [constructor | assumption].
  - destruct s as [|b s]; [discriminate|].
    destruct (Ascii.eqb_spec a b) as [<-|]; [|discriminate].
    intros H. exists c, s. split; [constructor | assumption].
  - destruct s as [|b s]; [discriminate|].
    destruct (in_class p b) eqn:E; [|discriminate].
    intros H. exists c, s. split; [now constructor | assumption].
  - intros H. apply IH1 in H as [c1 [s1 [Hm1 H]]].
    apply IH2 in H as [c2 [s2 [Hm2 H]]].
    exists c2, s2. split; [eapply M_cat; eassumption | assumption].
  - destruct (rmatch r k c s) as [y|] eqn:E.
    + intros [= ->]. apply IH in E as [c1 [s1 [Hm H]]].
      exists c1, s1. split; [now apply M_opt_some | assumption].
    + intros H. exists c, s. split; [apply M_opt_none | assumption].
  - apply (star_loop_sound r (rmatch r) IH (length s)).
  - apply (lazy_loop_sound r (rmatch r) IH (length s)).
  - intros H. apply IH in H as [c1 [s1 [Hm H]]].
    exists (Some (s, s1)), s1. split; [eapply M_group; eassumption | assumption].
Qed.

End Soundness.

(** A successful search found a match of the pattern at some position. *)
Lemma search_sound (r : regex) (s : string) (m : capture) :
  search r s = Some m ->
  exists skipped s0 s', s = skipped ++ s0 /\ Matches r None s0 m s'.
Proof.
  induction s as [|a s IH]; simpl.
  - destruct (rmatch r found None "") as [c|] eqn:E; [|discriminate].
    intros [= <-]. apply rmatch_sound in E as [c' [s' [Hm [= ->]]]].
    exists "", "", s'. split; [reflexivity | assumption].
  - destruct (rmatch r found None (String a s)) as [c|] eqn:E.
    + intros [= <-]. apply rmatch_sound in E as [c' [s' [Hm [= ->]]]].
      exists "", (String a s), s'. split; [reflexivity | assumption].
    + intros H. apply IH in H as [skipped [s0 [s' [-> Hm]]]].
      exists (String a skipped), s0, s'. split; [reflexivity | assumption].
Qed.

(** ** What a match captures *)

Lemma matches_consumes (r : regex) (c c' : capture) (s s' : string) :
  Matches r c s c' s' -> exists u, s = u ++ s'.
Proof.
  induction 1 as
    [c s|a c s|k b c s Hk|r1 r2 c s c1 s1 c2 s2 _ [u1 ->] _ [u2 ->]
    |r c s c1 s1 _ IH|r c s|r c s|r c s c1 s1 c2 s2 _ [u1 ->] _ [u2 ->]
    |r c s|r c s c1 s1 c2 s2 _ [u1 ->] _ [u2 ->]|r c s c1 s1 _ IH].
  - now exists "".
  - now exists (String a "").
  - now exists (String b "").
  - exists (u1 ++ u2). now rewrite append_assoc.
  - assumption.
  - now exists "".
  - now exists "".
  - exists (u1 ++ u2). now rewrite append_assoc.
  - now exists "".
  - exists (u1 ++ u2). now rewrite append_assoc.
  - assumption.
Qed.

Lemma matches_without_group (r : regex) (c c' : capture) (s s' : string) :
  Matches r c s c' s' -> has_group r = false -> c' = c.
Proof.
  induction 1; simpl; intros Hg; try reflexivity; try discriminate;
    try (apply orb_false_iff in Hg as [Hg1 Hg2]); auto.
  - rewrite IHMatches2, IHMatches1; auto.
  - rewrite IHMatches2, IHMatches1; auto.
  - rewrite IHMatches2, IHMatches1; auto.
Qed.

Lemma matches_star_digit (c c' : capture) (s s' : string) :
  Matches (Star digit) c s c' s' ->
  c' = c /\ exists ds, s = ds ++ s' /\ Str.all_digits ds = true.
Proof.
  remember (Star digit) as r eqn:Hr. intros H.
  induction H as
    [ | | | | | |r0 c s|r0 c s c1 s1 c2 s2 H1 _ H2 IH2| | | ];
    try discriminate.
  - split; [reflexivity|]. now exists "".
  - injection Hr as ->. destruct (IH2 eq_refl) as [-> [ds [-> Hds]]].
    inversion H1 as [ | |k b c0 s0 Hb| | | | | | | | ]; subst.
    split; [reflexivity|]. exists (String b ds). split; [reflexivity|].
    simpl in *. now rewrite Hb.
Qed.

Lemma matches_plus_digit (c c' : capture) (s s' : string) :
  Matches (Plus digit) c s c' s' ->
  c' = c /\ exists ds, s = ds ++ s' /\ Str.isdigit ds = true.
Proof.
  intros H. inversion H as [ | | |r1 r2 c0 s0 c1 s1 c2 s2 H1 H2| | | | | | | ]; subst.
  apply matches_star_digit in H2 as [-> [ds [-> Hds]]].
  inversion H1 as [ | |k b c0 s0 Hb| | | | | | | | ]; subst.
  split; [reflexivity|]. exists (String b ds). split; [reflexivity|].
  simpl in *. now rewrite Hb.
Qed.

Lemma matches_number_groups (c c' : capture) (s s' : string) :
  Matches (Star (Cat (Chr ",") (Plus digit))) c s c' s' ->
  c' = c /\ exists v, s = v ++ s' /\
    forall ds, Str.isdigit ds = true -> number_text (ds ++ v).
Proof.
  remember (Star (Cat (Chr ",") (Plus digit))) as r eqn:Hr. intros H.
  induction H as
    [ | | | | | |r0 c s|r0 c s c1 s1 c2 s2 H1 _ H2 IH2| | | ];
    try discriminate.
  - split; [reflexivity|]. exists "". split; [reflexivity|].
    intros ds Hds. rewrite append_empty_r. now constructor.
  - injection Hr as ->. destruct (IH2 eq_refl) as [-> [v [-> Hv]]].
    inversion H1 as [ | | |r1 r2 c0 s0 c3 s3 c4 s4 Hc Hp| | | | | | | ]; subst.
    inversion Hc; subst.
    apply matches_plus_digit in Hp as [-> [g [-> Hg]]].
    split; [reflexivity|]. exists ("," ++ g ++ v).
    split; [simpl; now rewrite append_assoc|].
    intros ds Hds. apply number_more; [assumption | now apply Hv].
Qed.

(** The amount group consumes a number text and nothing else. *)
Lemma matches_number_body (c c' : capture) (s s' : string) :
  Matches number_body c s c' s' ->
  c' = c /\ exists u, s = u ++ s' /\ number_text u.
Proof.
  intros H. inversion H as [ | | |r1 r2 c0 s0 c1 s1 c2 s2 H1 H2| | | | | | | ]; subst.
  apply matches_plus_digit in H1 as [-> [ds [-> Hds]]].
  apply matches_number_groups in H2 as [-> [v [-> Hv]]].
  split; [reflexivity|]. exists (ds ++ v).
  split; [now rewrite append_assoc | now apply Hv].
Qed.

Lemma char_class_eqb_eq (k1 k2 : char_class) : char_class_eqb k1 k2 = true -> k1 = k2.
Proof. destruct k1, k2; (reflexivity || discriminate). Qed.

Lemma regex_eqb_eq (r1 r2 : regex) : regex_eqb r1 r2 = true -> r1 = r2.
Proof.
  revert r2. induction r1; intros [] H; simpl in H; try discriminate; try reflexivity.
  - f_equal. now apply Ascii.eqb_eq.
  - f_equal. now apply char_class_eqb_eq.
  - apply andb_true_iff in H as [H1 H2]. f_equal; auto.
  - f_equal; auto.
  - f_equal; auto.
  - f_equal; auto.
  - f_equal; auto.
Qed.

(** A pattern with the amount as its only group captures a number text. *)
Lemma captures_number_sound (r : regex) (c c' : capture) (s s' : string) :
  captures_number r = true ->
  Matches r c s c' s' ->
  exists u to, c' = Some (u ++ to, to) /\ number_text u.
Proof.
  intros Hr H. revert Hr.
  induction H as
    [ | | |r1 r2 c s c1 s1 c2 s2 H1 IH1 H2 IH2| | | | | | |r c s c1 s1 H _];
    simpl; intros Hr; try discriminate.
  - apply orb_true_iff in Hr as [Hr|Hr]; apply andb_true_iff in Hr as [Ha Hb].
    + destruct (IH1 Ha) as [u [to [-> Hu]]].
      apply negb_true_iff in Hb.
      rewrite (matches_without_group _ _ _ _ _ H2 Hb). eauto.
    + now apply IH2.
  - apply regex_eqb_eq in Hr. subst r.
    apply matches_number_body in H as [_ [u [-> Hu]]]. eauto.
Qed.

Lemma group1_span (u to : string) : group1 (Some (u ++ to, to)) = Some u.
Proof.
  simpl. rewrite length_append.
  replace (length u + length to - length to)%nat with (length u) by lia.
  now rewrite take_append.
Qed.

(** Every match of every rule has its group, a number text. *)
Lemma search_captures_number (p : regex) (text : string) (m : capture) :
  captures_number p = true ->
  search p text = Some m ->
  exists g, group1 m = Some g /\ number_text g.
Proof.
  intros Hp H.
  apply search_sound in H as [skipped [s0 [s' [_ Hm]]]].
  destruct (captures_number_sound _ _ _ _ _ Hp Hm) as [u [to [-> Hu]]].
  exists u. split; [apply group1_span | assumption].
Qed.

Lemma patterns_capture_number : forallb captures_number patterns = true.
Proof. reflexivity. Qed.

(** ** The captured amount as an integer *)

Lemma startswith_comma (c : ascii) (s : string) :
  Str.startswith "," (String c s) = Ascii.eqb "," c.
Proof.
  change (Ascii.eqb "," c && Str.startswith "" s = Ascii.eqb "," c).
  destruct s; apply andb_true_r.
Qed.

Lemma replace_fuel_step (fuel : nat) (old new : string) (c : ascii) (s : string) :
  Str.replace_fuel (S fuel) old new (String c s)
  = if Str.startswith old (String c s)
    then new ++ Str.replace_fuel fuel old new (Str.drop (length old) (String c s))
    else String c (Str.replace_fuel fuel old new s).
Proof. reflexivity. Qed.

Lemma without_commas_step (c : ascii) (s : string) :
  without_commas (String c s)
  = if Ascii.eqb "," c then without_commas s else String c (without_commas s).
Proof. reflexivity. Qed.

Lemma replace_commas_fuel (fuel : nat) (s : string) :
  (length s <= fuel)%nat ->
  Str.replace_fuel fuel "," "" s = without_commas s.
Proof.
  revert s. induction fuel as [|fuel IH]; intros s Hlen.
  - destruct s; [reflexivity | simpl in Hlen; lia].
  - destruct s as [|c s]; [reflexivity|].
    simpl in Hlen.
    rewrite replace_fuel_step, without_commas_step, startswith_comma.
    destruct (Ascii.eqb "," c).
    + change (Str.replace_fuel fuel "," "" s = without_commas s). apply IH. lia.
    + f_equal. apply IH. lia.
Qed.

Lemma replace_commas (s : string) : Str.replace "," "" s = without_commas s.
Proof. unfold Str.replace. now apply replace_commas_fuel. Qed.

Lemma digit_is_not_comma (c : ascii) :
  Str.is_digit c = true -> Ascii.eqb "," c = false.
Proof.
  destruct (Ascii.eqb_spec "," c) as [<-|]; [discriminate | reflexivity].
Qed.

Lemma without_commas_digits (ds s : string) :
  Str.all_digits ds = true ->
  without_commas (ds ++ s) = ds ++ without_commas s.
Proof.
  induction ds as [|c ds IH]; [reflexivity|].
  intros H. apply andb_true_iff in H as [Hc Hds].
  change (without_commas (String c (ds ++ s)) = String c (ds ++ without_commas s)).
  now rewrite without_commas_step, (digit_is_not_comma c Hc), IH.
Qed.

Lemma isdigit_all_digits (s : string) : Str.isdigit s = true -> Str.all_digits s = true.
Proof. destruct s; [discriminate | trivial]. Qed.

Lemma all_digits_append (s1 s2 : string) :
  Str.all_digits (s1 ++ s2) = Str.all_digits s1 && Str.all_digits s2.
Proof.
  induction s1 as [|c s1 IH]; simpl; [reflexivity|].
  now rewrite IH, andb_assoc.
Qed.

Lemma isdigit_append (s1 s2 : string) :
  Str.isdigit s1 = true -> Str.all_digits s2 = true -> Str.isdigit (s1 ++ s2) = true.
Proof.
  destruct s1 as [|c s1]; [discriminate|]. intros H1 H2.
  change (Str.all_digits (String c s1 ++ s2) = true).
  rewrite all_digits_append. now rewrite (isdigit_all_digits _ H1), H2.
Qed.

(** A number text without its commas is a non-empty string of digits. *)
Lemma number_text_digits (g : string) :
  number_text g -> Str.isdigit (without_commas g) = true.
Proof.
  induction 1 as [ds Hds|ds u Hds _ IH].
  - rewrite <- (append_empty_r ds).
    rewrite without_commas_digits by now apply isdigit_all_digits.
    simpl. now rewrite append_empty_r.
  - rewrite without_commas_digits by now apply isdigit_all_digits.
    simpl. apply isdigit_append; [assumption | now apply isdigit_all_digits].
Qed.

(** [int] of a captured amount: its embedded integer, unless its digits
    exceed the interpreter's limit. *)
Lemma py_int_number_text (g : string) :
  number_text g ->
  py_int (Str.replace "," "" g)
  = if (digit_count g <=? int_max_str_digits)%nat
    then Some (embedded_integer g) else None.
Proof.
  intros Hg. unfold py_int, digit_count, embedded_integer.
  rewrite replace_commas, (number_text_digits g Hg). reflexivity.
Qed.

(** ** The loop over the rules *)

Lemma try_patterns_first_amount (l : list regex) (text : string) :
  forallb captures_number l = true ->
  try_patterns l text = Return (first_amount l text).
Proof.
  induction l as [|p l IH]; [reflexivity|].
  cbn [try_patterns first_amount forallb].
  intros H. apply andb_true_iff in H as [Hp Hl].
  unfold rule_amount.
  destruct (search p text) as [m|] eqn:Es; [|now apply IH].
  destruct (search_captures_number p text m Hp Es) as [g [-> _]].
  destruct (py_int (Str.replace "," "" g)); [reflexivity | now apply IH].
Qed.

Lemma first_amount_skips (before after : list regex) (text : string) :
  (forall q, In q before -> rule_amount q text = None) ->
  first_amount (before ++ after) text = first_amount after text.
Proof.
  induction before as [|q before IH]; intros H; simpl; [reflexivity|].
  rewrite (H q (or_introl eq_refl)). apply IH.
  intros q' Hq'. apply H. now right.
Qed.

Lemma parse_donation_message_total (content : string) :
  parse_donation_message content
  = Return (if has_keyword (Str.lower content)
            then first_amount patterns (Str.lower content) else None).
Proof.
  unfold parse_donation_message. fold (has_keyword (Str.lower content)).
  destruct (has_keyword (Str.lower content)); cbn [negb]; [|reflexivity].
  apply try_patterns_first_amount. apply patterns_capture_number.
Qed.

(** The order of the rules.  [parse_donation_message] never raises: without
    a keyword it returns nothing, otherwise the amount of the first rule, in
    the order of the list, whose capture converts to an integer.  For a rule
    that matches while the rules before it contribute nothing (they do not
    match, or their capture does not convert), the capture is a number text;
    when its digits are within the limit of the integer conversion the
    amount returned is the integer embedded in it, commas removed, whatever
    the later rules match; and when they are not, the rule is skipped and
    the rules after it decide. *)
Lemma parse_donation_message_first_rule (content : string) :
  let text := Str.lower content in
  parse_donation_message content
  = Return (if has_keyword text then first_amount patterns text else None)
  /\
  forall (before after : list regex) (p : regex) (m : capture),
    patterns = (before ++ p :: after)%list ->
    (forall q, In q before -> rule_amount q text = None) ->
    search p text = Some m ->
    has_keyword text = true ->
    exists g,
      group1 m = Some g /\ number_text g /\
      ((digit_count g <= int_max_str_digits)%nat ->
       parse_donation_message content = Return (Some (embedded_integer g))) /\
      ((int_max_str_digits < digit_count g)%nat ->
       parse_donation_message content = Return (first_amount after text)).
Proof.
  intros text. split; [apply parse_donation_message_total|].
  intros before after p m Hsplit Hbefore Hsearch Hkey.
  assert (Hp : captures_number p = true).
  { pose proof patterns_capture_number as Hall. rewrite Hsplit in Hall.
    rewrite forallb_app in Hall. apply andb_true_iff in Hall as [_ Hall].
    cbn [forallb] in Hall. now apply andb_true_iff in Hall as [Hall _]. }
  destruct (search_captures_number p text m Hp Hsearch) as [g [Hg Hnum]].
  exists g. split; [assumption|]. split; [assumption|].
  rewrite parse_donation_message_total. fold text. rewrite Hkey, Hsplit.
  rewrite (first_amount_skips before (p :: after) text Hbefore).
  cbn [first_amount]. unfold rule_amount.
  rewrite Hsearch, Hg, (py_int_number_text g Hnum).
  split; intros Hlen.
  - apply Nat.leb_le in Hlen. now rewrite Hlen.
  - apply Nat.leb_gt in Hlen. now rewrite Hlen.
Qed.

Lemma matches_lit_inv (w : string) (c c' : capture) (s s' : string) :
  Matches (lit w) c s c' s' -> c' = c /\ s = w ++ s'.
Proof.
  revert c s. induction w as [|a w IH]; intros c s H.
  - inversion H; subst. now split.
  - destruct w as [|b w].
    + inversion H; subst. now split.
    + change (lit (String a (String b w))) with (Cat (Chr a) (lit (String b w))) in H.
      inversion H as [ | | |r1 r2 c0 s0 c1 s1 c2 s2 H1 H2| | | | | | | ]; subst.
      inversion H1; subst. apply IH in H2 as [-> ->]. now split.
Qed.

Lemma matches_lit_intro (w : string) (c : capture) (s : string) :
  Matches (lit w) c (w ++ s) c s.
Proof.
  induction w as [|a w IH]; [constructor|].
  destruct w as [|b w]; [constructor|].
  change (lit (String a (String b w))) with (Cat (Chr a) (lit (String b w))).
  change (String a (String b w) ++ s) with (String a (String b w ++ s)).
  eapply M_cat; [constructor | exact IH].
Qed.

(** The second rule is the more specific phrasing of the first: whatever it
    matches is the words [you have] and a space followed by a match of the
    first rule, with the same capture. *)
Lemma specific_gold_refines_generic (c c' : capture) (s s' : string) :
  Matches rule_specific_gold c s c' s' ->
  exists s0, s = "you have " ++ s0 /\ Matches rule_generic_gold c s0 c' s'.
Proof.
  unfold rule_specific_gold, rule_generic_gold. cbv [nth patterns]. cbn [seq].
  intros H.
  inversion H as [ | | |r1 r2 c0 s0 c1 s1 c2 s2 H1 H2| | | | | | | ]; subst.
  apply (matches_lit_inv "you have donated") in H1 as [-> ->].
  exists ("donated" ++ s1). split; [reflexivity|].
  eapply M_cat; [apply (matches_lit_intro "donated") | exact H2].
Qed.

(** C6, as stated, fails where it calls the first rule the more specific
    phrasing: [two_gold_donations] matches the generic rule with the amount
    1 and the more specific rule with the amount 2, and the amount returned
    is 1, that of the generic rule, which comes first in the list. *)
Lemma specific_rule_wins_counterexample : ~ specific_rule_wins.
Proof.
  intros H.
  specialize (H two_gold_donations 1 2 eq_refl eq_refl).
  vm_compute in H. discriminate.
Qed.

(** ** Matching around a number text *)

Lemma numchar_not_space (a : ascii) : numchar a = true -> Str.is_space a = false.
Proof.
  destruct a as [[] [] [] [] [] [] [] []]; vm_compute; intros H;
    (reflexivity || discriminate).
Qed.

Lemma numchar_differs (x a : ascii) :
  numchar x = false -> numchar a = true -> Ascii.eqb x a = false.
Proof.
  intros Hx Ha. destruct (Ascii.eqb_spec x a) as [->|]; [congruence | reflexivity].
Qed.

Lemma digit_numchar (a : ascii) : Str.is_digit a = true -> numchar a = true.
Proof. intros H. unfold numchar. now rewrite H. Qed.

Lemma all_numchars_append (s1 s2 : string) :
  all_numchars (s1 ++ s2) = all_numchars s1 && all_numchars s2.
Proof.
  induction s1 as [|a s1 IH]; [reflexivity|].
  cbn [append all_numchars]. now rewrite IH, andb_assoc.
Qed.

Lemma all_digits_numchars (s : string) :
  Str.all_digits s = true -> all_numchars s = true.
Proof.
  induction s as [|a s IH]; [reflexivity|].
  cbn [Str.all_digits all_numchars]. intros H.
  apply andb_true_iff in H as [Ha Hs]. now rewrite (digit_numchar a Ha), IH.
Qed.

Lemma number_text_numchars (u : string) : number_text u -> all_numchars u = true.
Proof.
  induction 1 as [ds Hds|ds u Hds _ IH].
  - now apply all_digits_numchars, isdigit_all_digits.
  - rewrite all_numchars_append.
    rewrite (all_digits_numchars ds) by now apply isdigit_all_digits.
    cbn [append all_numchars andb]. now rewrite IH.
Qed.

Lemma number_text_nonempty (u : string) :
  number_text u -> exists a u', u = String a u' /\ Str.is_digit a = true.
Proof.
  intros [ds Hds|ds v Hds _]; destruct ds as [|a ds]; try discriminate;
    cbn [Str.isdigit Str.all_digits] in Hds; apply andb_true_iff in Hds as [Ha _].
  - now exists a, ds.
  - now exists a, (ds ++ "," ++ v).
Qed.

Section AroundNumbers.
Context {A : Type}.
Implicit Types (k K : @cont A).

Lemma star_loop_step (body : @cont A -> @cont A) K m c s :
  star_loop body K (S m) c s
  = match body (star_loop body K m) c s with
    | Some x => Some x
    | None => K c s
    end.
Proof. reflexivity. Qed.

Lemma rmatch_cat_chr (a : ascii) (r : regex) k c s :
  rmatch (Cat (Chr a) r) k c (String a s) = rmatch r k c s.
Proof. cbn [rmatch]. now rewrite Ascii.eqb_refl. Qed.

(** A pattern that cannot start with a digit or a comma fails in front of
    one. *)
Lemma rmatch_head_fail (r : regex) k c a s :
  heads_ok r = true -> numchar a = true -> rmatch r k c (String a s) = None.
Proof.
  revert k c. induction r as [|x|cl|r1 IH1 r2 _| | | |r IH]; intros k c Hr Ha;
    cbn [heads_ok] in Hr; try discriminate.
  - cbn [rmatch]. apply negb_true_iff in Hr. now rewrite (numchar_differs x a Hr Ha).
  - destruct cl; try discriminate. cbn [rmatch in_class].
    now rewrite (numchar_not_space a Ha).
  - cbn [rmatch]. now apply IH1.
  - cbn [rmatch]. now apply IH.
Qed.

(** A repetition of a class stops where the class does. *)
Lemma star_class_stops (cl : char_class) K n c s :
  match s with
  | EmptyString => true
  | String a _ => negb (in_class cl a)
  end = true ->
  star_loop (rmatch (Cls cl)) K n c s = K c s.
Proof.
  intros Hs. destruct n as [|n]; [reflexivity|].
  cbn [star_loop rmatch]. destruct s as [|a s]; [reflexivity|].
  apply negb_true_iff in Hs. now rewrite Hs.
Qed.

Lemma star_digit_greedy (ds rest : string) K n c x :
  Str.all_digits ds = true ->
  match rest with
  | EmptyString => true
  | String a _ => negb (in_class Digit a)
  end = true ->
  K c rest = Some x ->
  (length ds <= n)%nat ->
  star_loop (rmatch digit) K n c (ds ++ rest) = Some x.
Proof.
  revert n. induction ds as [|a ds IH]; intros n Hds Hrest HK Hn.
  - cbn [append]. unfold digit. now rewrite star_class_stops.
  - cbn [Str.all_digits] in Hds. apply andb_true_iff in Hds as [Ha Hds].
    destruct n as [|n]; [cbn [length] in Hn; lia|].
    cbn [append star_loop]. unfold digit at 1. cbn [rmatch in_class].
    rewrite Ha. rewrite IH; [reflexivity | assumption.. |].
    cbn [length] in Hn. lia.
Qed.

Lemma plus_digit_greedy (ds rest : string) K c x :
  Str.isdigit ds = true ->
  match rest with
  | EmptyString => true
  | String a _ => negb (in_class Digit a)
  end = true ->
  K c rest = Some x ->
  rmatch (Plus digit) K c (ds ++ rest) = Some x.
Proof.
  destruct ds as [|a ds]; [discriminate|].
  cbn [Str.isdigit Str.all_digits]. intros Hds Hrest HK.
  apply andb_true_iff in Hds as [Ha Hds].
  unfold Plus. cbn [rmatch append]. unfold digit at 1. cbn [rmatch in_class].
  rewrite Ha. apply star_digit_greedy; try assumption.
  rewrite length_append. lia.
Qed.

(** The repetition of the comma groups stops where no comma follows. *)
Lemma star_groups_stop (post : string) K n c :
  stops post = true ->
  star_loop (rmatch (Cat (Chr ",") (Plus digit))) K n c post = K c post.
Proof.
  intros Hs. destruct n as [|n]; [reflexivity|].
  cbn [star_loop rmatch]. destruct post as [|a post]; [reflexivity|].
  cbn [stops] in Hs. apply negb_true_iff in Hs.
  unfold numchar in Hs. apply orb_false_iff in Hs as [_ Hs]. now rewrite Hs.
Qed.

Lemma stops_digit (post : string) :
  stops post = true ->
  match post with
  | EmptyString => true
  | String a _ => negb (in_class Digit a)
  end = true.
Proof.
  destruct post as [|a post]; [reflexivity|]. cbn [stops in_class]. intros Hs.
  apply negb_true_iff in Hs. unfold numchar in Hs.
  apply orb_false_iff in Hs as [Hs _]. now rewrite Hs.
Qed.

(** The amount is matched greedily: when the rest of the pattern accepts
    what follows the whole number text, that is the match found. *)
Lemma number_body_greedy (d : string) :
  number_text d ->
  forall (post : string) K K1 c x,
    stops post = true ->
    K c post = Some x ->
    (forall s, (length s <= length (d ++ post))%nat ->
       exists m, (length s <= m)%nat /\
         K1 c s = star_loop (rmatch (Cat (Chr ",") (Plus digit))) K m c s) ->
    rmatch (Plus digit) K1 c (d ++ post) = Some x.
Proof.
  induction 1 as [ds Hds|ds u Hds Hu IH]; intros post K K1 c x Hpost HK HK1.
  - apply plus_digit_greedy; [assumption | now apply stops_digit |].
    destruct (HK1 post) as [m [_ ->]]; [rewrite length_append; lia|].
    now rewrite star_groups_stop.
  - rewrite append_assoc. apply plus_digit_greedy; [assumption | reflexivity |].
    destruct (HK1 (("," ++ u) ++ post)) as [m [Hm ->]].
    { rewrite !length_append. lia. }
    destruct m as [|m]; [cbn [append length] in Hm; lia|].
    change (("," ++ u) ++ post) with (String "," (u ++ post)).
    rewrite star_loop_step, rmatch_cat_chr.
    rewrite (IH post K (star_loop (rmatch (Cat (Chr ",") (Plus digit))) K m) c x);
      [reflexivity | assumption | assumption |].
    intros s Hs. exists m. split; [|reflexivity].
    cbn [append length] in Hm. lia.
Qed.

Lemma number_greedy (d post : string) K c x :
  number_text d ->
  stops post = true ->
  K (Some (d ++ post, post)) post = Some x ->
  rmatch number K c (d ++ post) = Some x.
Proof.
  intros Hd Hpost HK. unfold number, number_body. cbn [rmatch].
  apply (number_body_greedy d Hd post
           (fun _ s' => K (Some (d ++ post, s')) s')); [assumption | assumption |].
  intros s _. exists (length s). split; [lia | reflexivity].
Qed.

End AroundNumbers.

(** ** Searching a text built around a number text *)

Lemma numchars_split (t post u s' : string) :
  all_numchars t = true -> all_numchars u = true -> stops post = true ->
  t ++ post = u ++ s' ->
  exists t', s' = t' ++ post /\ all_numchars t' = true.
Proof.
  revert t. induction u as [|b u IH]; intros t Ht Hu Hpost Heq.
  - exists t. now split.
  - cbn [all_numchars] in Hu. apply andb_true_iff in Hu as [Hb Hu].
    destruct t as [|a t].
    + cbn [append] in Heq. subst post. cbn [stops] in Hpost.
      rewrite Hb in Hpost. discriminate.
    + cbn [append] in Heq. injection Heq as -> Heq.
      cbn [all_numchars] in Ht. apply andb_true_iff in Ht as [_ Ht].
      now apply (IH t).
Qed.

(** Inside or at the start of a run of digits and commas, a pattern that
    starts with the amount fails when what follows the amount fails after
    the run and cannot start inside it. *)
Lemma number_first_fail (B : regex) (t post : string) (c : capture) :
  all_numchars t = true ->
  stops post = true ->
  heads_ok B = true ->
  (forall c', rmatch B found c' post = None) ->
  rmatch (Cat number B) found c (t ++ post) = None.
Proof.
  intros Ht Hpost HB Hfail.
  destruct (rmatch (Cat number B) found c (t ++ post)) as [x|] eqn:E; [|reflexivity].
  exfalso. cbn [rmatch] in E.
  change (rmatch number (rmatch B found) c (t ++ post) = Some x) in E.
  apply rmatch_sound in E as [c1 [s1 [Hm Hk]]].
  inversion Hm as [ | | | | | | | | | |r c0 s0 c2 s2 Hbody]; subst.
  apply matches_number_body in Hbody as [_ [u [Heq Hu]]].
  destruct (numchars_split t post u s1 Ht (number_text_numchars u Hu) Hpost Heq)
    as [t' [-> Ht']].
  destruct t' as [|a t'].
  - cbn [append] in Hk. rewrite Hfail in Hk. discriminate.
  - cbn [all_numchars] in Ht'. apply andb_true_iff in Ht' as [Ha _].
    cbn [append] in Hk. rewrite (rmatch_head_fail B found _ a _ HB Ha) in Hk.
    discriminate.
Qed.

Lemma search_step (p : regex) (a : ascii) (s : string) :
  rmatch p found None (String a s) = None ->
  search p (String a s) = search p s.
Proof. intros H. cbn [search]. now rewrite H. Qed.

Lemma search_hit (p : regex) (s : string) (m : capture) :
  rmatch p found None s = Some m -> search p s = Some m.
Proof. intros H. destruct s; cbn [search]; now rewrite H. Qed.

Lemma search_skip (p : regex) (t post : string) :
  all_numchars t = true ->
  (forall a t', numchar a = true -> all_numchars t' = true ->
     rmatch p found None (String a t' ++ post) = None) ->
  search p (t ++ post) = search p post.
Proof.
  intros Ht Hfail. induction t as [|a t IH]; [reflexivity|].
  cbn [all_numchars] in Ht. apply andb_true_iff in Ht as [Ha Ht].
  cbn [append]. rewrite search_step; [now apply IH|].
  now apply (Hfail a t).
Qed.

Lemma rmatch_lit {A : Type} (w : string) (k : @cont A) c s :
  w <> "" -> rmatch (lit w) k c (w ++ s) = k c s.
Proof.
  induction w as [|a w IH]; [contradiction|]. intros _.
  destruct w as [|b w].
  - cbn [lit rmatch append]. now rewrite Ascii.eqb_refl.
  - change (lit (String a (String b w))) with (Cat (Chr a) (lit (String b w))).
    change (String a (String b w) ++ s) with (String a (String b w ++ s)).
    rewrite rmatch_cat_chr. apply IH. discriminate.
Qed.

Lemma rmatch_cat {A : Type} (r1 r2 : regex) (k : @cont A) c s :
  rmatch (Cat r1 r2) k c s = rmatch r1 (rmatch r2 k) c s.
Proof. reflexivity. Qed.

(** One space before something that is not a space: [ws] takes the space. *)
Lemma ws_one_space {A : Type} (k : @cont A) c a s :
  Str.is_space a = false ->
  rmatch ws k c (String " " (String a s)) = k c (String a s).
Proof.
  intros Ha. unfold ws, Plus. rewrite rmatch_cat. unfold space at 1.
  cbn [rmatch in_class]. change (Str.is_space " ") with true. cbv iota.
  unfold space. rewrite star_class_stops; [reflexivity|].
  cbn [in_class]. now rewrite Ha.
Qed.

Lemma lazy_loop_hit {A : Type} (body : @cont A -> @cont A) (k : @cont A) n c s x :
  k c s = Some x -> lazy_loop body k n c s = Some x.
Proof. intros H. destruct n; cbn [lazy_loop]; now rewrite H. Qed.

Lemma lazy_loop_step {A : Type} (body : @cont A -> @cont A) (k : @cont A) n c s :
  k c s = None -> lazy_loop body k (S n) c s = body (lazy_loop body k n) c s.
Proof. intros H. cbn [lazy_loop]. now rewrite H. Qed.

(** ** The keywords *)

Lemma startswith_append (w s1 s2 : string) :
  Str.startswith w s1 = true -> Str.startswith w (s1 ++ s2) = true.
Proof.
  revert s1. induction w as [|a w IH]; intros s1; [reflexivity|].
  destruct s1 as [|b s1]; [discriminate|].
  cbn [Str.startswith append]. intros H. apply andb_true_iff in H as [H1 H2].
  now rewrite H1, IH.
Qed.

Lemma contains_append_l (w s1 s2 : string) :
  Str.contains w s1 = true -> Str.contains w (s1 ++ s2) = true.
Proof.
  induction s1 as [|b s1 IH]; cbn [Str.contains].
  - rewrite orb_false_r. intros H. destruct w; [|discriminate].
    destruct s2; reflexivity.
  - intros H. apply orb_true_iff in H as [H|H].
    + change (String b s1 ++ s2) with (String b (s1 ++ s2)).
      change (Str.contains w (String b (s1 ++ s2)))
        with (Str.startswith w (String b (s1 ++ s2)) || Str.contains w (s1 ++ s2)).
      change (String b (s1 ++ s2)) with (String b s1 ++ s2).
      now rewrite (startswith_append _ _ _ H).
    + change (String b s1 ++ s2) with (String b (s1 ++ s2)).
      change (Str.contains w (String b (s1 ++ s2)))
        with (Str.startswith w (String b (s1 ++ s2)) || Str.contains w (s1 ++ s2)).
      rewrite (IH H). apply orb_true_r.
Qed.

Lemma contains_append_r (w s1 s2 : string) :
  Str.contains w s2 = true -> Str.contains w (s1 ++ s2) = true.
Proof.
  intros H. induction s1 as [|b s1 IH]; [assumption|].
  change (String b s1 ++ s2) with (String b (s1 ++ s2)).
  change (Str.contains w (String b (s1 ++ s2)))
    with (Str.startswith w (String b (s1 ++ s2)) || Str.contains w (s1 ++ s2)).
  rewrite IH. apply orb_true_r.
Qed.

(** ** The phrasings of the rules *)

Lemma rule_amount_none (p : regex) (text : string) :
  search p text = None -> rule_amount p text = None.
Proof. intros H. unfold rule_amount. now rewrite H. Qed.

Lemma first_amount_next (p : regex) (l : list regex) (text : string) :
  search p text = None -> first_amount (p :: l) text = first_amount l text.
Proof. intros H. cbn [first_amount]. now rewrite (rule_amount_none p text H). Qed.

Lemma first_amount_here (p : regex) (l : list regex) (text d post : string) :
  search p text = Some (Some (d ++ post, post)) ->
  number_text d ->
  (digit_count d <= int_max_str_digits)%nat ->
  first_amount (p :: l) text = Some (embedded_integer d).
Proof.
  intros Hs Hd Hlen. cbn [first_amount]. unfold rule_amount.
  rewrite Hs, group1_span, (py_int_number_text d Hd).
  apply Nat.leb_le in Hlen. now rewrite Hlen.
Qed.

Lemma first_amount_overflow (p : regex) (l : list regex) (text d post : string) :
  search p text = Some (Some (d ++ post, post)) ->
  number_text d ->
  (int_max_str_digits < digit_count d)%nat ->
  first_amount (p :: l) text = first_amount l text.
Proof.
  intros Hs Hd Hlen. cbn [first_amount]. unfold rule_amount.
  rewrite Hs, group1_span, (py_int_number_text d Hd).
  apply Nat.leb_gt in Hlen. now rewrite Hlen.
Qed.

Lemma has_keyword_by (w text : string) :
  In w donation_keywords -> Str.contains w text = true -> has_keyword text = true.
Proof.
  intros Hin Hc. unfold has_keyword. apply existsb_exists. now exists w.
Qed.

Lemma ws_before_number {A : Type} (k : @cont A) c (d s : string) :
  number_text d ->
  rmatch ws k c (String " " (d ++ s)) = k c (d ++ s).
Proof.
  intros Hd. destruct (number_text_nonempty d Hd) as [a [d' [-> Ha]]].
  apply ws_one_space. now apply numchar_not_space, digit_numchar.
Qed.

Lemma rmatch_lazy {A : Type} (r : regex) (k : @cont A) c s :
  rmatch (Lazy r) k c s = lazy_loop (rmatch r) k (length s) c s.
Proof. reflexivity. Qed.

Lemma rmatch_dot_space {A : Type} (k : @cont A) c s :
  rmatch dot k c (String " " s) = k c s.
Proof. reflexivity. Qed.

(** The lazy skip over one space in front of the amount, at the end of the
    text. *)
Lemma lazy_dot_then_number (d : string) (c : capture) :
  number_text d ->
  rmatch (Cat (Lazy dot) number) found c (String " " (d ++ ""))
  = Some (Some (d ++ "", "")).
Proof.
  intros Hd. rewrite rmatch_cat, rmatch_lazy. cbn [length].
  rewrite lazy_loop_step by reflexivity.
  rewrite rmatch_dot_space. apply lazy_loop_hit.
  apply number_greedy; [assumption | reflexivity | reflexivity].
Qed.

Section Phrasings.
Variable d : string.
Hypothesis Hd : number_text d.

(** The attempt of a pattern that starts with a word inside the digits. *)
Ltac inside_word :=
  let a := fresh "a" in let t := fresh "t" in
  let Ha := fresh "Ha" in let Ht := fresh "Ht" in
  intros a t Ha Ht; cbn [append];
  apply rmatch_head_fail; [reflexivity | exact Ha].

(** The attempt of a pattern that starts with the amount inside the digits. *)
Ltac inside_number :=
  let a := fresh "a" in let t := fresh "t" in
  let Ha := fresh "Ha" in let Ht := fresh "Ht" in
  intros a t Ha Ht; cbn [seq];
  apply number_first_fail;
  [ cbn [all_numchars]; rewrite Ha, Ht; reflexivity
  | reflexivity
  | reflexivity
  | intros ?; vm_compute; reflexivity ].

(** The word [donated], one space and the amount, in front of a pattern that
    wants two stars after the space. *)
Lemma donated_then_stars (R : regex) (post : string) :
  rmatch (Cat (lit "donated") (Cat ws (Cat (lit "**") R))) found None
    ("donated" ++ String " " (d ++ post)) = None.
Proof.
  rewrite rmatch_cat, rmatch_lit by discriminate.
  rewrite rmatch_cat, (ws_before_number _ _ d post Hd).
  destruct (number_text_nonempty d Hd) as [a [d' [-> Ha]]].
  apply rmatch_head_fail; [reflexivity | now apply digit_numchar].
Qed.

(** The word [donated], one space and the amount, in front of [rubies], for
    the pattern that wants [coins]. *)
Lemma donated_then_rubies :
  rmatch (Cat (lit "donated") (Cat ws (Cat number (Cat ws coins)))) found None
    ("donated" ++ String " " (d ++ " rubies")) = None.
Proof.
  rewrite rmatch_cat, rmatch_lit by discriminate.
  rewrite rmatch_cat, (ws_before_number _ _ d " rubies" Hd).
  apply number_first_fail;
    [ exact (number_text_numchars d Hd) | reflexivity | reflexivity
    | intros ?; vm_compute; reflexivity ].
Qed.

Ltac no_match :=
  cbn [append];
  repeat (rewrite search_step
            by first [ vm_compute; reflexivity
                     | cbn [seq]; apply donated_then_stars
                     | cbn [seq]; apply donated_then_rubies ]);
  rewrite search_skip;
  [ vm_compute; reflexivity
  | exact (number_text_numchars d Hd)
  | first [ inside_word | inside_number ] ].

(** A rule that starts with the amount, on its phrasing. *)
Ltac hit_number_first :=
  cbn [append]; apply search_hit; cbn [seq]; rewrite rmatch_cat;
  apply number_greedy; [exact Hd | reflexivity | vm_compute; reflexivity].

(** A rule made of a word, spaces and the amount, on its phrasing. *)
Ltac hit_word_first w :=
  apply search_hit; cbn [seq];
  match goal with
  | |- rmatch (Cat ?l ?R) _ _ (_ ++ ?rest) = ?x =>
      change (rmatch (Cat l R) found None (w ++ String " " rest) = x)
  end;
  rewrite rmatch_cat, rmatch_lit by discriminate;
  rewrite rmatch_cat, (ws_before_number _ _ d _ Hd);
  rewrite rmatch_cat;
  apply number_greedy; [exact Hd | reflexivity | vm_compute; reflexivity].

Ltac skip_rules := unfold patterns; repeat (rewrite first_amount_next by no_match).

Ltac keyword_before w :=
  apply (has_keyword_by w); [cbn; tauto | apply contains_append_l; reflexivity].

Ltac keyword_after w :=
  apply (has_keyword_by w);
  [cbn; tauto | apply contains_append_r, contains_append_r; reflexivity].

Ltac open_phrase := unfold phrase_ok, phrasing; cbv [nth phrasings patterns fst snd].

Ltac finish_phrase Hhit :=
  let Hlen := fresh "Hlen" in
  split; [|split; [intros Hlen | exact Hhit]];
  [ | skip_rules; eapply first_amount_here; [exact Hhit | exact Hd | exact Hlen] ].

(** The rule [donated **N** gold] on the words [donated **], the amount and
    [** gold]. *)
Lemma gold_hit :
  rmatch (seq [lit "donated"; ws; lit "**"; number; lit "**"; ws; lit "gold"])
    found None ("donated **" ++ d ++ "** gold")
  = Some (Some (d ++ "** gold", "** gold")).
Proof.
  cbn [seq].
  change ("donated **" ++ d ++ "** gold")
    with ("donated" ++ String " " (String "*" (String "*" (d ++ "** gold")))).
  rewrite rmatch_cat, rmatch_lit by discriminate.
  rewrite rmatch_cat, ws_one_space by reflexivity.
  change (String "*" (String "*" (d ++ "** gold"))) with ("**" ++ (d ++ "** gold")).
  rewrite rmatch_cat, rmatch_lit by discriminate.
  rewrite rmatch_cat.
  apply number_greedy; [exact Hd | reflexivity | vm_compute; reflexivity].
Qed.

Lemma phrase_1 : phrase_ok 0 d.
Proof.
  open_phrase.
  assert (Hhit : search
                   (seq [lit "donated"; ws; lit "**"; number; lit "**"; ws; lit "gold"])
                   ("donated **" ++ d ++ "** gold")
                 = Some (Some (d ++ "** gold", "** gold")))
    by (apply search_hit; exact gold_hit).
  finish_phrase Hhit. keyword_before "donated".
Qed.

Lemma phrase_2 : phrase_ok 1 d.
Proof.
  open_phrase.
  assert (Hhit1 : search
                   (seq [lit "donated"; ws; lit "**"; number; lit "**"; ws; lit "gold"])
                   ("you have donated **" ++ d ++ "** gold")
                  = Some (Some (d ++ "** gold", "** gold"))).
  { change ("you have donated **" ++ d ++ "** gold")
      with ("you have " ++ ("donated **" ++ d ++ "** gold")).
    cbn [append].
    repeat (rewrite search_step by (vm_compute; reflexivity)).
    apply search_hit. exact gold_hit. }
  assert (Hhit2 : search
                   (seq [lit "you have donated"; ws; lit "**"; number; lit "**"; ws; lit "gold"])
                   ("you have donated **" ++ d ++ "** gold")
                  = Some (Some (d ++ "** gold", "** gold"))).
  { apply search_hit. cbn [seq].
    change ("you have donated **" ++ d ++ "** gold")
      with ("you have donated"
            ++ String " " (String "*" (String "*" (d ++ "** gold")))).
    rewrite rmatch_cat, rmatch_lit by discriminate.
    rewrite rmatch_cat, ws_one_space by reflexivity.
    change (String "*" (String "*" (d ++ "** gold"))) with ("**" ++ (d ++ "** gold")).
    rewrite rmatch_cat, rmatch_lit by discriminate.
    rewrite rmatch_cat.
    apply number_greedy; [exact Hd | reflexivity | vm_compute; reflexivity]. }
  split; [keyword_before "donated"|]. split; [|exact Hhit2].
  intros Hlen. unfold patterns.
  eapply first_amount_here; [exact Hhit1 | exact Hd | exact Hlen].
Qed.

Lemma phrase_3 : phrase_ok 2 d.
Proof.
  open_phrase.
  assert (Hhit : search
                   (seq [lit "donated"; ws; number; ws; coins])
                   ("donated " ++ d ++ " coins")
                 = Some (Some (d ++ " coins", " coins"))).
  { hit_word_first "donated". }
  finish_phrase Hhit. keyword_before "donated".
Qed.

Lemma phrase_4 : phrase_ok 3 d.
Proof.
  open_phrase.
  assert (Hhit : search
                   (seq [lit "contributed"; ws; number; ws; coins])
                   ("contributed " ++ d ++ " coins")
                 = Some (Some (d ++ " coins", " coins"))).
  { hit_word_first "contributed". }
  finish_phrase Hhit. keyword_before "contribute".
Qed.

Lemma phrase_5 : phrase_ok 4 d.
Proof.
  open_phrase.
  assert (Hhit : search
                   (seq [lit "gave"; ws; number; ws; coins])
                   ("gave " ++ d ++ " coins")
                 = Some (Some (d ++ " coins", " coins"))).
  { hit_word_first "gave". }
  finish_phrase Hhit. keyword_before "gave".
Qed.

Lemma phrase_6 : phrase_ok 5 d.
Proof.
  open_phrase.
  assert (Hhit : search
                   (seq [number; ws; coins; ws; lit "donated"])
                   ("" ++ d ++ " coins donated")
                 = Some (Some (d ++ " coins donated", " coins donated"))).
  { hit_number_first. }
  finish_phrase Hhit. keyword_after "donated".
Qed.

Lemma phrase_7 : phrase_ok 6 d.
Proof.
  open_phrase.
  assert (Hhit : search
                   (seq [number; ws; coins; ws; lit "to"; ws; lit "the"; ws; lit "clan"])
                   ("" ++ d ++ " coins to the clan")
                 = Some (Some (d ++ " coins to the clan", " coins to the clan"))).
  { hit_number_first. }
  finish_phrase Hhit. keyword_after "clan".
Qed.

Lemma phrase_8 : phrase_ok 7 d.
Proof.
  open_phrase.
  assert (Hhit : search
                   (seq [lit "clan donation"; Lazy dot; number])
                   ("clan donation " ++ d ++ "")
                 = Some (Some (d ++ "", ""))).
  { apply search_hit. cbn [seq].
    change ("clan donation " ++ d ++ "") with ("clan donation" ++ String " " (d ++ "")).
    rewrite rmatch_cat, rmatch_lit by discriminate.
    now apply lazy_dot_then_number. }
  finish_phrase Hhit. keyword_before "clan".
Qed.

Lemma phrase_9 : phrase_ok 8 d.
Proof.
  open_phrase.
  assert (Hhit : search
                   (seq [number; ws; coins; ws; lit "added"; ws; lit "to"; ws; lit "clan"])
                   ("" ++ d ++ " coins added to clan")
                 = Some (Some (d ++ " coins added to clan", " coins added to clan"))).
  { hit_number_first. }
  finish_phrase Hhit. keyword_after "clan".
Qed.

Lemma phrase_10 : phrase_ok 9 d.
Proof.
  open_phrase.
  assert (Hhit : search
                   (seq [lit "clan"; ws; lit "treasury"; Lazy dot; number])
                   ("clan treasury " ++ d ++ "")
                 = Some (Some (d ++ "", ""))).
  { apply search_hit. cbn [seq].
    change ("clan treasury " ++ d ++ "")
      with ("clan" ++ String " " (String "t" ("reasury" ++ String " " (d ++ "")))).
    rewrite rmatch_cat, rmatch_lit by discriminate.
    rewrite rmatch_cat, ws_one_space by reflexivity.
    change (String "t" ("reasury" ++ String " " (d ++ "")))
      with ("treasury" ++ String " " (d ++ "")).
    rewrite rmatch_cat, rmatch_lit by discriminate.
    now apply lazy_dot_then_number. }
  finish_phrase Hhit. keyword_before "clan".
Qed.

Lemma phrase_11 : phrase_ok 10 d.
Proof.
  open_phrase.
  assert (Hhit : search
                   (seq [number; ws; coins; ws; lit "clan"; ws; lit "donation"])
                   ("" ++ d ++ " coins clan donation")
                 = Some (Some (d ++ " coins clan donation", " coins clan donation"))).
  { hit_number_first. }
  finish_phrase Hhit. keyword_after "clan".
Qed.

Lemma phrase_12 : phrase_ok 11 d.
Proof.
  open_phrase.
  assert (Hhit : search
                   (seq [lit "deposited"; ws; number; ws; coins])
                   ("deposited " ++ d ++ " coins")
                 = Some (Some (d ++ " coins", " coins"))).
  { hit_word_first "deposited". }
  finish_phrase Hhit. keyword_before "deposited".
Qed.

Lemma phrase_13 : phrase_ok 12 d.
Proof.
  open_phrase.
  assert (Hhit : search
                   (seq [number; ws; coins; ws; lit "deposited"])
                   ("" ++ d ++ " coins deposited")
                 = Some (Some (d ++ " coins deposited", " coins deposited"))).
  { hit_number_first. }
  finish_phrase Hhit. keyword_after "deposited".
Qed.

Lemma phrase_14 : phrase_ok 13 d.
Proof.
  open_phrase.
  assert (Hhit : search
                   (seq [number; ws; rubies; ws; lit "donated"])
                   ("" ++ d ++ " rubies donated")
                 = Some (Some (d ++ " rubies donated", " rubies donated"))).
  { hit_number_first. }
  finish_phrase Hhit. keyword_after "donated".
Qed.

Lemma phrase_15 : phrase_ok 14 d.
Proof.
  open_phrase.
  assert (Hhit : search
                   (seq [lit "donated"; ws; number; ws; rubies])
                   ("donated " ++ d ++ " rubies")
                 = Some (Some (d ++ " rubies", " rubies"))).
  { hit_word_first "donated". }
  finish_phrase Hhit. keyword_before "donated".
Qed.

Lemma phrase_16 : phrase_ok 15 d.
Proof.
  open_phrase.
  assert (Hhit : search
                   (seq [number; ws; rubies; ws; lit "to"; ws; lit "the"; ws; lit "clan"])
                   ("" ++ d ++ " rubies to the clan")
                 = Some (Some (d ++ " rubies to the clan", " rubies to the clan"))).
  { hit_number_first. }
  finish_phrase Hhit. keyword_after "clan".
Qed.

Lemma phrase_17 : phrase_ok 16 d.
Proof.
  open_phrase.
  assert (Hhit : search
                   (seq [number; ws; rubies; ws; lit "added"; ws; lit "to"; ws; lit "clan"])
                   ("" ++ d ++ " rubies added to clan")
                 = Some (Some (d ++ " rubies added to clan", " rubies added to clan"))).
  { hit_number_first. }
  finish_phrase Hhit. keyword_after "clan".
Qed.

(** Every rule has a phrasing from which the embedded amount is extracted. *)
Lemma phrasings_ok (i : nat) : (i < 17)%nat -> phrase_ok i d.
Proof.
  intros Hi.
  destruct i as [|i]; [exact phrase_1|]. destruct i as [|i]; [exact phrase_2|].
  destruct i as [|i]; [exact phrase_3|]. destruct i as [|i]; [exact phrase_4|].
  destruct i as [|i]; [exact phrase_5|]. destruct i as [|i]; [exact phrase_6|].
  destruct i as [|i]; [exact phrase_7|]. destruct i as [|i]; [exact phrase_8|].
  destruct i as [|i]; [exact phrase_9|]. destruct i as [|i]; [exact phrase_10|].
  destruct i as [|i]; [exact phrase_11|]. destruct i as [|i]; [exact phrase_12|].
  destruct i as [|i]; [exact phrase_13|]. destruct i as [|i]; [exact phrase_14|].
  destruct i as [|i]; [exact phrase_15|]. destruct i as [|i]; [exact phrase_16|].
  destruct i as [|i]; [exact phrase_17|]. lia.
Qed.

(** An amount with too many digits for [int], in a text that the third and
    the seventh rule match with that amount and the tenth with the amount 5:
    the two rules are skipped and the tenth decides. *)
Lemma overflow_is_skipped :
  (int_max_str_digits < digit_count d)%nat ->
  first_amount patterns ("donated " ++ d ++ " coins to the clan treasury 5")
  = Some 5.
Proof.
  intros Hlen.
  assert (Hhit3 : search (seq [lit "donated"; ws; number; ws; coins])
                    ("donated " ++ d ++ " coins to the clan treasury 5")
                  = Some (Some (d ++ " coins to the clan treasury 5",
                                " coins to the clan treasury 5")))
    by hit_word_first "donated".
  assert (Hhit7 : search (seq [number; ws; coins; ws; lit "to"; ws; lit "the"; ws; lit "clan"])
                    ("donated " ++ d ++ " coins to the clan treasury 5")
                  = Some (Some (d ++ " coins to the clan treasury 5",
                                " coins to the clan treasury 5"))).
  { cbn [append].
    repeat (rewrite search_step by (vm_compute; reflexivity)).
    hit_number_first. }
  assert (Hhit10 : search (seq [lit "clan"; ws; lit "treasury"; Lazy dot; number])
                     ("donated " ++ d ++ " coins to the clan treasury 5")
                   = Some (Some ("5", ""))).
  { cbn [append].
    repeat (rewrite search_step by (vm_compute; reflexivity)).
    rewrite search_skip;
      [ vm_compute; reflexivity | exact (number_text_numchars d Hd) | inside_word ]. }
  skip_rules.
  rewrite (first_amount_overflow _ _ _ d _ Hhit3 Hd Hlen).
  repeat (rewrite first_amount_next by no_match).
  rewrite (first_amount_overflow _ _ _ d _ Hhit7 Hd Hlen).
  repeat (rewrite first_amount_next by no_match).
  cbn [first_amount]. unfold rule_amount. rewrite Hhit10. reflexivity.
Qed.

End Phrasings.

(** C6, as amended. (1) The order of the rules: on an ASCII text,
    [parse_donation_message] never raises; without a keyword it returns
    nothing, otherwise the amount of the first rule, in the order of the
    list, whose capture converts to an integer; a rule that matches while
    the rules before it contribute nothing decides with the integer embedded
    in its capture, commas removed, whatever the later rules match, unless
    the capture has more digits than [int] accepts, in which case the rule
    is skipped and the rules after it decide.  (2) The phrasings: for each
    of the seventeen rules, a text that reads, in lower case, as the
    phrasing of the rule around a number text [d] (an ASCII text, then)
    yields exactly the integer embedded in [d], and the rule matches it with
    [d] as its capture.  (3) Skipping at work: with an amount too long for
    [int], the text [donated <d> coins to the clan treasury 5] yields 5. *)
Theorem extraction_rules :
  (forall content : string,
     Str.is_ascii content = true ->
     let text := Str.lower content in
     parse_donation_message content
     = Return (if has_keyword text then first_amount patterns text else None)
     /\
     forall (before after : list regex) (p : regex) (m : capture),
       patterns = (before ++ p :: after)%list ->
       (forall q, In q before -> rule_amount q text = None) ->
       search p text = Some m ->
       has_keyword text = true ->
       exists g,
         group1 m = Some g /\ number_text g /\
         ((digit_count g <= int_max_str_digits)%nat ->
          parse_donation_message content = Return (Some (embedded_integer g))) /\
         ((int_max_str_digits < digit_count g)%nat ->
          parse_donation_message content = Return (first_amount after text)))
  /\
  (forall (i : nat) (content d : string),
     (i < 17)%nat ->
     number_text d ->
     (digit_count d <= int_max_str_digits)%nat ->
     Str.lower content = phrasing i d ->
     parse_donation_message content = Return (Some (embedded_integer d))
     /\ search (nth i patterns Eps) (Str.lower content)
        = Some (Some (d ++ snd (nth i phrasings ("", "")),
                      snd (nth i phrasings ("", "")))))
  /\
  (forall content d : string,
     number_text d ->
     (int_max_str_digits < digit_count d)%nat ->
     Str.lower content = "donated " ++ d ++ " coins to the clan treasury 5" ->
     parse_donation_message content = Return (Some 5)).
Proof.
  split; [intros content _; exact (parse_donation_message_first_rule content)|].
  split.
  - intros i content d Hi Hd Hlen Hlower.
    destruct (phrasings_ok d Hd i Hi) as [Hkey [Hamount Hhit]].
    rewrite parse_donation_message_total, Hlower, Hkey, (Hamount Hlen).
    split; [reflexivity | exact Hhit].
  - intros content d Hd Hlen Hlower.
    rewrite parse_donation_message_total, Hlower.
    rewrite (overflow_is_skipped d Hd Hlen).
    replace (has_keyword ("donated " ++ d ++ " coins to the clan treasury 5"))
      with true; [reflexivity|].
    symmetry. apply (has_keyword_by "donated"); [cbn; tauto|].
    now apply contains_append_l.
Qed.

Lemma extraction_rules_witness :
  parse_donation_message "You have donated **1,234,567** gold"
  = Return (Some (embedded_integer "1,234,567"))
  /\ search (nth 1 patterns Eps) (Str.lower "You have donated **1,234,567** gold")
     = Some (Some ("1,234,567" ++ snd (nth 1 phrasings ("", "")),
                   snd (nth 1 phrasings ("", "")))).
Proof.
  apply (proj1 (proj2 extraction_rules) 1%nat
           "You have donated **1,234,567** gold" "1,234,567").
  - apply Nat.ltb_lt. reflexivity.
  - exact (number_more "1" "234,567" eq_refl
             (number_more "234" "567" eq_refl (number_last "567" eq_refl))).
  - apply Nat.leb_le. reflexivity.
  - reflexivity.
Defined.

(** Messages as the game bot writes them. *)
Example parse_gold :
  parse_donation_message "You have donated **1,234,567** gold to the clan!"
  = Return (Some 1234567).
Proof. vm_compute. reflexivity. Qed.

Example parse_coins :
  parse_donation_message "Player DONATED 500 Coins" = Return (Some 500).
Proof. vm_compute. reflexivity. Qed.

Example parse_treasury :
  parse_donation_message "The clan treasury now holds 3,000 coins"
  = Return (Some 3000).
Proof. vm_compute. reflexivity. Qed.

Example parse_without_keyword :
  parse_donation_message "hello 500 world" = Return None.
Proof. vm_compute. reflexivity. Qed.

Example parse_keyword_without_amount :
  parse_donation_message "welcome to the clan" = Return None.
Proof. vm_compute. reflexivity. Qed.

(** ** The bound on the iterations is never reached *)

Section Iterations.
Context {A : Type}.
Implicit Types (K : @cont A).

Lemma star_loops_agree (b1 b2 : @cont A -> @cont A) :
  (forall K c, b1 K c "" = None) ->
  (forall K c, b2 K c "" = None) ->
  (forall K1 K2 c a s, agree (length s) K1 K2 ->
     b1 K1 c (String a s) = b2 K2 c (String a s)) ->
  forall n m K1 K2 c s,
    (length s <= n)%nat -> (length s <= m)%nat ->
    agree (length s) K1 K2 ->
    star_loop b1 K1 n c s = star_loop b2 K2 m c s.
Proof.
  intros Hn1 Hn2 Hb n. induction n as [|n IH]; intros m K1 K2 c s Hln Hlm HK.
  - destruct s; [|cbn [length] in Hln; lia].
    destruct m; cbn [star_loop]; rewrite ?Hn2; now apply HK.
  - destruct s as [|a s].
    + destruct m; cbn [star_loop]; rewrite ?Hn1, ?Hn2; now apply HK.
    + destruct m as [|m]; [cbn [length] in Hlm; lia|].
      cbn [star_loop]. cbn [length] in Hln, Hlm.
      rewrite (Hb (star_loop b1 K1 n) (star_loop b2 K2 m) c a s).
      * destruct (b2 (star_loop b2 K2 m) c (String a s)); [reflexivity|].
        now apply HK.
      * intros c' s' Hs'. apply IH; [lia | lia |].
        intros c'' s'' Hs''. apply HK. cbn [length]. lia.
Qed.

Lemma lazy_loops_agree (b1 b2 : @cont A -> @cont A) :
  (forall K c, b1 K c "" = None) ->
  (forall K c, b2 K c "" = None) ->
  (forall K1 K2 c a s, agree (length s) K1 K2 ->
     b1 K1 c (String a s) = b2 K2 c (String a s)) ->
  forall n m K1 K2 c s,
    (length s <= n)%nat -> (length s <= m)%nat ->
    agree (length s) K1 K2 ->
    lazy_loop b1 K1 n c s = lazy_loop b2 K2 m c s.
Proof.
  intros Hn1 Hn2 Hb n. induction n as [|n IH]; intros m K1 K2 c s Hln Hlm HK.
  - destruct s; [|cbn [length] in Hln; lia].
    destruct m; cbn [lazy_loop]; rewrite <- (HK c "") by reflexivity;
      [reflexivity|]. rewrite Hn2. now destruct (K1 c "").
  - destruct s as [|a s].
    + destruct m; cbn [lazy_loop]; rewrite <- (HK c "") by reflexivity;
        rewrite ?Hn1, ?Hn2; now destruct (K1 c "").
    + destruct m as [|m]; [cbn [length] in Hlm; lia|].
      cbn [lazy_loop]. cbn [length] in Hln, Hlm.
      rewrite <- (HK c (String a s)) by reflexivity.
      destruct (K1 c (String a s)); [reflexivity|].
      apply Hb. intros c' s' Hs'. apply IH; [lia | lia |].
      intros c'' s'' Hs''. apply HK. cbn [length]. lia.
Qed.

(** On the empty text, a pattern followed by something that fails, fails. *)
Lemma rmatch_empty_fail (r : regex) K :
  (forall c, K c "" = None) -> forall c, rmatch r K c "" = None.
Proof.
  revert K. induction r as [| | |r1 IH1 r2 IH2|r IH|r IH|r IH|r IH]; intros K HK c;
    cbn [rmatch length star_loop lazy_loop].
  - apply HK.
  - reflexivity.
  - reflexivity.
  - apply IH1. intros c'. now apply IH2.
  - rewrite IH by assumption. apply HK.
  - apply HK.
  - apply HK.
  - apply IH. intros c'. apply HK.
Qed.

(** With consuming loops, more iterations allowed change nothing: on the
    empty text a pattern that is not nullable fails, and on any text the
    two searches agree as soon as the continuations do, on the shorter
    texts when the pattern is not nullable. *)
Lemma rmatch_upto_agrees (extra : nat) (r : regex) :
  loops_consume r = true ->
  (nullable r = false ->
   (forall K c, rmatch_upto extra r K c "" = None) /\
   (forall K c, rmatch r K c "" = None) /\
   (forall K1 K2 c a s, agree (length s) K1 K2 ->
      rmatch_upto extra r K1 c (String a s) = rmatch r K2 c (String a s)))
  /\
  (forall K1 K2 c s, agree (length s) K1 K2 ->
     rmatch_upto extra r K1 c s = rmatch r K2 c s).
Proof.
  induction r as [|x|cl|r1 IH1 r2 IH2|r IH|r IH|r IH|r IH]; intros Hl;
    cbn [loops_consume] in Hl.
  - split; [discriminate|]. intros K1 K2 c s HK. now apply HK.
  - split.
    + intros _. repeat split; try reflexivity.
      intros K1 K2 c a s HK. cbn [rmatch_upto rmatch].
      destruct (Ascii.eqb x a); [now apply HK | reflexivity].
    + intros K1 K2 c s HK. cbn [rmatch_upto rmatch].
      destruct s as [|a s]; [reflexivity|].
      destruct (Ascii.eqb x a); [|reflexivity]. apply HK. cbn [length]. lia.
  - split.
    + intros _. repeat split; try reflexivity.
      intros K1 K2 c a s HK. cbn [rmatch_upto rmatch].
      destruct (in_class cl a); [now apply HK | reflexivity].
    + intros K1 K2 c s HK. cbn [rmatch_upto rmatch].
      destruct s as [|a s]; [reflexivity|].
      destruct (in_class cl a); [|reflexivity]. apply HK. cbn [length]. lia.
  - apply andb_true_iff in Hl as [Hl1 Hl2].
    destruct (IH1 Hl1) as [IH1s IH1w]. destruct (IH2 Hl2) as [IH2s IH2w].
    assert (Hweak : forall K1 K2 c s, agree (length s) K1 K2 ->
              rmatch_upto extra (Cat r1 r2) K1 c s = rmatch (Cat r1 r2) K2 c s).
    { intros K1 K2 c s HK. cbn [rmatch_upto rmatch]. apply IH1w.
      intros c' s' Hs'. apply IH2w. intros c'' s'' Hs''. apply HK. lia. }
    split; [|exact Hweak].
    cbn [nullable]. intros Hn. apply andb_false_iff in Hn.
    destruct (nullable r1) eqn:E1.
    + destruct Hn as [Hn|Hn]; [discriminate|].
      destruct (IH2s Hn) as [H2a [H2b H2c]].
      repeat split.
      * intros K c. cbn [rmatch_upto].
        rewrite (IH1w _ (rmatch_upto extra r2 K) c "") by (intros ? ? ?; reflexivity).
        apply rmatch_empty_fail. intros c'. apply H2a.
      * intros K c. cbn [rmatch].
        apply rmatch_empty_fail. intros c'. apply H2b.
      * intros K1 K2 c a s HK. cbn [rmatch_upto rmatch]. apply IH1w.
        intros c' s' Hs'. destruct s' as [|a' s'].
        -- now rewrite H2a, H2b.
        -- apply H2c. intros c'' s'' Hs''. apply HK.
           cbn [length] in Hs'. lia.
    + destruct (IH1s eq_refl) as [H1a [H1b H1c]].
      repeat split.
      * intros K c. cbn [rmatch_upto]. apply H1a.
      * intros K c. cbn [rmatch]. apply H1b.
      * intros K1 K2 c a s HK. cbn [rmatch_upto rmatch]. apply H1c.
        intros c' s' Hs'. apply IH2w. intros c'' s'' Hs''. apply HK. lia.
  - destruct (IH Hl) as [_ IHw]. split; [discriminate|].
    intros K1 K2 c s HK. cbn [rmatch_upto rmatch].
    rewrite (IHw K1 K2 c s HK). rewrite (HK c s) by lia. reflexivity.
  - apply andb_true_iff in Hl as [Hn Hl]. apply negb_true_iff in Hn.
    destruct (IH Hl) as [IHs _]. destruct (IHs Hn) as [Ha [Hb Hc]].
    split; [discriminate|].
    intros K1 K2 c s HK. cbn [rmatch_upto rmatch].
    apply star_loops_agree; try assumption; lia.
  - apply andb_true_iff in Hl as [Hn Hl]. apply negb_true_iff in Hn.
    destruct (IH Hl) as [IHs _]. destruct (IHs Hn) as [Ha [Hb Hc]].
    split; [discriminate|].
    intros K1 K2 c s HK. cbn [rmatch_upto rmatch].
    apply lazy_loops_agree; try assumption; lia.
  - destruct (IH Hl) as [IHs IHw]. split.
    + cbn [nullable]. intros Hn. destruct (IHs Hn) as [Ha [Hb Hc]].
      repeat split.
      * intros K c. cbn [rmatch_upto]. apply Ha.
      * intros K c. cbn [rmatch]. apply Hb.
      * intros K1 K2 c a s HK. cbn [rmatch_upto rmatch]. apply Hc.
        intros c' s' Hs'. now apply HK.
    + intros K1 K2 c s HK. cbn [rmatch_upto rmatch]. apply IHw.
      intros c' s' Hs'. now apply HK.
Qed.

End Iterations.

(** The iteration bound of [rmatch] loses no match: for the tracker's
    patterns, allowing any number of further iterations gives the same
    answer. *)
Lemma iteration_bound_is_enough (extra : nat) (r : regex) (s : string) :
  In r patterns ->
  rmatch_upto extra r found None s = rmatch r found None s.
Proof.
  intros Hin.
  assert (Hall : forallb loops_consume patterns = true) by reflexivity.
  rewrite forallb_forall in Hall.
  apply (rmatch_upto_agrees extra r (Hall r Hin)).
  intros c' s' _. reflexivity.
Qed.

Import Permutation Sorted.

(** ** The players directory *)

(** [register_player] in closed form: the player is bound in the dictionary
    of the guild, which is created when missing, and the directory is
    saved. *)
Lemma register_player_closed (g u name : string) (t : tracker) :
  let players :=
    dset g (dset u name (get_registered_players t g)) (registered_players t) in
  register_player g u name t
  = (Return true,
     mk_tracker (donations_data t) players (donations_file t)
       (Stored (players_document players))).
Proof.
  unfold register_player, get_registered_players, bind, players_item,
    set_players_item, save_registered_players, set_registered_players, ret, dmem.
  destruct (dget g (registered_players t)) as [players|] eqn:Hg; cbn.
  - rewrite Hg. reflexivity.
  - rewrite dget_dset_same. cbn. rewrite !dset_dset_same. reflexivity.
Qed.

Lemma pair_differs (g g' u u' : string) :
  (g', u') <> (g, u) -> g' <> g \/ (g' = g /\ u' <> u).
Proof.
  intros H. destruct (String.eqb_spec g' g) as [->|Hg]; [|now left].
  right. split; [reflexivity|]. intros ->. now apply H.
Qed.

(** X1. [register_player] always answers [True].  Afterwards the user is
    registered in the guild under the given name (a former name is
    overwritten), the registration of every other user, in this guild or in
    another, is what it was, the ledger is untouched, and the players file
    holds the document of the directory. *)
Theorem register_player_lookup (t : tracker) (g u name : string) :
  let after := register_player g u name t in
  fst after = Return true /\
  is_player_registered (snd after) g u = true /\
  dget u (get_registered_players (snd after) g) = Some name /\
  (forall g' u', (g', u') <> (g, u) ->
     dget u' (get_registered_players (snd after) g')
     = dget u' (get_registered_players t g')) /\
  donations_data (snd after) = donations_data t /\
  donations_file (snd after) = donations_file t /\
  players_file (snd after)
  = Stored (players_document (registered_players (snd after))).
Proof.
  intros after. subst after. rewrite register_player_closed. cbn [fst snd].
  split; [reflexivity|].
  split.
  { unfold is_player_registered. cbn [registered_players].
    rewrite dget_dset_same. apply dmem_dset_same. }
  split.
  { unfold get_registered_players at 1. cbn [registered_players].
    rewrite dget_dset_same. apply dget_dset_same. }
  split; [|repeat split].
  intros g' u' Hne.
  unfold get_registered_players at 1. cbn [registered_players].
  destruct (pair_differs _ _ _ _ Hne) as [Hg|[-> Hu]].
  - rewrite dget_dset_other by assumption. reflexivity.
  - rewrite dget_dset_same. now apply dget_dset_other.
Qed.

(** [unregister_player] in closed form. *)
Lemma unregister_player_registered (g u : string) (t : tracker)
  (players : dict string) :
  dget g (registered_players t) = Some players ->
  dmem u players = true ->
  let rp := dset g (ddel u players) (registered_players t) in
  unregister_player g u t
  = (Return true,
     mk_tracker (donations_data t) rp (donations_file t)
       (Stored (players_document rp))).
Proof.
  intros Hg Hu. unfold unregister_player, dmem at 1.
  rewrite Hg, Hu. cbn.
  unfold bind, players_item. rewrite Hg. reflexivity.
Qed.

Lemma unregister_player_unknown (g u : string) (t : tracker) :
  is_player_registered t g u = false ->
  unregister_player g u t = (Return false, t).
Proof.
  unfold is_player_registered, unregister_player. intros H.
  destruct (dget g (registered_players t)) as [players|].
  - now rewrite H, andb_false_r.
  - now rewrite andb_false_r.
Qed.

(** X2. [unregister_player] answers whether the user was registered in the
    guild.  Afterwards the user is not registered there, every other
    registration is what it was, and the ledger is untouched: the donations
    of the player stay on record.  When the answer is [False] nothing at
    all has changed and nothing was written. *)
Theorem unregister_player_forgets (t : tracker) (g u : string) :
  let after := unregister_player g u t in
  fst after = Return (is_player_registered t g u) /\
  is_player_registered (snd after) g u = false /\
  (forall g' u', (g', u') <> (g, u) ->
     dget u' (get_registered_players (snd after) g')
     = dget u' (get_registered_players t g')) /\
  donations_data (snd after) = donations_data t /\
  donations_file (snd after) = donations_file t /\
  (is_player_registered t g u = true ->
   players_file (snd after)
   = Stored (players_document (registered_players (snd after)))) /\
  (is_player_registered t g u = false -> snd after = t).
Proof.
  intros after. subst after.
  destruct (is_player_registered t g u) eqn:Hreg.
  - unfold is_player_registered in Hreg.
    destruct (dget g (registered_players t)) as [players|] eqn:Hg; [|discriminate].
    rewrite (unregister_player_registered g u t players Hg Hreg). cbn [fst snd].
    split; [reflexivity|].
    split.
    { unfold is_player_registered. cbn [registered_players].
      rewrite dget_dset_same. unfold dmem. now rewrite dget_ddel_same. }
    split; [|repeat split; discriminate].
    intros g' u' Hne.
    unfold get_registered_players. cbn [registered_players].
    destruct (pair_differs _ _ _ _ Hne) as [Hne'|[-> Hu]].
    + now rewrite dget_dset_other.
    + rewrite dget_dset_same, Hg. now apply dget_ddel_other.
  - rewrite (unregister_player_unknown g u t Hreg). cbn [fst snd].
    repeat split; try assumption; try reflexivity. discriminate.
Qed.

(** ** The weekly target *)

(** What a usable targets file loads as: a dictionary with a dictionary
    under ["targets"]. *)
Lemma has_targets_loads (f : targets_file) :
  has_targets f ->
  exists targets d,
    load_weekly_target f = Return (JDict targets)
    /\ dget "targets" targets = Some (JDict d).
Proof.
  intros [->|[->|[targets [d [-> Hd]]]]].
  - exists [("targets", JDict [])], []. split; reflexivity.
  - exists [("targets", JDict [])], []. split; reflexivity.
  - exists targets, d. split; [reflexivity | assumption].
Qed.

Lemma get_weekly_target_stored (g : string) (targets : dict json) (d : dict json) :
  dget "targets" targets = Some (JDict d) ->
  get_weekly_target g (Targets (JDict targets))
  = Return (match dget g d with Some v => v | None => JInt 0 end).
Proof. intros H. unfold get_weekly_target. cbn [load_weekly_target]. now rewrite H. Qed.

Lemma get_weekly_target_loaded (g : string) (f : targets_file)
  (targets d : dict json) :
  load_weekly_target f = Return (JDict targets) ->
  dget "targets" targets = Some (JDict d) ->
  get_weekly_target g f
  = Return (match dget g d with Some v => v | None => JInt 0 end).
Proof. intros Hl Hd. unfold get_weekly_target. now rewrite Hl, Hd. Qed.

(** X3. On a usable targets file (there is none, it is a text that is not
    JSON, or it holds an object with an object under ["targets"]),
    [set_weekly_target] returns normally, the target it wrote is the one
    [get_weekly_target] reads back for the guild, and the target of every
    other guild is what it was. *)
Theorem weekly_target_roundtrip (f : targets_file) (g : string) (amount : Z) :
  has_targets f ->
  let after := set_weekly_target g amount f in
  fst after = Return tt /\
  get_weekly_target g (snd after) = Return (JInt amount) /\
  forall g', g' <> g ->
    get_weekly_target g' (snd after) = get_weekly_target g' f.
Proof.
  intros Hf after. subst after.
  destruct (has_targets_loads f Hf) as [targets [d [Hl Hd]]].
  unfold set_weekly_target. rewrite Hl, Hd. cbn [fst snd].
  split; [reflexivity|].
  unfold save_weekly_target.
  split.
  - rewrite (get_weekly_target_stored g _ (dset g (JInt amount) d))
      by apply dget_dset_same.
    now rewrite dget_dset_same.
  - intros g' Hne.
    rewrite (get_weekly_target_stored g' _ (dset g (JInt amount) d))
      by apply dget_dset_same.
    rewrite dget_dset_other by assumption.
    symmetry. exact (get_weekly_target_loaded g' f targets d Hl Hd).
Qed.

Lemma weekly_target_roundtrip_witness :
  let after := set_weekly_target "900000000000000001" 5000 TargetsNotJson in
  fst after = Return tt /\
  get_weekly_target "900000000000000001" (snd after) = Return (JInt 5000) /\
  forall g', g' <> "900000000000000001" ->
    get_weekly_target g' (snd after) = get_weekly_target g' TargetsNotJson.
Proof.
  apply (weekly_target_roundtrip TargetsNotJson "900000000000000001" 5000).
  right. left. reflexivity.
Defined.

(** [set_weekly_target] and [get_weekly_target] return normally on the
    usable files, and on no other. *)
Lemma weekly_target_returns (f : targets_file) (g : string) (amount : Z) :
  (fst (set_weekly_target g amount f) = Return tt <-> has_targets f)
  /\ ((exists v, get_weekly_target g f = Return v) <-> has_targets f).
Proof.
  split; (split; [|intros Hf;
                    destruct (has_targets_loads f Hf) as [targets [d [Hl Hd]]]]).
  - unfold has_targets, set_weekly_target.
    destruct f as [| |e|[| | | | |targets]]; cbn [load_weekly_target fst];
      try discriminate; auto.
    destruct (dget "targets" targets) as [[| | | | |d]|] eqn:Hd; cbn [fst];
      try discriminate.
    intros _. right. right. eauto.
  - unfold set_weekly_target. now rewrite Hl, Hd.
  - unfold has_targets, get_weekly_target.
    destruct f as [| |e|[| | | | |targets]]; cbn [load_weekly_target];
      try (intros [v H]; discriminate); auto.
    destruct (dget "targets" targets) as [[| | | | |d]|] eqn:Hd;
      try (intros [v H]; discriminate).
    intros _. right. right. eauto.
  - rewrite (get_weekly_target_loaded g f targets d Hl Hd). eauto.
Qed.

(** X4. The targets fail together: over every state of the targets file,
    [set_weekly_target] returns normally exactly when [get_weekly_target]
    does, which is exactly when the file is usable.  An exception of the
    reading that is not caught, as [UnicodeDecodeError], comes out of both;
    a value that is not an object makes both raise [TypeError]; an object
    without the key ["targets"] makes both raise [KeyError]; under that key
    a value that is not an object makes the one raise [TypeError] and the
    other [AttributeError].  A [set_weekly_target] that raises has written
    nothing.  With no file, or with a text that is not JSON, the target of
    every guild reads as 0. *)
Theorem weekly_target_failures (f : targets_file) (g : string) (amount : Z) :
  (fst (set_weekly_target g amount f) = Return tt <-> has_targets f) /\
  ((exists v, get_weekly_target g f = Return v) <-> has_targets f) /\
  (forall e, f = TargetsUnreadable e ->
     fst (set_weekly_target g amount f) = Raise e /\
     get_weekly_target g f = Raise e) /\
  (forall v, f = Targets v -> (forall targets, v <> JDict targets) ->
     fst (set_weekly_target g amount f) = Raise TypeError /\
     get_weekly_target g f = Raise TypeError) /\
  (forall targets, f = Targets (JDict targets) ->
     match dget "targets" targets with
     | None =>
         fst (set_weekly_target g amount f) = Raise KeyError /\
         get_weekly_target g f = Raise KeyError
     | Some (JDict _) => True
     | Some _ =>
         fst (set_weekly_target g amount f) = Raise TypeError /\
         get_weekly_target g f = Raise AttributeError
     end) /\
  (fst (set_weekly_target g amount f) <> Return tt ->
   snd (set_weekly_target g amount f) = f) /\
  get_weekly_target g NoTargets = Return (JInt 0) /\
  get_weekly_target g TargetsNotJson = Return (JInt 0).
Proof.
  destruct (weekly_target_returns f g amount) as [Hset Hget].
  split; [exact Hset|]. split; [exact Hget|].
  split; [intros e ->; split; reflexivity|].
  split.
  { intros v -> Hv. unfold set_weekly_target, get_weekly_target.
    cbn [load_weekly_target].
    destruct v as [| | | | |targets]; try (split; reflexivity).
    now elim (Hv targets). }
  split.
  { intros targets ->. unfold set_weekly_target, get_weekly_target.
    cbn [load_weekly_target].
    destruct (dget "targets" targets) as [[| | | | |d]|];
      cbn [fst]; try (split; reflexivity); exact I. }
  split; [|split; reflexivity].
  unfold set_weekly_target.
  destruct (load_weekly_target f) as [[| | | | |targets]|e];
    cbn [fst snd]; try reflexivity.
  destruct (dget "targets" targets) as [[| | | | |d]|];
    cbn [fst snd]; try reflexivity.
  intros H. now elim H.
Qed.

(** ** [add_donation] on every store *)

Lemma weekly_section_missing (g : string) (t : tracker) (gd : guild_data) :
  dget g (donations_data t) = Some gd ->
  weekly_donations gd = None ->
  weekly_section g t = (Raise KeyError, t).
Proof.
  intros Hg Hw. unfold weekly_section, bind.
  now rewrite (guild_item_found _ _ _ Hg), Hw.
Qed.

Lemma total_section_missing (g : string) (t : tracker) (gd : guild_data) :
  dget g (donations_data t) = Some gd ->
  total_donations gd = None ->
  total_section g t = (Raise KeyError, t).
Proof.
  intros Hg Hd. unfold total_section, bind.
  now rewrite (guild_item_found _ _ _ Hg), Hd.
Qed.

(** A guild without its ["weekly_donations"] section: the first look at the
    section raises, nothing has been done. *)
Lemma add_donation_no_weekly (g u name : string) (amount : Z) (now : instant)
  (t : tracker) (gd : guild_data) :
  dget g (donations_data t) = Some gd ->
  weekly_donations gd = None ->
  add_donation g u name amount now t = (Raise KeyError, t).
Proof.
  intros Hg Hw.
  assert (Hmem : dmem g (donations_data t) = true) by (unfold dmem; now rewrite Hg).
  unfold add_donation.
  erewrite bind_return by (rewrite Hmem; reflexivity).
  erewrite bind_raise by (eapply weekly_section_missing; eassumption).
  reflexivity.
Qed.

(** A guild without its ["total_donations"] section: the window of the
    player has been created when the look at the section raises. *)
Lemma add_donation_no_total (g u name : string) (amount : Z) (now : instant)
  (t : tracker) (gd : guild_data) (w : dict Weekly.t) :
  dget g (donations_data t) = Some gd ->
  weekly_donations gd = Some w ->
  total_donations gd = None ->
  add_donation g u name amount now t
  = (Raise KeyError,
     if dmem u w then t
     else set_donations_data
            (dset g (with_weekly gd (dset u (fresh_weekly name now) w))
               (donations_data t)) t).
Proof.
  intros Hg Hw Hd.
  assert (Hmem : dmem g (donations_data t) = true) by (unfold dmem; now rewrite Hg).
  unfold add_donation.
  erewrite bind_return by (rewrite Hmem; reflexivity).
  run_found.
  destruct (dmem u w) eqn:Euw; simpl when.
  - erewrite (bind_return (ret tt)) by reflexivity.
    erewrite bind_raise by (eapply total_section_missing; eassumption).
    reflexivity.
  - run_found.
    erewrite bind_raise
      by (eapply total_section_missing; [apply dget_dset_same | exact Hd]).
    reflexivity.
Qed.

(** On a complete guild, or on one that is not in the store yet, the update
    in terms of what the queries answered before it. *)
Lemma add_donation_complete (g u name : string) (amount : Z) (now : instant)
  (t : tracker) :
  guild_complete t g ->
  exists lr,
    add_donation g u name amount now t
    = save_donations
        (set_donations_data
           (dset g
              (mk_guild
                 (Some (dset u (credit_weekly name amount now
                                  (dget u (get_weekly_donations t g)))
                          (get_weekly_donations t g)))
                 (Some (dset u (credit_total name amount now
                                  (dget u (get_total_donations t g)))
                          (get_total_donations t g)))
                 lr)
              (donations_data t)) t).
Proof.
  intros Hc. unfold guild_complete in Hc.
  unfold get_weekly_donations, get_total_donations.
  destruct (dget g (donations_data t)) as [gd|] eqn:Hg.
  - destruct (Hc gd eq_refl) as [Hw Hd].
    destruct (weekly_donations gd) as [w|] eqn:Ew; [|contradiction].
    destruct (total_donations gd) as [d|] eqn:Ed; [|contradiction].
    exists (last_reset gd).
    now rewrite (add_donation_found g u name amount now t gd w d Hg Ew Ed).
  - exists None. now rewrite (add_donation_fresh g u name amount now t Hg).
Qed.

Lemma guild_complete_cases (t : tracker) (g : string) :
  guild_complete t g \/
  exists gd, dget g (donations_data t) = Some gd /\
    (weekly_donations gd = None \/
     exists w, weekly_donations gd = Some w /\ total_donations gd = None).
Proof.
  unfold guild_complete.
  destruct (dget g (donations_data t)) as [gd|] eqn:Hg.
  - destruct (weekly_donations gd) as [w|] eqn:Ew.
    + destruct (total_donations gd) as [d|] eqn:Ed.
      * left. intros gd' [= <-]. rewrite Ew, Ed. split; discriminate.
      * right. exists gd. split; [reflexivity|]. right. eauto.
    + right. exists gd. split; [reflexivity|]. now left.
  - left. intros gd [=].
Qed.

(** X5. [add_donation] returns normally exactly when the guild is complete in
    the store (it has both its sections) or is not in it yet.  On a guild
    that lacks a section it raises [KeyError] and writes nothing to the
    donations file. *)
Theorem add_donation_returns_iff
  (t : tracker) (g u name : string) (amount : Z) (now : instant) :
  let after := add_donation g u name amount now t in
  (fst after = Return tt <-> guild_complete t g) /\
  (~ guild_complete t g ->
   fst after = Raise KeyError /\ donations_file (snd after) = donations_file t) /\
  (guild_complete t g -> in_sync (snd after)).
Proof.
  intros after. subst after.
  destruct (guild_complete_cases t g) as [Hc|[gd [Hg Hmiss]]].
  - destruct (add_donation_complete g u name amount now t Hc) as [lr ->].
    split; [split; [intros _; assumption | reflexivity]|].
    split; [contradiction | reflexivity].
  - assert (Hnc : ~ guild_complete t g).
    { intros Hc. destruct (Hc gd Hg) as [Hw Hd].
      destruct Hmiss as [Hw'|[w [_ Hd']]]; contradiction. }
    assert (Hraise :
              fst (add_donation g u name amount now t) = Raise KeyError
              /\ donations_file (snd (add_donation g u name amount now t))
                 = donations_file t).
    { destruct Hmiss as [Hw|[w [Hw Hd]]].
      - now rewrite (add_donation_no_weekly g u name amount now t gd Hg Hw).
      - rewrite (add_donation_no_total g u name amount now t gd w Hg Hw Hd).
        cbn [fst snd]. split; [reflexivity|]. now destruct (dmem u w). }
    destruct Hraise as [Hr Hf].
    split; [split; [rewrite Hr; discriminate | contradiction]|].
    split; [intros _; now split | contradiction].
Qed.

(** What [add_donation] leaves alone, on every store. *)
Lemma add_donation_frame
  (t : tracker) (g u name : string) (amount : Z) (now : instant) :
  let after := snd (add_donation g u name amount now t) in
  (forall g', g' <> g ->
     dget g' (donations_data after) = dget g' (donations_data t)) /\
  (forall u', u' <> u ->
     dget u' (get_weekly_donations after g) = dget u' (get_weekly_donations t g)
     /\ dget u' (get_total_donations after g) = dget u' (get_total_donations t g)) /\
  registered_players after = registered_players t /\
  players_file after = players_file t.
Proof.
  intros after. subst after.
  destruct (guild_complete_cases t g) as [Hc|[gd [Hg Hmiss]]].
  - destruct (add_donation_complete g u name amount now t Hc) as [lr ->].
    cbn [snd save_donations].
    split; [|split; [|split; reflexivity]].
    + intros g' Hne. cbn [donations_data set_donations_data].
      now apply dget_dset_other.
    + intros u' Hne. split.
      * unfold get_weekly_donations at 1.
        cbn [donations_data set_donations_data].
        rewrite dget_dset_same. cbn [weekly_donations].
        now apply dget_dset_other.
      * unfold get_total_donations at 1.
        cbn [donations_data set_donations_data].
        rewrite dget_dset_same. cbn [total_donations].
        now apply dget_dset_other.
  - destruct Hmiss as [Hw|[w [Hw Hd]]].
    + rewrite (add_donation_no_weekly g u name amount now t gd Hg Hw).
      cbn [snd]. repeat split; reflexivity.
    + rewrite (add_donation_no_total g u name amount now t gd w Hg Hw Hd).
      cbn [snd]. destruct (dmem u w); [repeat split; reflexivity|].
      split; [|split; [|split; reflexivity]].
      * intros g' Hne. cbn [donations_data set_donations_data].
        now apply dget_dset_other.
      * intros u' Hne.
        unfold get_weekly_donations, get_total_donations.
        cbn [donations_data set_donations_data].
        rewrite dget_dset_same, Hg, Hw, Hd.
        cbn [with_weekly weekly_donations total_donations]. rewrite Hd.
        split; [now apply dget_dset_other | reflexivity].
Qed.

(** X6. Whatever it does, [add_donation] for a user of a guild touches
    neither another guild of the store, nor the window or the all-time
    aggregate of another user of the guild, nor the players directory and
    its file. *)
Theorem add_donation_isolation
  (t : tracker) (g u name : string) (amount : Z) (now : instant) :
  let after := snd (add_donation g u name amount now t) in
  (forall g', g' <> g ->
     dget g' (donations_data after) = dget g' (donations_data t)) /\
  (forall u', u' <> u ->
     dget u' (get_weekly_donations after g) = dget u' (get_weekly_donations t g)
     /\ dget u' (get_total_donations after g) = dget u' (get_total_donations t g)) /\
  registered_players after = registered_players t /\
  players_file after = players_file t.
Proof. exact (add_donation_frame t g u name amount now). Qed.

(** ** The windows along a history *)

Lemma window_ok_credit (name : string) (amount : Z) (now : instant)
  (o : option Weekly.t) :
  (forall e, o = Some e -> window_ok e) ->
  window_ok (credit_weekly name amount now o).
Proof.
  intros Ho. unfold credit_weekly.
  set (e0 := match o with Some e => e | None => fresh_weekly name now end).
  assert (H0 : window_ok e0).
  { subst e0. destruct o as [e|]; [now apply Ho|].
    split; [reflexivity | constructor]. }
  destruct (7 <=? days_between now (Weekly.week_start e0)) eqn:E.
  - split; cbn.
    + unfold sum_amounts. cbn. lia.
    + repeat constructor. cbn. unfold days_between.
      rewrite Z.sub_diag. reflexivity.
  - destruct H0 as [Hsum Hall]. split; cbn.
    + rewrite sum_amounts_app, Hsum. unfold sum_amounts. cbn. lia.
    + apply Forall_app. split; [assumption|].
      repeat constructor. cbn. now apply Z.leb_gt in E.
Qed.

(** The events of the window after a donation: the former window and the
    donation, or the donation alone. *)
Lemma credit_weekly_events (name : string) (amount : Z) (now : instant)
  (o : option Weekly.t) :
  Weekly.donations (credit_weekly name amount now o)
  = [Donation.mk amount now]
  \/ exists e, o = Some e /\
       Weekly.donations (credit_weekly name amount now o)
       = (Weekly.donations e ++ [Donation.mk amount now])%list.
Proof.
  unfold credit_weekly.
  destruct o as [e|]; cbn.
  - destruct (7 <=? days_between now (Weekly.week_start e)); cbn;
      [now left | right; eauto].
  - destruct (7 <=? days_between now now); cbn; now left.
Qed.

Lemma credit_total_events (name : string) (amount : Z) (now : instant)
  (o : option Total.t) :
  Total.donations (credit_total name amount now o)
  = (match o with Some e => Total.donations e | None => [] end
     ++ [Donation.mk amount now])%list.
Proof. unfold credit_total. now destruct o. Qed.

Lemma windows_ok_add_donation (g0 u0 name : string) (amount : Z) (now : instant)
  (t : tracker) :
  sections_present (donations_data t) ->
  windows_ok t ->
  windows_ok (snd (add_donation g0 u0 name amount now t)).
Proof.
  intros Hsec Hok.
  assert (Hc : guild_complete t g0).
  { intros gd Hg. exact (Hsec g0 gd (dget_In _ _ _ Hg)). }
  destruct (add_donation_complete g0 u0 name amount now t Hc) as [lr Hrun].
  destruct (add_donation_total g0 u0 name amount now t Hsec) as [_ [_ Htot]].
  intros g u e He.
  assert (Hev : total_events (snd (add_donation g0 u0 name amount now t)) g u
                = (total_events t g u
                   ++ if String.eqb g g0 && String.eqb u u0
                      then [Donation.mk amount now] else [])%list).
  { unfold total_events. rewrite Htot.
    destruct (String.eqb g g0 && String.eqb u u0).
    - now rewrite credit_total_events.
    - now rewrite app_nil_r. }
  unfold window_in_history. rewrite Hev. clear Hev Htot.
  rewrite Hrun in He. cbn [snd save_donations] in He.
  unfold get_weekly_donations at 1 in He.
  cbn [donations_data set_donations_data] in He.
  destruct (String.eqb_spec g g0) as [->|Hg].
  - rewrite dget_dset_same in He. cbn [weekly_donations] in He.
    destruct (String.eqb_spec u u0) as [->|Hu]; cbn [andb].
    + rewrite dget_dset_same in He. injection He as <-.
      split.
      * apply window_ok_credit. intros e0 He0. now apply (Hok g0 u0 e0).
      * destruct (credit_weekly_events name amount now
                    (dget u0 (get_weekly_donations t g0))) as [->|[e0 [He0 ->]]].
        -- now exists (total_events t g0 u0).
        -- destruct (Hok g0 u0 e0 He0) as [_ [older Hold]].
           exists older. now rewrite Hold, app_assoc.
    + rewrite dget_dset_other in He by assumption.
      rewrite app_nil_r. now apply Hok.
  - rewrite dget_dset_other in He by assumption. cbn [andb].
    rewrite app_nil_r. now apply Hok.
Qed.

Lemma dget_remove_players_some (l : list string) (u : string) (w : dict Weekly.t)
  (e : Weekly.t) :
  dget u (remove_players l w) = Some e -> dget u w = Some e.
Proof.
  intros H. destruct (in_dec string_dec u l) as [Hin|Hnotin].
  - rewrite dget_remove_players_in in H by assumption. discriminate.
  - now rewrite dget_remove_players_notin in H.
Qed.

(** An entry the sweep leaves behind is an entry that was there. *)
Lemma cleanup_keeps_or_deletes (now : instant) (t : tracker) (g u : string)
  (e : Weekly.t) :
  dget u (get_weekly_donations (snd (cleanup_expired_weeks now t)) g) = Some e ->
  dget u (get_weekly_donations t g) = Some e.
Proof.
  unfold get_weekly_donations.
  rewrite cleanup_expired_weeks_data, cleanup_guilds_dget.
  destruct (dget g (donations_data t)) as [gd|]; cbn; [|discriminate].
  unfold cleanup_guild.
  destruct (weekly_donations gd) as [w|] eqn:Ew; cbn.
  - apply dget_remove_players_some.
  - now rewrite Ew.
Qed.

Lemma windows_ok_cleanup (now : instant) (t : tracker) :
  windows_ok t -> windows_ok (snd (cleanup_expired_weeks now t)).
Proof.
  intros Hok g u e He. apply cleanup_keeps_or_deletes in He.
  destruct (Hok g u e He) as [H1 H2]. split; [assumption|].
  unfold window_in_history, total_events in *.
  now rewrite cleanup_keeps_totals.
Qed.

Lemma run_ops_invariant (P : tracker -> Prop) :
  (forall o t, sections_present (donations_data t) -> P t -> P (snd (run_op o t))) ->
  forall ops t,
    sections_present (donations_data t) -> P t ->
    fst (run_ops ops t) = Return tt /\ P (snd (run_ops ops t)).
Proof.
  intros Hstep ops. induction ops as [|o ops IH]; intros t Hsec HP.
  - split; [reflexivity | assumption].
  - destruct (run_op_total o t Hsec) as [Hret [Hsec' _]].
    specialize (Hstep o t Hsec HP).
    unfold run_ops in *. cbn [for_each].
    destruct (run_op o t) as [r t1] eqn:E. cbn [fst snd] in Hret, Hsec', Hstep.
    subst r. rewrite (bind_return _ _ _ _ _ E).
    now apply IH.
Qed.

(** X7. The windows stay consistent along every history of appends and
    sweeps from a complete store: for every player with a window, the
    running total of the window is the sum of its events, each of its events
    lies less than seven whole days after its anchor, and its events are
    the last events of the all-time list of the player. *)
Theorem windows_stay_consistent (t : tracker) (ops : list op) :
  sections_present (donations_data t) ->
  windows_ok t ->
  let after := run_ops ops t in
  fst after = Return tt /\ windows_ok (snd after).
Proof.
  intros Hsec Hok after. subst after.
  apply (run_ops_invariant windows_ok); [|assumption|assumption].
  intros [g u name amount now|now] t0 Hsec0 Hok0; cbn [run_op].
  - now apply windows_ok_add_donation.
  - now apply windows_ok_cleanup.
Qed.

Lemma windows_stay_consistent_witness :
  let after := run_ops sample_history sample_tracker in
  fst after = Return tt /\ windows_ok (snd after).
Proof.
  apply (windows_stay_consistent sample_tracker sample_history).
  - intros g gd [[= <- <-]|[]]. split; discriminate.
  - intros g u e H. unfold get_weekly_donations in H.
    cbn [sample_tracker donations_data dget] in H.
    destruct (String.eqb_spec g "900000000000000001") as [->|]; [|discriminate].
    cbn in H.
    destruct (String.eqb_spec u "42") as [->|]; [|discriminate].
    injection H as <-. split.
    + split; [reflexivity | repeat constructor].
    + exists []. reflexivity.
Defined.

(** ** The donations file along a history *)

Lemma expired_players_length_zero (now : instant) (w : dict Weekly.t) :
  List.length (expired_players now w) = O -> remove_players (expired_players now w) w = w.
Proof.
  intros H. destruct (expired_players now w); [reflexivity | discriminate].
Qed.

Lemma cleanup_guild_nothing (now : instant) (gd : guild_data) :
  snd (cleanup_guild now gd) = O -> fst (cleanup_guild now gd) = gd.
Proof.
  unfold cleanup_guild.
  destruct (weekly_donations gd) as [w|] eqn:Ew; cbn; [|reflexivity].
  intros H. rewrite (expired_players_length_zero now w H).
  destruct gd as [ow ot lr]. cbn in *. now subst ow.
Qed.

Lemma cleanup_guilds_nothing (now : instant) (d : dict guild_data) :
  snd (cleanup_guilds now d) = O -> fst (cleanup_guilds now d) = d.
Proof.
  induction d as [|[g gd] d IH]; cbn; [reflexivity|].
  pose proof (cleanup_guild_nothing now gd) as Hgd.
  destruct (cleanup_guild now gd) as [gd' n].
  destruct (cleanup_guilds now d) as [d' m]. cbn in *.
  intros H. assert (n = O /\ m = O) as [-> ->] by lia.
  now rewrite Hgd, IH.
Qed.

Lemma set_donations_data_same (t : tracker) :
  set_donations_data (donations_data t) t = t.
Proof. now destruct t. Qed.

(** The sweep writes the file when it removed something, and has changed
    nothing when it did not. *)
Lemma cleanup_expired_weeks_cases (now : instant) (t : tracker) :
  cleanup_expired_weeks now t = (Return tt, t)
  \/ cleanup_expired_weeks now t
     = save_donations (set_donations_data (fst (cleanup_guilds now (donations_data t))) t).
Proof.
  unfold cleanup_expired_weeks.
  pose proof (cleanup_guilds_nothing now (donations_data t)) as H0.
  destruct (cleanup_guilds now (donations_data t)) as [d n]. cbn [fst snd] in *.
  destruct n as [|n]; cbn [Nat.ltb Nat.leb when].
  - left. rewrite H0 by reflexivity. now rewrite set_donations_data_same.
  - now right.
Qed.

Lemma in_sync_run_op (o : op) (t : tracker) :
  sections_present (donations_data t) -> in_sync t -> in_sync (snd (run_op o t)).
Proof.
  intros Hsec Hs. destruct o as [g u name amount now|now]; cbn [run_op].
  - assert (Hc : guild_complete t g).
    { intros gd Hg. exact (Hsec g gd (dget_In _ _ _ Hg)). }
    destruct (add_donation_complete g u name amount now t Hc) as [lr ->].
    reflexivity.
  - destruct (cleanup_expired_weeks_cases now t) as [->| ->];
      [assumption | reflexivity].
Qed.

(** X8. The donations file follows the store along every history of appends
    and sweeps: from a complete store whose file holds its document, the
    file holds the document of the store at the end, without any further
    call of [save_donations]. *)
Theorem donations_file_follows_store (t : tracker) (ops : list op) :
  sections_present (donations_data t) ->
  in_sync t ->
  let after := run_ops ops t in
  fst after = Return tt /\ in_sync (snd after).
Proof.
  intros Hsec Hs after. subst after.
  apply (run_ops_invariant in_sync); [|assumption|assumption].
  intros o t0. apply in_sync_run_op.
Qed.

Lemma donations_file_follows_store_witness :
  let after := run_ops sample_history (snd (save_donations fresh_tracker)) in
  fst after = Return tt /\ in_sync (snd after).
Proof.
  apply (donations_file_follows_store (snd (save_donations fresh_tracker))
           sample_history).
  - intros g gd H. cbn in H. contradiction.
  - reflexivity.
Defined.

(** ** The sweep when nothing is due *)

Lemma expired_players_none (now : instant) (w : dict Weekly.t) :
  (forall u e, In (u, e) w -> now - Weekly.week_start e < seven_days) ->
  expired_players now w = [].
Proof.
  intros H. unfold expired_players.
  induction w as [|[u e] w IH]; cbn [filter map fst snd]; [reflexivity|].
  rewrite (proj2 (days_between_young now (Weekly.week_start e))
             (H u e (or_introl eq_refl))).
  apply IH. intros u' e' Hin. apply (H u' e'). now right.
Qed.

Lemma cleanup_guilds_nothing_expired (now : instant) (d : dict guild_data) :
  (forall g gd w u e,
     In (g, gd) d -> weekly_donations gd = Some w -> In (u, e) w ->
     now - Weekly.week_start e < seven_days) ->
  cleanup_guilds now d = (d, O).
Proof.
  induction d as [|[g gd] d IH]; intros H; cbn; [reflexivity|].
  rewrite IH by (intros g' gd' w u e Hin; apply (H g' gd' w u e); now right).
  unfold cleanup_guild.
  destruct (weekly_donations gd) as [w|] eqn:Ew; [|reflexivity].
  rewrite (expired_players_none now w)
    by (intros u e Hin; apply (H g gd w u e); [now left | assumption | assumption]).
  cbn. destruct gd as [ow ot lr]. cbn in *. now subst ow.
Qed.

(** X9. When no window of the store is seven days old, the sweep is a no-op:
    it returns normally and leaves the whole tracker, its store and its
    files, exactly as it was; in particular it writes nothing. *)
Theorem cleanup_expired_weeks_nothing_due (t : tracker) (now : instant) :
  nothing_expired now t ->
  cleanup_expired_weeks now t = (Return tt, t).
Proof.
  intros H. unfold cleanup_expired_weeks.
  rewrite (cleanup_guilds_nothing_expired now (donations_data t) H).
  cbn. now rewrite set_donations_data_same.
Qed.

Lemma cleanup_expired_weeks_nothing_due_witness :
  cleanup_expired_weeks (seven_days - 1) sample_tracker = (Return tt, sample_tracker).
Proof.
  apply (cleanup_expired_weeks_nothing_due sample_tracker (seven_days - 1)).
  intros g gd w u e Hg Hw Hu.
  cbn in Hg. destruct Hg as [[= <- <-]|[]].
  cbn in Hw. injection Hw as <-.
  cbn in Hu. destruct Hu as [[= <- <-]|[]].
  cbn. lia.
Defined.

(** ** [reset_weekly_data] *)

Lemma dget_stamp (now : instant) (g : string) (d : dict guild_data) :
  dget g (map (fun kv => (fst kv, with_last_reset (snd kv) now)) d)
  = option_map (fun gd => with_last_reset gd now) (dget g d).
Proof. exact (dget_map_values (fun gd => with_last_reset gd now) g d). Qed.

Lemma reset_weekly_data_closed (now : instant) (t : tracker) :
  reset_weekly_data now t
  = save_donations
      (set_donations_data
         (map (fun kv => (fst kv, with_last_reset (snd kv) now))
            (donations_data (snd (cleanup_expired_weeks now t))))
         (snd (cleanup_expired_weeks now t))).
Proof.
  unfold reset_weekly_data.
  pose proof (cleanup_expired_weeks_returns now t) as Hret.
  destruct (cleanup_expired_weeks now t) as [r t1] eqn:E. cbn [fst snd] in *.
  subst r. rewrite (bind_return _ _ _ _ _ E). reflexivity.
Qed.

(** X10. [reset_weekly_data] returns normally.  It removes the windows the
    sweep removes and no other, changes no all-time aggregate, stamps every
    guild of the store with the time of the call as its ["last_reset"],
    keeps the guilds of the store and their order, and always writes the
    donations file, which then holds the document of the store. *)
Theorem reset_weekly_data_stamps (t : tracker) (now : instant) :
  let after := reset_weekly_data now t in
  fst after = Return tt /\
  (forall g,
     get_weekly_donations (snd after) g
     = get_weekly_donations (snd (cleanup_expired_weeks now t)) g) /\
  (forall g, get_total_donations (snd after) g = get_total_donations t g) /\
  (forall g gd, In (g, gd) (donations_data (snd after)) -> last_reset gd = Some now) /\
  dkeys (donations_data (snd after)) = dkeys (donations_data t) /\
  in_sync (snd after).
Proof.
  intros after. subst after. rewrite reset_weekly_data_closed.
  cbn [fst snd save_donations].
  split; [reflexivity|].
  split.
  { intros g. unfold get_weekly_donations.
    cbn [donations_data set_donations_data]. rewrite dget_stamp.
    now destruct (dget g (donations_data (snd (cleanup_expired_weeks now t)))). }
  split.
  { intros g. rewrite <- (cleanup_keeps_totals now t g).
    unfold get_total_donations.
    cbn [donations_data set_donations_data]. rewrite dget_stamp.
    now destruct (dget g (donations_data (snd (cleanup_expired_weeks now t)))). }
  split.
  { intros g gd Hin. cbn [donations_data set_donations_data] in Hin.
    apply in_map_iff in Hin as [[g0 gd0] [[= <- <-] _]]. reflexivity. }
  split; [|reflexivity].
  cbn [donations_data set_donations_data].
  rewrite (dkeys_map_values (fun gd => with_last_reset gd now)),
    cleanup_expired_weeks_data.
  unfold dkeys. generalize (donations_data t) as d.
  induction d as [|[g gd] d IH]; cbn; [reflexivity|].
  destruct (cleanup_guild now gd) as [gd' n].
  destruct (cleanup_guilds now d) as [d' m]. cbn in *. now rewrite IH.
Qed.

(** ** What an amount is read from *)

Lemma has_digit_append (s1 s2 : string) :
  has_digit (s1 ++ s2) = has_digit s1 || has_digit s2.
Proof.
  induction s1 as [|c s1 IH]; cbn; [reflexivity|].
  now rewrite IH, orb_assoc.
Qed.

Lemma is_digit_lower_char (c : ascii) :
  Str.is_digit (Str.lower_char c) = Str.is_digit c.
Proof. destruct c as [[] [] [] [] [] [] [] []]; reflexivity. Qed.

Lemma has_digit_lower (s : string) : has_digit (Str.lower s) = has_digit s.
Proof.
  induction s as [|c s IH]; cbn [Str.lower has_digit]; [reflexivity|].
  now rewrite is_digit_lower_char, IH.
Qed.

Lemma isdigit_has_digit (ds : string) : Str.isdigit ds = true -> has_digit ds = true.
Proof.
  destruct ds as [|c ds]; cbn; [discriminate|].
  intros H. apply andb_true_iff in H as [-> _]. reflexivity.
Qed.

Lemma number_text_has_digit (u : string) : number_text u -> has_digit u = true.
Proof.
  intros [ds Hds|ds v Hds _].
  - now apply isdigit_has_digit.
  - rewrite has_digit_append, (isdigit_has_digit ds Hds). reflexivity.
Qed.

(** A pattern with the amount as its only group captures a number text
    that stands in the subject. *)
Lemma captures_number_span (r : regex) (c c' : capture) (s s' : string) :
  captures_number r = true ->
  Matches r c s c' s' ->
  exists pre u to, c' = Some (u ++ to, to) /\ number_text u /\ s = pre ++ u ++ to.
Proof.
  intros Hr H. revert Hr.
  induction H as
    [ | | |r1 r2 c s c1 s1 c2 s2 H1 IH1 H2 IH2| | | | | | |r c s c1 s1 H _];
    cbn [captures_number]; intros Hr; try discriminate.
  - apply orb_true_iff in Hr as [Hr|Hr]; apply andb_true_iff in Hr as [Ha Hb].
    + destruct (IH1 Ha) as [pre [u [to [-> [Hu ->]]]]].
      apply negb_true_iff in Hb.
      rewrite (matches_without_group _ _ _ _ _ H2 Hb). eauto.
    + destruct (IH2 Hb) as [pre [u [to [-> [Hu ->]]]]].
      destruct (matches_consumes _ _ _ _ _ H1) as [u1 ->].
      exists (u1 ++ pre), u, to. split; [reflexivity|]. split; [assumption|].
      now rewrite append_assoc.
  - apply regex_eqb_eq in Hr. subst r.
    apply matches_number_body in H as [_ [u [-> Hu]]].
    exists "", u, s1. auto.
Qed.

Lemma search_reads_number (p : regex) (text : string) (m : capture) :
  captures_number p = true ->
  search p text = Some m ->
  exists g, group1 m = Some g /\ number_text g /\ occurs_in g text.
Proof.
  intros Hp H.
  apply search_sound in H as [skipped [s0 [s' [-> Hm]]]].
  destruct (captures_number_span _ _ _ _ _ Hp Hm) as [pre [u [to [-> [Hu ->]]]]].
  exists u. split; [apply group1_span|]. split; [assumption|].
  exists (skipped ++ pre), to. now rewrite append_assoc.
Qed.

Lemma first_amount_reads_number (l : list regex) (text : string) (n : Z) :
  forallb captures_number l = true ->
  first_amount l text = Some n ->
  exists g, number_text g /\ occurs_in g text /\ n = embedded_integer g.
Proof.
  induction l as [|p l IH]; cbn [first_amount forallb]; [discriminate|].
  intros H. apply andb_true_iff in H as [Hp Hl].
  unfold rule_amount.
  destruct (search p text) as [m|] eqn:Es; [|now apply IH].
  destruct (search_reads_number p text m Hp Es) as [g [-> [Hg Hocc]]].
  rewrite (py_int_number_text g Hg).
  destruct (digit_count g <=? int_max_str_digits)%nat; [|now apply IH].
  intros [= <-]. eauto.
Qed.

Lemma decimal_value_nonneg (s : string) (acc : Z) :
  0 <= acc -> Str.all_digits s = true -> 0 <= decimal_value acc s.
Proof.
  revert acc. induction s as [|c s IH]; intros acc Hacc Hs; cbn [decimal_value];
    [assumption|].
  cbn [Str.all_digits] in Hs. apply andb_true_iff in Hs as [Hc Hs].
  apply IH; [|assumption].
  unfold Str.is_digit in Hc. apply andb_true_iff in Hc as [Hlo _].
  apply N.leb_le in Hlo. lia.
Qed.

Lemma embedded_integer_nonneg (g : string) : number_text g -> 0 <= embedded_integer g.
Proof.
  intros Hg. unfold embedded_integer. rewrite replace_commas.
  apply decimal_value_nonneg; [lia|].
  apply isdigit_all_digits. now apply number_text_digits.
Qed.

(** X11. Every amount [parse_donation_message] returns for an ASCII text is
    read off the text: it is the integer embedded in a number text (groups
    of digits separated by commas) that stands in the text, in lower case,
    and so it is never negative. *)
Theorem parse_reads_a_written_number (content : string) (n : Z) :
  Str.is_ascii content = true ->
  parse_donation_message content = Return (Some n) ->
  0 <= n /\
  exists g, number_text g /\ occurs_in g (Str.lower content)
            /\ n = embedded_integer g.
Proof.
  intros _. rewrite parse_donation_message_total.
  destruct (has_keyword (Str.lower content)); [|discriminate].
  intros [= H].
  destruct (first_amount_reads_number patterns (Str.lower content) n
              patterns_capture_number H) as [g [Hg [Hocc ->]]].
  split; [now apply embedded_integer_nonneg | eauto].
Qed.

Lemma parse_reads_a_written_number_witness :
  0 <= 1234567 /\
  exists g, number_text g
            /\ occurs_in g (Str.lower "You have donated **1,234,567** gold")
            /\ 1234567 = embedded_integer g.
Proof.
  apply (parse_reads_a_written_number "You have donated **1,234,567** gold" 1234567).
  - reflexivity.
  - vm_compute. reflexivity.
Defined.

Lemma parse_without_digit (s : string) :
  has_digit s = false -> parse_donation_message s = Return None.
Proof.
  intros Hs. rewrite parse_donation_message_total.
  destruct (has_keyword (Str.lower s)); [|reflexivity].
  destruct (first_amount patterns (Str.lower s)) as [n|] eqn:E; [|reflexivity].
  destruct (first_amount_reads_number patterns (Str.lower s) n
              patterns_capture_number E) as [g [Hg [[pre [post Hocc]] _]]].
  assert (Hd : has_digit (Str.lower s) = true).
  { rewrite Hocc, !has_digit_append, (number_text_has_digit g Hg).
    now rewrite orb_true_r. }
  rewrite has_digit_lower, Hs in Hd. discriminate.
Qed.

(** ** Messages that leave the ledger alone *)

Lemma parse_embeds_nothing (l : list embed) :
  (forall s, In s (flat_map embed_texts l) -> parse_donation_message s = Return None) ->
  parse_embeds l = Return None.
Proof.
  induction l as [|e l IH]; intros H; cbn [parse_embeds]; [reflexivity|].
  assert (Hl : parse_embeds l = Return None).
  { apply IH. intros s Hs. apply H. cbn [flat_map]. apply in_or_app. now right. }
  assert (He : forall s, In s (embed_texts e) -> parse_donation_message s = Return None).
  { intros s Hs. apply H. cbn [flat_map]. apply in_or_app. now left. }
  unfold embed_texts in He.
  destruct (truthy (description e)) as [sd|];
    destruct (truthy (title e)) as [st|]; cbn in He.
  - rewrite (He sd) by auto. rewrite (He st) by auto. assumption.
  - rewrite (He sd) by auto. assumption.
  - rewrite (He st) by auto. assumption.
  - assumption.
Qed.

(** X12. A message in ASCII text without a decimal digit, in its content
    and in the descriptions and titles of its embeds, is never taken for a
    donation: no reaction is added and the tracker is exactly what it
    was. *)
Theorem message_without_digit_is_ignored (m : message) (now : instant) (t : tracker) :
  all_ascii (message_texts m) ->
  Forall (fun s => has_digit s = false) (message_texts m) ->
  process_donation_message m now t = (None, t).
Proof.
  intros _ H. rewrite Forall_forall in H.
  unfold process_donation_message, detect_donation.
  rewrite (parse_without_digit (content m)) by (apply H; now left).
  rewrite parse_embeds_nothing; [reflexivity|].
  intros s Hs. apply parse_without_digit, H. now right.
Qed.

Lemma message_without_digit_is_ignored_witness :
  process_donation_message
    (mk_message "Welcome to the clan" [mk_embed (Some "Clan donation") None]
       ["42"] "900000000000000001") 0 two_players
  = (None, two_players).
Proof.
  apply (message_without_digit_is_ignored
           (mk_message "Welcome to the clan" [mk_embed (Some "Clan donation") None]
              ["42"] "900000000000000001") 0 two_players).
  - repeat constructor.
  - repeat constructor.
Defined.

(** ** Attribution by name *)

Lemma credit_mentions_nobody (g : string) (users : list string) (amount : Z)
  (now : instant) (recorded : bool) (t : tracker) :
  existsb (is_player_registered t g) users = false ->
  credit_mentions g users amount now recorded t = (Return recorded, t).
Proof.
  induction users as [|u users IH]; cbn [credit_mentions existsb]; [reflexivity|].
  intros H. apply orb_false_iff in H as [Hu Hrest].
  rewrite Hu. now apply IH.
Qed.

Lemma credit_by_name_nobody (g : string) (players : dict string) (text : string)
  (amount : Z) (now : instant) (t : tracker) :
  nobody_named text players = true ->
  credit_by_name g players text amount now t = (Return false, t).
Proof.
  unfold nobody_named.
  induction players as [|[u name] players IH]; cbn [credit_by_name forallb snd];
    [reflexivity|].
  intros H. apply andb_true_iff in H as [Hn Hrest].
  apply negb_true_iff in Hn. unfold name_found in Hn. rewrite Hn. now apply IH.
Qed.

Lemma credit_by_name_first (g : string) (before after : dict string)
  (u name text : string) (amount : Z) (now : instant) (t : tracker) :
  nobody_named text before = true ->
  name_found text name = true ->
  credit_by_name g (before ++ (u, name) :: after)%list text amount now t
  = (add_donation g u name amount now ;; ret true) t.
Proof.
  unfold nobody_named. intros Hb Hn.
  induction before as [|[u0 name0] before IH]; cbn [credit_by_name app forallb snd] in *.
  - unfold name_found in Hn. now rewrite Hn.
  - apply andb_true_iff in Hb as [Hn0 Hrest].
    apply negb_true_iff in Hn0. unfold name_found in Hn0. rewrite Hn0. now apply IH.
Qed.

Lemma attribute_donation_by_name (m : message) (amount : Z) (now : instant)
  (t : tracker) :
  existsb (is_player_registered t (guild_id m)) (mentions m) = false ->
  attribute_donation m amount now t
  = (recorded <-
       credit_by_name (guild_id m) (get_registered_players t (guild_id m))
         (content_to_search m) amount now ;;
     ret (if recorded then Tracked else Unattributed)) t.
Proof.
  intros H. unfold attribute_donation.
  rewrite (bind_return _ _ _ _ _
             (credit_mentions_nobody (guild_id m) (mentions m) amount now false t H)).
  reflexivity.
Qed.

(** X13. A donation that no registered player can be credited with: for a
    message in ASCII text and registered players with plain names (ASCII
    but for the crossed swords), when no mentioned user is registered in
    the guild and the cleaned name of no registered player of the guild
    occurs in the searched text, the message gets the question mark and the
    tracker is exactly what it was. *)
Theorem donation_without_player
  (m : message) (amount : Z) (now : instant) (t : tracker) :
  all_ascii (message_texts m) ->
  plain_names (get_registered_players t (guild_id m)) ->
  detect_donation m = Return (Some amount) ->
  existsb (is_player_registered t (guild_id m)) (mentions m) = false ->
  nobody_named (content_to_search m) (get_registered_players t (guild_id m)) = true ->
  process_donation_message m now t = (Some Unattributed, t).
Proof.
  intros _ _ Hd Hm Hn. unfold process_donation_message. rewrite Hd.
  rewrite (attribute_donation_by_name m amount now t Hm).
  rewrite (bind_return _ _ _ _ _
             (credit_by_name_nobody (guild_id m) _ (content_to_search m)
                amount now t Hn)).
  reflexivity.
Qed.

Lemma donation_without_player_witness :
  process_donation_message
    (mk_message "Carol donated 500 coins" [] ["44"] "900000000000000001")
    0 two_players
  = (Some Unattributed, two_players).
Proof.
  apply (donation_without_player
           (mk_message "Carol donated 500 coins" [] ["44"] "900000000000000001")
           500 0 two_players);
    try (vm_compute; reflexivity); repeat constructor.
Defined.

(** X14. The search by name credits one player, the first that matches:
    for a message in ASCII text, when no mentioned user is registered, the
    donation goes to the first registered player of the guild, in the order
    of the directory, whose cleaned name occurs in the searched text, by one
    call of [add_donation]; the names up to that player are plain (ASCII but
    for the crossed swords), and the players after it are not looked at,
    whatever their names.  The message gets the check mark, or no reaction
    at all when [add_donation] raised. *)
Theorem name_search_credits_first_match
  (m : message) (amount : Z) (now : instant) (t : tracker)
  (before after : dict string) (u name : string) :
  all_ascii (message_texts m) ->
  plain_names (before ++ [(u, name)])%list ->
  detect_donation m = Return (Some amount) ->
  existsb (is_player_registered t (guild_id m)) (mentions m) = false ->
  get_registered_players t (guild_id m) = (before ++ (u, name) :: after)%list ->
  nobody_named (content_to_search m) before = true ->
  name_found (content_to_search m) name = true ->
  process_donation_message m now t
  = match add_donation (guild_id m) u name amount now t with
    | (Return _, t') => (Some Tracked, t')
    | (Raise _, t') => (None, t')
    end.
Proof.
  intros _ _ Hd Hm Hp Hb Hn. unfold process_donation_message. rewrite Hd.
  rewrite (attribute_donation_by_name m amount now t Hm), Hp.
  unfold bind at 1.
  rewrite (credit_by_name_first (guild_id m) before after u name
             (content_to_search m) amount now t Hb Hn).
  unfold bind.
  destruct (add_donation (guild_id m) u name amount now t) as [[[]|e] t1];
    reflexivity.
Qed.

Lemma name_search_credits_first_match_witness :
  process_donation_message
    (mk_message "Bob and Alice: donated 500 coins" [] [] "900000000000000001")
    0 two_players
  = match add_donation "900000000000000001" "42" "Alice" 500 0 two_players with
    | (Return _, t') => (Some Tracked, t')
    | (Raise _, t') => (None, t')
    end.
Proof.
  apply (name_search_credits_first_match
           (mk_message "Bob and Alice: donated 500 coins" [] [] "900000000000000001")
           500 0 two_players [] [("43", "Bob")] "42" "Alice");
    try (vm_compute; reflexivity); repeat constructor.
Defined.

(** ** What a message can touch *)

Lemma touches_only_guild_bind {A B : Type} (g : string) (m : M A) (f : A -> M B) :
  touches_only_guild g m ->
  (forall a, touches_only_guild g (f a)) ->
  touches_only_guild g (bind m f).
Proof.
  intros Hm Hf t. unfold bind.
  destruct (Hm t) as [H1 [H2 H3]].
  destruct (m t) as [[a|e] t1]; cbn [snd] in *.
  - destruct (Hf a t1) as [K1 [K2 K3]].
    split; [congruence|]. split; [congruence|].
    intros g' Hne. rewrite (K3 g' Hne). now apply H3.
  - auto.
Qed.

Lemma touches_only_guild_ret {A : Type} (g : string) (a : A) :
  touches_only_guild g (ret a).
Proof. intros t. cbn. auto. Qed.

Lemma touches_only_guild_add_donation (g u name : string) (amount : Z)
  (now : instant) :
  touches_only_guild g (add_donation g u name amount now).
Proof.
  intros t.
  destruct (add_donation_frame t g u name amount now) as [H1 [_ [H2 H3]]].
  auto.
Qed.

Lemma touches_only_guild_credit_mentions (g : string) (users : list string)
  (amount : Z) (now : instant) (recorded : bool) :
  touches_only_guild g (credit_mentions g users amount now recorded).
Proof.
  revert recorded. induction users as [|u users IH]; intros recorded;
    cbn [credit_mentions].
  - apply touches_only_guild_ret.
  - intros t. destruct (is_player_registered t g u); [|apply IH].
    revert t. apply touches_only_guild_bind.
    + intros t.
      destruct (dget g (registered_players t)) as [players|];
        [destruct (dget u players)|]; cbn; auto.
    + intros name. apply touches_only_guild_bind.
      * apply touches_only_guild_add_donation.
      * intros _. apply IH.
Qed.

Lemma touches_only_guild_credit_by_name (g : string) (players : dict string)
  (text : string) (amount : Z) (now : instant) :
  touches_only_guild g (credit_by_name g players text amount now).
Proof.
  induction players as [|[u name] players IH]; cbn [credit_by_name].
  - apply touches_only_guild_ret.
  - destruct (Str.contains (Str.lower (clean_player_name name)) (Str.lower text));
      [|assumption].
    apply touches_only_guild_bind.
    + apply touches_only_guild_add_donation.
    + intros _. apply touches_only_guild_ret.
Qed.

Lemma touches_only_guild_attribute (m : message) (amount : Z) (now : instant) :
  touches_only_guild (guild_id m) (attribute_donation m amount now).
Proof.
  unfold attribute_donation.
  apply touches_only_guild_bind; [apply touches_only_guild_credit_mentions|].
  intros recorded. apply touches_only_guild_bind.
  - destruct recorded; [apply touches_only_guild_ret|].
    intros t. apply touches_only_guild_credit_by_name.
  - intros r. apply touches_only_guild_ret.
Qed.

(** X15. A message touches the ledger of its own guild only.  Whatever the
    message, processing it changes neither the players directory, nor the
    players file, nor anything stored under another guild. *)
Theorem process_donation_message_isolation
  (m : message) (now : instant) (t : tracker) :
  let after := snd (process_donation_message m now t) in
  registered_players after = registered_players t /\
  players_file after = players_file t /\
  forall g', g' <> guild_id m ->
    dget g' (donations_data after) = dget g' (donations_data t).
Proof.
  intros after. subst after. unfold process_donation_message.
  destruct (detect_donation m) as [[amount|]|e]; cbn [snd]; auto.
  pose proof (touches_only_guild_attribute m amount now t) as H.
  destruct (attribute_donation m amount now t) as [[r|e] t1]; cbn [snd] in *;
    assumption.
Qed.

(** ** Sorting by amount *)

Section SortedDesc.
Context {B : Type}.

Lemma insert_desc_perm (x : Z * B) (l : list (Z * B)) :
  Permutation (insert_desc x l) (x :: l).
Proof.
  induction l as [|y l IH]; cbn [insert_desc]; [reflexivity|].
  destruct (fst y <=? fst x); [reflexivity|].
  rewrite IH. apply perm_swap.
Qed.

Lemma sorted_desc_perm (l : list (Z * B)) : Permutation (sorted_desc l) l.
Proof.
  unfold sorted_desc. induction l as [|x l IH]; cbn [fold_right]; [reflexivity|].
  rewrite insert_desc_perm. now constructor.
Qed.

Lemma insert_desc_sorted (x : Z * B) (l : list (Z * B)) :
  StronglySorted (fun a b => fst b <= fst a) l ->
  StronglySorted (fun a b => fst b <= fst a) (insert_desc x l).
Proof.
  induction l as [|y l IH]; intros Hl; cbn [insert_desc].
  - repeat constructor.
  - inversion Hl as [|? ? Hs Hall]; subst.
    destruct (fst y <=? fst x) eqn:E.
    + apply Z.leb_le in E. constructor; [assumption|].
      constructor; [assumption|].
      rewrite Forall_forall in *. intros z Hz. specialize (Hall z Hz). lia.
    + apply Z.leb_gt in E. constructor; [now apply IH|].
      rewrite Forall_forall in *. intros z Hz.
      apply (Permutation_in _ (insert_desc_perm x l)) in Hz.
      destruct Hz as [<-|Hz]; [lia | now apply Hall].
Qed.

Lemma sorted_desc_sorted (l : list (Z * B)) :
  StronglySorted (fun a b => fst b <= fst a) (sorted_desc l).
Proof.
  unfold sorted_desc. induction l as [|x l IH]; cbn [fold_right].
  - constructor.
  - now apply insert_desc_sorted.
Qed.

End SortedDesc.

Lemma insert_desc_map {B C : Type} (f : Z * B -> Z * C) (x : Z * B)
  (l : list (Z * B)) :
  (forall y, fst (f y) = fst y) ->
  insert_desc (f x) (map f l) = map f (insert_desc x l).
Proof.
  intros Hf. induction l as [|y l IH]; cbn [insert_desc map]; [reflexivity|].
  rewrite !Hf. destruct (fst y <=? fst x); cbn [map]; [reflexivity|].
  now rewrite IH.
Qed.

Lemma sorted_desc_map {B C : Type} (f : Z * B -> Z * C) (l : list (Z * B)) :
  (forall y, fst (f y) = fst y) ->
  sorted_desc (map f l) = map f (sorted_desc l).
Proof.
  intros Hf. unfold sorted_desc.
  induction l as [|x l IH]; cbn [fold_right map]; [reflexivity|].
  now rewrite IH, insert_desc_map.
Qed.

(** The ranking of the windows: a permutation of the dictionary, in
    descending order of the amounts. *)
Lemma sorted_weekly_perm (w : dict Weekly.t) : Permutation (sorted_weekly w) w.
Proof.
  unfold sorted_weekly.
  rewrite (sorted_desc_perm (map (fun kv => (Weekly.amount (snd kv), kv)) w)).
  rewrite map_map. cbn [snd]. now rewrite map_id.
Qed.

Lemma sorted_by_key (l : list (Z * (string * Weekly.t))) :
  Forall (fun x => fst x = Weekly.amount (snd (snd x))) l ->
  StronglySorted (fun a b => fst b <= fst a) l ->
  descending (map (fun x => Weekly.amount (snd (snd x))) l).
Proof.
  unfold descending. induction l as [|x l IH]; intros Hk Hs; cbn [map].
  - constructor.
  - inversion Hk as [|? ? Hx Hl]; subst. inversion Hs as [|? ? Hs' Hall]; subst.
    constructor; [now apply IH|].
    rewrite Forall_forall in *. intros a Ha.
    apply in_map_iff in Ha as [y [<- Hy]].
    rewrite <- (Hl y Hy), <- Hx. now apply Hall.
Qed.

Lemma keyed_by_amount (w : dict Weekly.t) :
  Forall (fun x : Z * (string * Weekly.t) => fst x = Weekly.amount (snd (snd x)))
    (sorted_desc (map (fun kv => (Weekly.amount (snd kv), kv)) w)).
Proof.
  rewrite Forall_forall. intros x Hx.
  apply (Permutation_in _ (sorted_desc_perm _)) in Hx.
  apply in_map_iff in Hx as [kv [<- _]]. reflexivity.
Qed.

Lemma sorted_weekly_descending (w : dict Weekly.t) :
  descending (map (fun kv => Weekly.amount (snd kv)) (sorted_weekly w)).
Proof.
  unfold sorted_weekly. rewrite map_map.
  apply sorted_by_key; [apply keyed_by_amount | apply sorted_desc_sorted].
Qed.

Lemma sum_weekly_perm (l1 l2 : dict Weekly.t) :
  Permutation l1 l2 -> sum_weekly l1 = sum_weekly l2.
Proof.
  unfold sum_weekly. induction 1; cbn [fold_right]; lia.
Qed.

(** ** The weekly report on a store it can read *)

Lemma getitem_weekly (e : Weekly.t) :
  getitem (Weekly.to_json e) "name" = Return (JStr (Weekly.name e))
  /\ getitem (Weekly.to_json e) "amount" = Return (JInt (Weekly.amount e))
  /\ getitem (Weekly.to_json e) "donations"
     = Return (JList (map Donation.to_json (Weekly.donations e)))
  /\ getitem (Weekly.to_json e) "week_start" = Return (JTime (Weekly.week_start e)).
Proof. repeat split. Qed.

Lemma amount_keys_weekly (w : dict Weekly.t) :
  amount_keys (map (fun kv => (fst kv, Weekly.to_json (snd kv))) w)
  = Return (map (fun kv => (Weekly.amount (snd kv),
                            (fst kv, Weekly.to_json (snd kv)))) w).
Proof.
  induction w as [|[u e] w IH]; cbn [map amount_keys fst snd]; [reflexivity|].
  destruct (getitem_weekly e) as [_ [-> _]]. now rewrite IH.
Qed.

Lemma report_player_weekly (now : instant) (i : nat) (e : Weekly.t) :
  report_player now i (Weekly.amount e) (Weekly.to_json e)
  = Return (summary_line now i e).
Proof.
  unfold report_player.
  destruct (getitem_weekly e) as [-> [_ [-> ->]]].
  cbn [len fromisoformat]. now rewrite length_map.
Qed.

Lemma report_players_weekly (now : instant) (l : list (string * Weekly.t)) (i : nat) :
  report_players now i
    (map (fun kv => (Weekly.amount (snd kv), (fst kv, Weekly.to_json (snd kv)))) l)
  = Return (summary_lines now i (map snd l), sum_weekly l).
Proof.
  revert i. induction l as [|[u e] l IH]; intros i;
    cbn [map report_players fst snd]; [reflexivity|].
  rewrite report_player_weekly, IH. reflexivity.
Qed.

(** X16. On a store in the legacy shape, the one [generate_weekly_report] can
    read, the report is the sentence that nothing was recorded when the
    section is empty, and otherwise a summary that lists every window of
    the section once, in descending order of the amounts and ranked from 1,
    with the sum of all the amounts as the total and the number of windows
    as the number of donors. *)
Theorem weekly_report_ranks_by_amount
  (donations : dict json) (w : dict Weekly.t) (now : instant) :
  dget "weekly_donations" donations = Some (dict_to_json Weekly.to_json w) ->
  exists ranked : list Weekly.t,
    Permutation ranked (map snd w) /\
    descending (map Weekly.amount ranked) /\
    generate_weekly_report donations now
    = Return (match w with
              | [] => NoDonations
              | _ => Summary (summary_lines now 1 ranked) (sum_weekly w)
                       (List.length w)
              end).
Proof.
  intros Hd. exists (map snd (sorted_weekly w)).
  split; [apply Permutation_map, sorted_weekly_perm|].
  split.
  { rewrite map_map. apply sorted_weekly_descending. }
  unfold generate_weekly_report. rewrite Hd. unfold dict_to_json.
  destruct w as [|kv w]; [reflexivity|].
  set (w0 := kv :: w). cbn [falsy map].
  change ((fst kv, Weekly.to_json (snd kv))
          :: map (fun kv0 => (fst kv0, Weekly.to_json (snd kv0))) w)
    with (map (fun kv0 => (fst kv0, Weekly.to_json (snd kv0))) w0).
  rewrite amount_keys_weekly.
  replace (map (fun kv0 : string * Weekly.t =>
                  (Weekly.amount (snd kv0), (fst kv0, Weekly.to_json (snd kv0)))) w0)
    with (map (fun x : Z * (string * Weekly.t) =>
                 (fst x, (fst (snd x), Weekly.to_json (snd (snd x)))))
            (map (fun kv0 => (Weekly.amount (snd kv0), kv0)) w0))
    by (rewrite map_map; reflexivity).
  rewrite sorted_desc_map by reflexivity.
  rewrite length_map.
  rewrite (Permutation_length (sorted_desc_perm _)), length_map.
  replace (map (fun x : Z * (string * Weekly.t) =>
                  (fst x, (fst (snd x), Weekly.to_json (snd (snd x)))))
             (sorted_desc (map (fun kv0 => (Weekly.amount (snd kv0), kv0)) w0)))
    with (map (fun kv0 : string * Weekly.t =>
                 (Weekly.amount (snd kv0), (fst kv0, Weekly.to_json (snd kv0))))
            (sorted_weekly w0)).
  - rewrite report_players_weekly.
    now rewrite (sum_weekly_perm _ _ (sorted_weekly_perm w0)).
  - unfold sorted_weekly. rewrite map_map.
    apply map_ext_in. intros x Hx.
    pose proof (keyed_by_amount w0) as Hk. rewrite Forall_forall in Hk.
    rewrite <- (Hk x Hx). now destruct x as [a [u e]].
Qed.

Lemma weekly_report_ranks_by_amount_witness :
  exists ranked : list Weekly.t,
    Permutation ranked
      (map snd [("42", sample_entry); ("43", Weekly.mk "Bob" 250 [Donation.mk 250 5] 5)]) /\
    descending (map Weekly.amount ranked) /\
    generate_weekly_report
      [("weekly_donations",
        dict_to_json Weekly.to_json
          [("42", sample_entry); ("43", Weekly.mk "Bob" 250 [Donation.mk 250 5] 5)])]
      (2 * microseconds_per_day)
    = Return (Summary (summary_lines (2 * microseconds_per_day) 1 ranked)
                (sum_weekly
                   [("42", sample_entry);
                    ("43", Weekly.mk "Bob" 250 [Donation.mk 250 5] 5)])
                2).
Proof.
  apply (weekly_report_ranks_by_amount
           [("weekly_donations",
             dict_to_json Weekly.to_json
               [("42", sample_entry);
                ("43", Weekly.mk "Bob" 250 [Donation.mk 250 5] 5)])]
           [("42", sample_entry); ("43", Weekly.mk "Bob" 250 [Donation.mk 250 5] 5)]
           (2 * microseconds_per_day)).
  reflexivity.
Defined.

(** ** The leaderboard *)

Lemma leader_lines_length (d : dict Total.t) (now : instant) (i : nat)
  (l : list (string * Weekly.t)) :
  List.length (leader_lines d now i l) = List.length l.
Proof.
  revert i. induction l as [|x l IH]; intros i; cbn [leader_lines List.length];
    [reflexivity|]. now rewrite IH.
Qed.

Lemma leader_lines_rank (d : dict Total.t) (now : instant) (i : nat)
  (l : list (string * Weekly.t)) :
  map leader_rank (leader_lines d now i l) = List.seq i (List.length l).
Proof.
  revert i. induction l as [|[u e] l IH]; intros i;
    cbn [leader_lines map List.length List.seq]; [reflexivity|].
  now rewrite IH.
Qed.

Lemma leader_lines_weekly (d : dict Total.t) (now : instant) (i : nat)
  (l : list (string * Weekly.t)) :
  map leader_weekly (leader_lines d now i l)
  = map (fun kv => Weekly.amount (snd kv)) l.
Proof.
  revert i. induction l as [|[u e] l IH]; intros i; cbn [leader_lines map];
    [reflexivity|]. now rewrite IH.
Qed.

Lemma leader_lines_In (d : dict Total.t) (now : instant) (i : nat)
  (l : list (string * Weekly.t)) (line : leader_line) :
  In line (leader_lines d now i l) ->
  exists j item, In item l /\ line = leader_line_of d now j item.
Proof.
  revert i. induction l as [|x l IH]; intros i; cbn [leader_lines];
    [contradiction|].
  intros [<-|Hin].
  - exists i, x. split; [now left | reflexivity].
  - destruct (IH (S i) Hin) as [j [item [Hitem ->]]].
    exists j, item. split; [now right | reflexivity].
Qed.

Lemma leader_lines_shows (d : dict Total.t) (now : instant) (i : nat)
  (l : list (string * Weekly.t)) (u : string) (e : Weekly.t) :
  In (u, e) l ->
  exists line, In line (leader_lines d now i l)
               /\ leader_name line = Weekly.name e
               /\ leader_weekly line = Weekly.amount e.
Proof.
  revert i. induction l as [|[u0 e0] l IH]; intros i; [contradiction|].
  cbn [leader_lines]. intros [[= -> ->]|Hin].
  - exists (leader_line_of d now i (u, e)).
    split; [now left|]. split; reflexivity.
  - destruct (IH (S i) Hin) as [l0 [Hl0 Hrest]].
    exists l0. split; [now right | assumption].
Qed.

Lemma In_firstn {A : Type} (n : nat) (l : list A) (x : A) :
  In x (firstn n l) -> In x l.
Proof.
  intros H. rewrite <- (firstn_skipn n l). apply in_or_app. now left.
Qed.

Lemma descending_firstn (n : nat) (l : list Z) :
  descending l -> descending (firstn n l).
Proof.
  unfold descending. revert n. induction l as [|a l IH]; intros n Hl.
  - rewrite firstn_nil. constructor.
  - destruct n as [|n]; cbn [firstn]; [constructor|].
    inversion Hl as [|? ? Hs Hall]; subst.
    constructor; [now apply IH|].
    rewrite Forall_forall in *. intros b Hb. apply Hall.
    now apply (In_firstn n) in Hb.
Qed.

Lemma descending_split (l1 l2 : list Z) :
  descending (l1 ++ l2)%list ->
  forall a b, In a l1 -> In b l2 -> b <= a.
Proof.
  unfold descending. induction l1 as [|x l1 IH]; cbn [app]; intros Hs a b Ha Hb;
    [contradiction|].
  inversion Hs as [|? ? Hs' Hall]; subst.
  destruct Ha as [<-|Ha].
  - rewrite Forall_forall in Hall. apply Hall. apply in_or_app. now right.
  - now apply (IH Hs' a b).
Qed.

(** X17. The leaderboard of [weekly_donations] shows the ten highest
    windows: it has one line for each window of the guild, up to ten, ranked
    from 1 in descending order of the weekly amounts, and a window that is
    not shown has an amount no greater than the amount of any line shown. *)
Theorem leaderboard_shows_the_top_ten
  (w : dict Weekly.t) (d : dict Total.t) (now : instant) :
  let lines := weekly_leaderboard w d now in
  List.length lines = Nat.min 10 (List.length w) /\
  map leader_rank lines = List.seq 1 (List.length lines) /\
  descending (map leader_weekly lines) /\
  forall u e, In (u, e) w ->
    (exists l, In l lines /\ leader_name l = Weekly.name e
               /\ leader_weekly l = Weekly.amount e)
    \/ Forall (fun l => Weekly.amount e <= leader_weekly l) lines.
Proof.
  intros lines. subst lines. unfold weekly_leaderboard.
  pose proof (sorted_weekly_perm w) as Hperm.
  pose proof (sorted_weekly_descending w) as Hdesc.
  set (ranked := sorted_weekly w) in *.
  split.
  { rewrite leader_lines_length, length_firstn, (Permutation_length Hperm).
    reflexivity. }
  split.
  { rewrite leader_lines_rank, leader_lines_length. reflexivity. }
  split.
  { rewrite leader_lines_weekly, <- firstn_map. now apply descending_firstn. }
  intros u e Hin.
  apply (Permutation_in _ (Permutation_sym Hperm)) in Hin.
  rewrite <- (firstn_skipn 10 ranked) in Hin, Hdesc.
  apply in_app_or in Hin as [Hin|Hin].
  - left. exact (leader_lines_shows d now 1 _ u e Hin).
  - right. rewrite Forall_forall. intros l Hl.
    rewrite map_app in Hdesc.
    apply (descending_split _ _ Hdesc).
    + rewrite <- (leader_lines_weekly d now 1). now apply in_map.
    + apply (in_map (fun kv => Weekly.amount (snd kv))) in Hin. exact Hin.
Qed.

(** ** The time the leaderboard shows as left *)

Lemma hours_of_seconds (m : Z) :
  0 <= m ->
  (m / 1000000) / 3600 = m / microseconds_per_hour.
Proof.
  intros Hm. unfold microseconds_per_hour.
  rewrite Z.div_div by lia. reflexivity.
Qed.

Lemma time_shown_overshoots (d : dict Total.t) (now : instant) (i : nat)
  (u : string) (e : Weekly.t) :
  let l := leader_line_of d now i (u, e) in
  1 <= leader_hours l <= 24 /\
  (0 <= now - Weekly.week_start e < seven_days ->
   time_left now e + microseconds_per_day <= time_shown l
   /\ time_shown l < time_left now e + microseconds_per_day + microseconds_per_hour).
Proof.
  cbn [leader_line_of]. unfold time_shown, time_left. cbn [leader_days leader_hours].
  unfold timedelta_seconds, days_between, seven_days.
  set (delta := now - Weekly.week_start e).
  assert (Hday : microseconds_per_day = 24 * microseconds_per_hour) by reflexivity.
  assert (Hhour : 0 < microseconds_per_hour) by reflexivity.
  pose proof (Z.mod_pos_bound delta microseconds_per_day ltac:(reflexivity)) as Hm.
  set (m := delta mod microseconds_per_day) in *.
  rewrite (hours_of_seconds m) by lia.
  pose proof (Z.div_mod m microseconds_per_hour ltac:(lia)) as Hdm.
  pose proof (Z.mod_pos_bound m microseconds_per_hour Hhour) as Hmm.
  pose proof (Z.div_pos m microseconds_per_hour ltac:(lia) Hhour) as Hq0.
  assert (Hq : m / microseconds_per_hour < 24).
  { apply Z.div_lt_upper_bound; lia. }
  split; [lia|].
  intros [Hlo Hhi].
  pose proof (Z.div_mod delta microseconds_per_day ltac:(lia)) as Hdd.
  fold m in Hdd.
  pose proof (Z.div_pos delta microseconds_per_day Hlo ltac:(reflexivity)) as Hd0.
  assert (Hd7 : delta / microseconds_per_day < 7).
  { apply Z.div_lt_upper_bound; [reflexivity | lia]. }
  rewrite !Z.max_r by lia.
  replace (Weekly.week_start e + 7 * microseconds_per_day - now)
    with (7 * microseconds_per_day - delta) by (subst delta; lia).
  nia.
Qed.

(** X18. The time left that the leaderboard shows is a day too long.  Every
    line stands for a window of the guild; the hours it shows are never
    fewer than 1 nor more than 24; and for a window that is not yet seven
    days old, the days and hours shown exceed the time that is really left
    of the window by 24 hours at least and by less than 25. *)
Theorem leaderboard_time_left_overshoots
  (w : dict Weekly.t) (d : dict Total.t) (now : instant) (l : leader_line) :
  In l (weekly_leaderboard w d now) ->
  exists u e,
    In (u, e) w /\
    leader_name l = Weekly.name e /\
    leader_weekly l = Weekly.amount e /\
    1 <= leader_hours l <= 24 /\
    (0 <= now - Weekly.week_start e < seven_days ->
     time_left now e + microseconds_per_day <= time_shown l
     /\ time_shown l < time_left now e + microseconds_per_day + microseconds_per_hour).
Proof.
  unfold weekly_leaderboard. intros Hin.
  apply leader_lines_In in Hin as [j [[u e] [Hitem ->]]].
  apply In_firstn in Hitem. (* the ten first are among the ranked *)
  apply (Permutation_in _ (sorted_weekly_perm w)) in Hitem.
  exists u, e. split; [assumption|].
  split; [reflexivity|]. split; [reflexivity|].
  apply time_shown_overshoots.
Qed.

Lemma leaderboard_time_left_overshoots_witness :
  exists u e,
    In (u, e) [("42", sample_entry)] /\
    leader_name (mk_leader 1 "Alice" 100 100 1 1) = Weekly.name e /\
    leader_weekly (mk_leader 1 "Alice" 100 100 1 1) = Weekly.amount e /\
    1 <= leader_hours (mk_leader 1 "Alice" 100 100 1 1) <= 24 /\
    (0 <= seven_days - 1 - Weekly.week_start e < seven_days ->
     time_left (seven_days - 1) e + microseconds_per_day
     <= time_shown (mk_leader 1 "Alice" 100 100 1 1)
     /\ time_shown (mk_leader 1 "Alice" 100 100 1 1)
        < time_left (seven_days - 1) e + microseconds_per_day + microseconds_per_hour).
Proof.
  apply (leaderboard_time_left_overshoots
           [("42", sample_entry)]
           [("42", Total.mk "Alice" 100 [Donation.mk 100 0])]
           (seven_days - 1) (mk_leader 1 "Alice" 100 100 1 1)).
  vm_compute. left. reflexivity.
Defined.

(** ** The statistics of a player *)

Lemma keeps_players_cleanup (now : instant) :
  keeps_players (cleanup_expired_weeks now).
Proof.
  intros t. unfold cleanup_expired_weeks.
  destruct (cleanup_guilds now (donations_data t)) as [d n].
  now destruct (0 <? n)%nat.
Qed.

Lemma keeps_players_run_ops (ops : list op) : keeps_players (run_ops ops).
Proof.
  unfold run_ops. induction ops as [|o ops IH]; cbn [for_each].
  - apply keeps_players_ret.
  - apply keeps_players_bind; [|intros _; assumption].
    destruct o as [g u name amount now|now]; cbn [run_op].
    + apply keeps_players_add_donation.
    + apply keeps_players_cleanup.
Qed.

Lemma must_register_ext (c : ctx) (t t' : tracker) :
  registered_players t' = registered_players t ->
  must_register c t' = must_register c t.
Proof.
  intros H. unfold must_register.
  now rewrite (is_player_registered_ext t t' _ _ H).
Qed.

Lemma get_registered_players_ext (t t' : tracker) (g : string) :
  registered_players t' = registered_players t ->
  get_registered_players t' g = get_registered_players t g.
Proof. intros H. unfold get_registered_players. now rewrite H. Qed.

(** What [player_stats] answers for a player that is found. *)
Lemma player_stats_found (c : ctx) (query u name : string) (t : tracker) :
  must_register c t = false ->
  query <> "" ->
  u <> "" ->
  find_player (get_registered_players t (ctx_guild c)) query = Some (u, name) ->
  exists weekly_amount weekly_count,
    player_stats c (Some query) t
    = PlayerStats name weekly_amount weekly_count
        (total_amount t (ctx_guild c) u)
        (List.length (total_events t (ctx_guild c) u))
        (if (0 <? List.length (total_events t (ctx_guild c) u))%nat
         then Some (total_amount t (ctx_guild c) u
                    / Z.of_nat (List.length (total_events t (ctx_guild c) u)))
         else None).
Proof.
  intros Hreg Hq Hu Hfind. unfold player_stats. rewrite Hreg.
  destruct query as [|a query]; [contradiction|]. cbn [truthy].
  rewrite Hfind.
  destruct u as [|b u]; [contradiction|].
  unfold total_amount, total_events.
  destruct (dget (String b u) (get_weekly_donations t (ctx_guild c))) as [we|];
    destruct (dget (String b u) (get_total_donations t (ctx_guild c))) as [te|];
    eexists; eexists; reflexivity.
Qed.

(** X19. What [player_stats] shows is what was credited.  For a caller who
    may use the command and a player who is found by name, whatever the
    case of the letters, the names of the guild and the name asked for
    being ASCII text, after any history of appends and sweeps on a complete
    store the all-time amount shown is the former one plus the sum of the
    donations appended for the player, the number of donations shown is the
    former one plus their number, and the average shown is the quotient of
    the two, rounded down, when there is a donation. *)
Theorem player_stats_after_history
  (t : tracker) (ops : list op) (c : ctx) (query u name : string) :
  Str.is_ascii query = true ->
  all_ascii (map snd (get_registered_players t (ctx_guild c))) ->
  sections_present (donations_data t) ->
  must_register c t = false ->
  query <> "" ->
  u <> "" ->
  find_player (get_registered_players t (ctx_guild c)) query = Some (u, name) ->
  let g := ctx_guild c in
  let total := total_amount t g u + sum_amounts (appended g u ops) in
  let count :=
    (List.length (total_events t g u) + List.length (appended g u ops))%nat in
  exists weekly_amount weekly_count,
    player_stats c (Some query) (snd (run_ops ops t))
    = PlayerStats name weekly_amount weekly_count total count
        (if (0 <? count)%nat then Some (total / Z.of_nat count) else None).
Proof.
  intros _ _ Hsec Hreg Hq Hu Hfind g total count. subst g total count.
  pose proof (keeps_players_run_ops ops t) as Hkeep.
  destruct (run_ops_total ops t Hsec) as [_ Hall].
  destruct (Hall (ctx_guild c) u) as [Hev Ham].
  destruct (player_stats_found c query u name (snd (run_ops ops t)))
    as [wa [wc Hstats]]; try assumption.
  - now rewrite (must_register_ext c t _ Hkeep).
  - now rewrite (get_registered_players_ext t _ _ Hkeep).
  - exists wa, wc. rewrite Hstats, Hev, Ham, length_app. reflexivity.
Qed.

Lemma player_stats_after_history_witness :
  exists weekly_amount weekly_count,
    player_stats (mk_ctx "900000000000000001" "43" false) (Some "ALICE")
      (snd (run_ops sample_history two_players))
    = PlayerStats "Alice" weekly_amount weekly_count
        (total_amount two_players "900000000000000001" "42"
         + sum_amounts (appended "900000000000000001" "42" sample_history))
        (List.length (total_events two_players "900000000000000001" "42")
         + List.length (appended "900000000000000001" "42" sample_history))
        (if (0 <? List.length (total_events two_players "900000000000000001" "42")
                   + List.length (appended "900000000000000001" "42" sample_history))%nat
         then Some ((total_amount two_players "900000000000000001" "42"
                     + sum_amounts (appended "900000000000000001" "42" sample_history))
                    / Z.of_nat
                        (List.length (total_events two_players "900000000000000001" "42")
                         + List.length
                             (appended "900000000000000001" "42" sample_history)))
         else None).
Proof.
  apply (player_stats_after_history two_players sample_history
           (mk_ctx "900000000000000001" "43" false) "ALICE" "42" "Alice").
  - reflexivity.
  - repeat constructor.
  - intros g gd H. cbn in H. contradiction.
  - reflexivity.
  - discriminate.
  - discriminate.
  - reflexivity.
Defined.

(** ** The manual donation *)








(** ** The daily task *)

Lemma dkeys_cleanup_guilds (now : instant) (d : dict guild_data) :
  dkeys (fst (cleanup_guilds now d)) = dkeys d.
Proof.
  unfold dkeys. induction d as [|[g gd] d IH]; cbn; [reflexivity|].
  destruct (cleanup_guild now gd) as [gd' n].
  destruct (cleanup_guilds now d) as [d' m]. cbn in *. now rewrite IH.
Qed.

(** X21. The daily task never posts a summary.  On a store whose guild ids
    are strings of digits, [daily_cleanup] leaves the tracker as the sweep
    leaves it; on a Sunday on which the channel is found it then raises
    [KeyError], the report being asked of a store that has no
    ["weekly_donations"] key at its top level; on any other day, and when
    the channel is not found, it returns without a text to post. *)
Theorem daily_cleanup_never_posts
  (render : report -> string) (now : instant) (channel : bool) (t : tracker) :
  Forall (fun g => Str.isdigit g = true) (dkeys (donations_data t)) ->
  let after := daily_cleanup render now channel t in
  snd after = snd (cleanup_expired_weeks now t) /\
  fst after
  = if (weekday now =? 6) && channel then Raise KeyError else Return None.
Proof.
  intros Hkeys after. subst after. unfold daily_cleanup.
  pose proof (cleanup_expired_weeks_returns now t) as Hret.
  pose proof (cleanup_expired_weeks_data now t) as Hdata.
  destruct (cleanup_expired_weeks now t) as [r t1] eqn:E. cbn [fst snd] in *.
  subst r. rewrite (bind_return _ _ _ _ _ E).
  destruct (weekday now =? 6); cbn [andb]; [|now split].
  destruct channel; [|now split].
  rewrite generate_weekly_report_on_store; [now split|].
  now rewrite Hdata, dkeys_cleanup_guilds.
Qed.

Lemma daily_cleanup_never_posts_witness :
  snd (daily_cleanup (fun _ => "Weekly Donation Summary") (3 * microseconds_per_day)
         true sample_tracker)
  = snd (cleanup_expired_weeks (3 * microseconds_per_day) sample_tracker) /\
  fst (daily_cleanup (fun _ => "Weekly Donation Summary") (3 * microseconds_per_day)
         true sample_tracker)
  = if (weekday (3 * microseconds_per_day) =? 6) && true
    then Raise KeyError else Return None.
Proof.
  apply (daily_cleanup_never_posts (fun _ => "Weekly Donation Summary")
           (3 * microseconds_per_day) true sample_tracker).
  repeat constructor.
Defined.

(** ** Chunks *)

Lemma firstn_add_skipn {A : Type} (a b : nat) (l : list A) :
  firstn (a + b) l = (firstn a l ++ firstn b (skipn a l))%list.
Proof.
  revert l. induction a as [|a IH]; intros l; cbn; [reflexivity|].
  destruct l as [|x l]; cbn; [now rewrite firstn_nil | now rewrite IH].
Qed.

(** The first [m] slices of width [k], put end to end, are the first
    [m * k] elements. *)
Lemma concat_slices {A : Type} (k : nat) (l : list A) (m : nat) :
  List.concat (map (fun i => firstn k (skipn i l))
            (map (fun j => (j * k)%nat) (List.seq 0 m)))
  = firstn (m * k) l.
Proof.
  induction m as [|m IH]; [reflexivity|].
  rewrite seq_S, !map_app, concat_app, IH. cbn [map List.concat Nat.add].
  rewrite app_nil_r, <- firstn_add_skipn. f_equal. lia.
Qed.

(** The number of slices, the length over the width rounded up: the slices
    cover the list, and go past its end by less than one width. *)
Lemma ceiling_bounds (n k : nat) :
  (0 < k)%nat ->
  (n <= (n + k - 1) / k * k)%nat
  /\ ((n + k - 1) / k * k < n + k)%nat.
Proof.
  intros Hk.
  pose proof (Nat.div_mod_eq (n + k - 1) k) as Hd.
  pose proof (Nat.mod_upper_bound (n + k - 1) k ltac:(lia)) as Hm.
  split; nia.
Qed.

Lemma slice_length {A : Type} (k j : nat) (l : list A) :
  List.length (firstn k (skipn (j * k) l))
  = Nat.min k (List.length l - j * k).
Proof. now rewrite length_firstn, length_skipn. Qed.

(** X22. [chunk_list] cuts a list into consecutive chunks.  For a positive
    size the chunks, put end to end, are the list; no chunk is empty or
    longer than the size, and every chunk but the last has exactly the
    size.  A size of zero raises [ValueError]; a negative size returns no
    chunk at all, whatever the list. *)
Theorem chunk_list_partitions {A : Type} (lst : list A) :
  (forall chunk_size, 0 < chunk_size ->
     exists chunks,
       chunk_list lst chunk_size = Return chunks /\
       List.concat chunks =lst /\
       Forall (fun c => 1 <= Z.of_nat (List.length c) <= chunk_size) chunks /\
       forall i, (S i < List.length chunks)%nat ->
         Z.of_nat (List.length (nth i chunks [])) = chunk_size) /\
  chunk_list lst 0 = Raise ValueError /\
  (forall chunk_size, chunk_size < 0 -> chunk_list lst chunk_size = Return []).
Proof.
  split; [|split].
  - intros chunk_size Hpos.
    unfold chunk_list, range_by.
    destruct (Z.eqb_spec chunk_size 0) as [->|_]; [lia|].
    destruct (Z.ltb_spec chunk_size 0) as [Hneg|_]; [lia|].
    set (k := Z.to_nat chunk_size).
    assert (Hk : (0 < k)%nat) by (subst k; lia).
    assert (Hsize : chunk_size = Z.of_nat k) by (subst k; lia).
    set (n := List.length lst).
    set (m := ((n + k - 1) / k)%nat).
    destruct (ceiling_bounds n k Hk) as [Hcover Hlast]. fold m in Hcover, Hlast.
    eexists. split; [reflexivity|].
    split.
    { rewrite concat_slices. apply firstn_all2. exact Hcover. }
    rewrite map_map.
    split.
    { rewrite Forall_forall. intros c Hc.
      apply in_map_iff in Hc as [j [<- Hj]]. apply in_seq in Hj.
      rewrite slice_length. fold n.
      assert (j * k < n)%nat by nia. lia. }
    intros i Hi. rewrite length_map, length_seq in Hi.
    rewrite (nth_indep _ [] (firstn k (skipn (0 * k) lst)))
      by (rewrite length_map, length_seq; lia).
    rewrite (map_nth (fun j => firstn k (skipn (j * k) lst)) (List.seq 0 m) 0%nat i).
    rewrite seq_nth by lia. cbn [Nat.add].
    rewrite slice_length. fold n.
    assert ((i + 1) * k < n)%nat by nia. nia.
  - reflexivity.
  - intros chunk_size Hneg. unfold chunk_list, range_by.
    destruct (Z.eqb_spec chunk_size 0) as [->|_]; [lia|].
    destruct (Z.ltb_spec chunk_size 0) as [_|Hge]; [reflexivity | lia].
Qed.

Lemma chunk_list_partitions_witness :
  exists chunks,
    chunk_list ["a"; "b"; "c"; "d"; "e"; "f"; "g"] 3 = Return chunks /\
    List.concat chunks =["a"; "b"; "c"; "d"; "e"; "f"; "g"] /\
    Forall (fun c => 1 <= Z.of_nat (List.length c) <= 3) chunks /\
    forall i, (S i < List.length chunks)%nat ->
      Z.of_nat (List.length (nth i chunks [])) = 3.
Proof.
  apply (proj1 (chunk_list_partitions ["a"; "b"; "c"; "d"; "e"; "f"; "g"]) 3).
  reflexivity.
Defined.

(** ** The streak *)

Lemma forallb_perm {A : Type} (p : A -> bool) (l1 l2 : list A) :
  Permutation l1 l2 -> forallb p l1 = forallb p l2.
Proof.
  induction 1 as [|x l1 l2 _ IH|x y l|l1 l2 l3 _ IH1 _ IH2]; cbn [forallb].
  - reflexivity.
  - now rewrite IH.
  - now rewrite !andb_assoc, (andb_comm (p y) (p x)).
  - now rewrite IH1.
Qed.

(** While the donations are dated as the date reached, the streak goes from
    0 to 1 and stays. *)
Lemma streak_loop_same_day (l : list Donation.t) (streak date : Z) :
  forallb (fun d => date_of (Donation.timestamp d) =? date) l = true ->
  streak_loop l streak date
  = Return (match l with
            | [] => streak
            | _ => if streak =? 0 then 1 else streak
            end).
Proof.
  revert streak. induction l as [|d l IH]; intros streak; cbn [forallb streak_loop];
    [reflexivity|].
  intros H. apply andb_true_iff in H as [Hd Hl].
  rewrite Hd. apply Z.eqb_eq in Hd. rewrite Hd, (IH _ Hl).
  destruct l as [|d' l]; [reflexivity|].
  destruct (Z.eqb_spec streak 0) as [->|Hne]; [reflexivity|].
  apply Z.eqb_neq in Hne. now rewrite Hne.
Qed.

(** The first donation of another date makes the loop look up
    [timezone.timedelta]. *)
Lemma streak_loop_other_day (l : list Donation.t) (streak date : Z) :
  forallb (fun d => date_of (Donation.timestamp d) =? date) l = false ->
  streak_loop l streak date = Raise AttributeError.
Proof.
  revert streak. induction l as [|d l IH]; intros streak; cbn [forallb streak_loop];
    [discriminate|].
  destruct (date_of (Donation.timestamp d) =? date) eqn:Hd; cbn [andb].
  - intros Hl. apply Z.eqb_eq in Hd. rewrite Hd. now apply IH.
  - reflexivity.
Qed.

(** X23. [calculate_donation_streak] never counts a streak above one day.
    It returns 0 for no donation and 1 when every donation is dated today;
    as soon as a donation is dated another day, the loop reaches the
    expression [timezone.timedelta], which does not exist, and the function
    raises [AttributeError]. *)
Theorem donation_streak_is_at_most_one (donations : list Donation.t) (now : instant) :
  calculate_donation_streak donations now
  = match donations with
    | [] => Return 0
    | _ => if all_today donations now then Return 1 else Raise AttributeError
    end.
Proof.
  unfold calculate_donation_streak, all_today.
  destruct donations as [|d0 donations]; [reflexivity|].
  set (ds := d0 :: donations).
  set (sorted :=
         map snd (sorted_desc (map (fun d => (Donation.timestamp d, d)) ds))).
  assert (Hperm : Permutation sorted ds).
  { subst sorted. rewrite (sorted_desc_perm _), map_map. cbn [snd].
    now rewrite map_id. }
  rewrite <- (forallb_perm _ _ _ Hperm).
  destruct (forallb (fun d => date_of (Donation.timestamp d) =? date_of now) sorted)
    eqn:E.
  - rewrite (streak_loop_same_day _ _ _ E).
    destruct sorted as [|s sorted']; [|reflexivity].
    apply Permutation_nil in Hperm. discriminate.
  - now apply streak_loop_other_day.
Qed.

(** ** Decimal digits *)

Lemma digit_char_spec (d : Z) :
  0 <= d < 10 ->
  Str.is_digit (digit_char d) = true
  /\ Z.of_N (N_of_ascii (digit_char d)) - 48 = d.
Proof.
  intros H.
  assert (Hd : d = 0 \/ d = 1 \/ d = 2 \/ d = 3 \/ d = 4 \/ d = 5 \/ d = 6
               \/ d = 7 \/ d = 8 \/ d = 9) by lia.
  repeat (destruct Hd as [->|Hd]; [split; reflexivity|]).
  subst d. split; reflexivity.
Qed.

Lemma decimal_value_append (s1 s2 : string) (a : Z) :
  decimal_value a (s1 ++ s2) = decimal_value (decimal_value a s1) s2.
Proof.
  revert a. induction s1 as [|c s1 IH]; intros a; cbn [append decimal_value];
    [reflexivity|]. apply IH.
Qed.

Lemma digits_upto_step (f : nat) (n : Z) (acc : string) :
  digits_upto (S f) n acc
  = if n <? 10 then String (digit_char (n mod 10)) acc
    else digits_upto f (n / 10) (String (digit_char (n mod 10)) acc).
Proof. reflexivity. Qed.

(** The digits [digits_upto] produces with fuel to spare: a non-empty string
    of digits whose value is [n], no longer than the power of ten that
    bounds [n] says. *)
Lemma digits_upto_spec (f : nat) (n : Z) (acc : string) :
  0 <= n < 2 ^ Z.of_nat (S f) ->
  exists ds,
    digits_upto (S f) n acc = ds ++ acc
    /\ Str.isdigit ds = true
    /\ (forall a, decimal_value a ds = a * 10 ^ Z.of_nat (length ds) + n)
    /\ (forall k, 1 <= k -> n < 10 ^ k -> Z.of_nat (length ds) <= k).
Proof.
  revert n acc. induction f as [|f IH]; intros n acc Hn.
  - change (2 ^ Z.of_nat 1) with 2 in Hn.
    destruct (digit_char_spec (n mod 10)) as [Hd Hv];
      [apply Z.mod_pos_bound; lia|].
    exists (String (digit_char (n mod 10)) "").
    rewrite digits_upto_step. destruct (Z.ltb_spec n 10) as [_|Hge]; [|lia].
    split; [reflexivity|]. split; [cbn; now rewrite Hd|].
    split.
    + intros a. cbn [decimal_value length]. rewrite Hv.
      rewrite Z.mod_small by lia. change (10 ^ Z.of_nat 1) with 10. lia.
    + intros k Hk _. cbn [length]. lia.
  - destruct (digit_char_spec (n mod 10)) as [Hd Hv];
      [apply Z.mod_pos_bound; lia|].
    rewrite digits_upto_step.
    destruct (Z.ltb_spec n 10) as [Hlt|Hge].
    + exists (String (digit_char (n mod 10)) "").
      split; [reflexivity|]. split; [cbn; now rewrite Hd|].
      split.
      * intros a. cbn [decimal_value length]. rewrite Hv.
        rewrite Z.mod_small by lia. change (10 ^ Z.of_nat 1) with 10. lia.
      * intros k Hk _. cbn [length]. lia.
    + assert (Hpow : 2 ^ Z.of_nat (S (S f)) = 2 * 2 ^ Z.of_nat (S f)).
      { rewrite (Nat2Z.inj_succ (S f)). apply Z.pow_succ_r. lia. }
      assert (Hq : 0 <= n / 10 < 2 ^ Z.of_nat (S f)).
      { split; [apply Z.div_pos; lia|].
        apply Z.div_lt_upper_bound; lia. }
      destruct (IH (n / 10) (String (digit_char (n mod 10)) acc) Hq)
        as [ds [Hrun [Hds [Hval Hlen]]]].
      exists (ds ++ String (digit_char (n mod 10)) "").
      split.
      { rewrite Hrun, append_assoc. reflexivity. }
      split.
      { apply isdigit_append; [assumption|]. cbn. now rewrite Hd. }
      split.
      * intros a. rewrite decimal_value_append, Hval.
        cbn [decimal_value]. rewrite Hv, length_append. cbn [length].
        rewrite Nat.add_1_r, Nat2Z.inj_succ, Z.pow_succ_r by lia.
        pose proof (Z.div_mod n 10 ltac:(lia)). lia.
      * intros k Hk Hn10. rewrite length_append. cbn [length].
        rewrite Nat.add_1_r, Nat2Z.inj_succ.
        assert (Hk2 : 2 <= k).
        { destruct (Z.eq_dec k 1) as [->|]; [|lia].
          change (10 ^ 1) with 10 in Hn10. lia. }
        assert (1 <= k - 1) by lia.
        assert (n / 10 < 10 ^ (k - 1)).
        { apply Z.div_lt_upper_bound; [lia|].
          rewrite <- Z.pow_succ_r by lia.
          replace (Z.succ (k - 1)) with k by lia. assumption. }
        specialize (Hlen (k - 1) ltac:(lia) ltac:(assumption)). lia.
Qed.

(** [decimal n] is the decimal writing of [n]. *)
Lemma decimal_spec (n : Z) :
  0 <= n ->
  Str.isdigit (decimal n) = true
  /\ decimal_value 0 (decimal n) = n
  /\ (forall k, 1 <= k -> n < 10 ^ k -> Z.of_nat (length (decimal n)) <= k).
Proof.
  intros Hn. unfold decimal.
  assert (Hfuel : 0 <= n < 2 ^ Z.of_nat (S (Z.to_nat (Z.log2 n)))).
  { split; [assumption|].
    rewrite Nat2Z.inj_succ, Z2Nat.id by apply Z.log2_nonneg.
    destruct (Z.eq_dec n 0) as [->|Hne]; [reflexivity|].
    apply Z.log2_spec. lia. }
  destruct (digits_upto_spec _ n "" Hfuel) as [ds [Hrun [Hds [Hval Hlen]]]].
  rewrite Hrun, append_empty_r.
  split; [assumption|]. split; [|assumption].
  rewrite Hval. lia.
Qed.

(** ** Thousands *)

Lemma number_text_cons (c : ascii) (u : string) :
  Str.is_digit c = true -> number_text u -> number_text (String c u).
Proof.
  intros Hc [ds Hds|ds v Hds Hv].
  - apply number_last. apply isdigit_all_digits in Hds. cbn. now rewrite Hc.
  - change (String c (ds ++ "," ++ v)) with (String c ds ++ "," ++ v).
    apply number_more; [|assumption].
    apply isdigit_all_digits in Hds. cbn. now rewrite Hc.
Qed.

Lemma group_thousands_number_text (ds : string) :
  Str.isdigit ds = true -> number_text (group_thousands ds).
Proof.
  induction ds as [|c ds IH]; [discriminate|].
  cbn [Str.isdigit Str.all_digits]. intros H.
  apply andb_true_iff in H as [Hc Hds].
  cbn [group_thousands].
  destruct ds as [|c' ds].
  - cbn. apply number_last. cbn. now rewrite Hc.
  - assert (Hrest : number_text (group_thousands (String c' ds))) by now apply IH.
    destruct (negb (length (String c' ds) =? 0)%nat
              && (length (String c' ds) mod 3 =? 0)%nat).
    + change (String c (String "," (group_thousands (String c' ds))))
        with (String c "" ++ "," ++ group_thousands (String c' ds)).
      apply number_more; [cbn; now rewrite Hc | assumption].
    + now apply number_text_cons.
Qed.

Lemma without_commas_group (ds : string) :
  Str.all_digits ds = true -> without_commas (group_thousands ds) = ds.
Proof.
  induction ds as [|c ds IH]; [reflexivity|].
  cbn [Str.all_digits]. intros H. apply andb_true_iff in H as [Hc Hds].
  cbn [group_thousands].
  rewrite without_commas_step, (digit_is_not_comma c Hc).
  destruct (negb (length ds =? 0)%nat && (length ds mod 3 =? 0)%nat).
  - rewrite without_commas_step. cbn [Ascii.eqb Bool.eqb]. now rewrite IH.
  - now rewrite IH.
Qed.

(** The text of a formatted natural number: a number text that embeds the
    number, with the digits of the number. *)
Lemma format_number_spec (n : Z) :
  0 <= n ->
  number_text (format_number n)
  /\ embedded_integer (format_number n) = n
  /\ digit_count (format_number n) = length (decimal n).
Proof.
  intros Hn. unfold format_number.
  destruct (Z.ltb_spec n 0) as [Hneg|_]; [lia|].
  destruct (decimal_spec n Hn) as [Hds [Hval _]].
  split; [now apply group_thousands_number_text|].
  unfold embedded_integer, digit_count.
  rewrite replace_commas, without_commas_group by now apply isdigit_all_digits.
  now split.
Qed.

(** ** Lower case *)

Lemma lower_append (s1 s2 : string) :
  Str.lower (s1 ++ s2) = Str.lower s1 ++ Str.lower s2.
Proof.
  induction s1 as [|c s1 IH]; cbn [append Str.lower]; [reflexivity|].
  now rewrite IH.
Qed.

Lemma lower_char_numchar (c : ascii) : numchar c = true -> Str.lower_char c = c.
Proof.
  destruct c as [[] [] [] [] [] [] [] []]; vm_compute; intros H;
    (reflexivity || discriminate).
Qed.

Lemma lower_numchars (s : string) : all_numchars s = true -> Str.lower s = s.
Proof.
  induction s as [|c s IH]; [reflexivity|].
  cbn [all_numchars Str.lower]. intros H. apply andb_true_iff in H as [Hc Hs].
  now rewrite (lower_char_numchar c Hc), IH.
Qed.

Lemma phrasings_lower :
  forallb (fun p => String.eqb (Str.lower (fst p)) (fst p)
                    && String.eqb (Str.lower (snd p)) (snd p)) phrasings = true.
Proof. vm_compute. reflexivity. Qed.

Lemma lower_phrasing (i : nat) (d : string) :
  (i < 17)%nat -> all_numchars d = true ->
  Str.lower (phrasing i d) = phrasing i d.
Proof.
  intros Hi Hd. unfold phrasing.
  pose proof phrasings_lower as H. rewrite forallb_forall in H.
  specialize (H (nth i phrasings ("", ""))
                (nth_In phrasings ("", "") Hi)).
  apply andb_true_iff in H as [H1 H2].
  apply String.eqb_eq in H1, H2.
  now rewrite !lower_append, H1, H2, (lower_numchars d Hd).
Qed.

(** X24. An amount written by [format_number] is read back.  For a natural
    number of at most 4300 digits, the text [format_number] writes (the
    digits in groups of three, separated by commas) is a number text that
    embeds the number, and [parse_donation_message] finds the number in the
    phrasing of each of the seventeen rules around that text. *)
Theorem formatted_amount_is_read_back (n : Z) :
  0 <= n ->
  n < 10 ^ 4300 ->
  number_text (format_number n) /\
  embedded_integer (format_number n) = n /\
  forall i, (i < 17)%nat ->
    parse_donation_message (phrasing i (format_number n)) = Return (Some n).
Proof.
  intros Hn Hmax.
  destruct (format_number_spec n Hn) as [Htext [Hval Hcount]].
  split; [assumption|]. split; [assumption|].
  intros i Hi.
  destruct (phrasings_ok (format_number n) Htext i Hi) as [Hkey [Hamount _]].
  rewrite parse_donation_message_total.
  rewrite (lower_phrasing i (format_number n) Hi
             (number_text_numchars _ Htext)).
  rewrite Hkey, Hamount, Hval; [reflexivity|].
  rewrite Hcount. unfold int_max_str_digits.
  destruct (decimal_spec n Hn) as [_ [_ Hlen]].
  specialize (Hlen 4300 ltac:(lia) Hmax). lia.
Qed.

Lemma formatted_amount_is_read_back_witness :
  number_text (format_number 1234567) /\
  embedded_integer (format_number 1234567) = 1234567 /\
  forall i, (i < 17)%nat ->
    parse_donation_message (phrasing i (format_number 1234567))
    = Return (Some 1234567).
Proof.
  apply (formatted_amount_is_read_back 1234567).
  - lia.
  - apply Z.ltb_lt. vm_compute. reflexivity.
Defined.

(** ** Mentions *)

Lemma rmatch_opt_skip {A : Type} (a : ascii) (k : @cont A) c (b : ascii) (s : string) :
  Ascii.eqb a b = false ->
  rmatch (Opt (Chr a)) k c (String b s) = k c (String b s).
Proof. intros H. cbn [rmatch]. now rewrite H. Qed.

Lemma rmatch_opt_take {A : Type} (a : ascii) (k : @cont A) c (s : string) :
  rmatch (Opt (Chr a)) k c (String a s)
  = match k c s with
    | Some x => Some x
    | None => k c (String a s)
    end.
Proof. cbn [rmatch]. now rewrite Ascii.eqb_refl. Qed.

Lemma mention_matches (d rest : string) :
  Str.isdigit d = true ->
  re_match mention_pattern ("<@" ++ d ++ ">" ++ rest)
  = Some (Some (d ++ ">" ++ rest, ">" ++ rest))
  /\ re_match mention_pattern ("<@!" ++ d ++ ">" ++ rest)
     = Some (Some (d ++ ">" ++ rest, ">" ++ rest)).
Proof.
  intros Hd.
  assert (Hgroup : forall c,
            rmatch (Cat (Group (Plus digit)) (Chr ">")) found c (d ++ ">" ++ rest)
            = Some (Some (d ++ ">" ++ rest, ">" ++ rest))).
  { intros c. cbn [rmatch].
    apply plus_digit_greedy; [assumption | reflexivity | reflexivity]. }
  destruct d as [|a d]; [discriminate|].
  assert (Ha : Ascii.eqb "!" a = false).
  { cbn [Str.isdigit Str.all_digits] in Hd. apply andb_true_iff in Hd as [Ha _].
    destruct (Ascii.eqb_spec "!" a) as [<-|]; [discriminate | reflexivity]. }
  unfold re_match, mention_pattern. cbn [seq].
  split.
  - rewrite rmatch_cat, (rmatch_lit "<@") by discriminate.
    rewrite rmatch_cat. change (String a d ++ ">" ++ rest)
      with (String a (d ++ ">" ++ rest)).
    rewrite rmatch_opt_skip by assumption.
    apply (Hgroup None).
  - change ("<@!" ++ String a d ++ ">" ++ rest)
      with ("<@" ++ String "!" (String a d ++ ">" ++ rest)).
    rewrite rmatch_cat, (rmatch_lit "<@") by discriminate.
    rewrite rmatch_cat, rmatch_opt_take.
    now rewrite (Hgroup None).
Qed.

(** X25. [parse_mention] reads back the id of a mention.  For a user id that
    is a natural number of at most 4300 digits, written in decimal between
    the opening characters of a mention, with or without the exclamation
    mark, and the closing bracket, the id is returned, whatever text
    follows the bracket. *)
Theorem parse_mention_reads_the_id (n : Z) (rest : string) :
  0 <= n ->
  n < 10 ^ 4300 ->
  parse_mention ("<@" ++ decimal n ++ ">" ++ rest) = Return (Some n)
  /\ parse_mention ("<@!" ++ decimal n ++ ">" ++ rest) = Return (Some n).
Proof.
  intros Hn Hmax.
  destruct (decimal_spec n Hn) as [Hds [Hval Hlen]].
  destruct (mention_matches (decimal n) rest Hds) as [H1 H2].
  assert (Hint : py_int (decimal n) = Some n).
  { unfold py_int. rewrite Hds, Hval.
    replace (length (decimal n) <=? int_max_str_digits)%nat with true;
      [reflexivity|].
    symmetry. apply Nat.leb_le. unfold int_max_str_digits.
    specialize (Hlen 4300 ltac:(lia) Hmax). lia. }
  unfold parse_mention. rewrite H1, H2, group1_span, Hint. now split.
Qed.

Lemma parse_mention_reads_the_id_witness :
  parse_mention ("<@" ++ decimal 571027211407196161 ++ ">" ++ " donated")
  = Return (Some 571027211407196161)
  /\ parse_mention ("<@!" ++ decimal 571027211407196161 ++ ">" ++ " donated")
     = Return (Some 571027211407196161).
Proof.
  apply (parse_mention_reads_the_id 571027211407196161 " donated").
  - lia.
  - apply Z.ltb_lt. vm_compute. reflexivity.
Defined.

(** ** Player names *)

Lemma length_rev_onto (s acc : string) :
  length (Str.rev_onto s acc) = (length s + length acc)%nat.
Proof.
  revert acc. induction s as [|c s IH]; intros acc; cbn [Str.rev_onto length];
    [reflexivity|]. rewrite IH. cbn [length]. lia.
Qed.

Lemma length_lstrip (s : string) : (length (Str.lstrip s) <= length s)%nat.
Proof.
  induction s as [|c s IH]; cbn [Str.lstrip length]; [lia|].
  destruct (Str.is_space c); cbn [length]; lia.
Qed.

Lemma length_strip (s : string) : (length (Str.strip s) <= length s)%nat.
Proof.
  unfold Str.strip, Str.rev. rewrite length_rev_onto. cbn [length].
  pose proof (length_lstrip (Str.rev_onto (Str.lstrip s) "")) as H1.
  rewrite length_rev_onto in H1. cbn [length] in H1.
  pose proof (length_lstrip s). lia.
Qed.

Lemma all_chars_rev_onto (p : ascii -> bool) (s acc : string) :
  all_chars p (Str.rev_onto s acc) = all_chars p s && all_chars p acc.
Proof.
  revert acc. induction s as [|c s IH]; intros acc; cbn [Str.rev_onto all_chars];
    [reflexivity|]. rewrite IH. cbn [all_chars].
  now rewrite andb_assoc, (andb_comm (all_chars p s) (p c)).
Qed.

Lemma all_chars_lstrip (p : ascii -> bool) (s : string) :
  all_chars p s = true -> all_chars p (Str.lstrip s) = true.
Proof.
  induction s as [|c s IH]; cbn [Str.lstrip all_chars]; [reflexivity|].
  intros H. apply andb_true_iff in H as [Hc Hs].
  destruct (Str.is_space c); [now apply IH|]. cbn [all_chars]. now rewrite Hc.
Qed.

Lemma all_chars_strip (p : ascii -> bool) (s : string) :
  all_chars p s = true -> all_chars p (Str.strip s) = true.
Proof.
  intros H. unfold Str.strip, Str.rev.
  rewrite all_chars_rev_onto, andb_true_r.
  apply all_chars_lstrip.
  rewrite all_chars_rev_onto, andb_true_r.
  now apply all_chars_lstrip.
Qed.

Lemma all_chars_filter (p : ascii -> bool) (s : string) :
  all_chars p (filter_chars p s) = true.
Proof.
  induction s as [|c s IH]; cbn [filter_chars all_chars]; [reflexivity|].
  destruct (p c) eqn:E; [|assumption]. cbn [all_chars]. now rewrite E.
Qed.

Lemma all_chars_take (p : ascii -> bool) (n : nat) (s : string) :
  all_chars p s = true -> all_chars p (Str.take n s) = true.
Proof.
  revert s. induction n as [|n IH]; intros s; [reflexivity|].
  destruct s as [|c s]; cbn [Str.take all_chars]; [reflexivity|].
  intros H. apply andb_true_iff in H as [Hc Hs]. now rewrite Hc, IH.
Qed.

Lemma length_take (n : nat) (s : string) : (length (Str.take n s) <= n)%nat.
Proof.
  revert s. induction n as [|n IH]; intros s; [cbn; lia|].
  destruct s as [|c s]; cbn [Str.take length]; [lia|].
  specialize (IH s). lia.
Qed.

Lemma is_empty_length (s : string) : is_empty s = (length s =? 0)%nat.
Proof. now destruct s. Qed.

(** X26. What [sanitize_player_name] returns passes [validate_player_name]
    unless it is blank: the sanitized name has at most 50 characters, all
    of them letters, digits, white space, dashes, underscores or dots, and
    it is valid exactly when stripping it leaves something. *)
Theorem sanitized_name_is_valid_or_blank (name : string) :
  let s := sanitize_player_name name in
  (length s <= 50)%nat /\
  all_chars name_char s = true /\
  validate_player_name s = negb (is_empty (Str.strip s)).
Proof.
  intros s.
  assert (Hs : (length s <= 50)%nat /\ all_chars name_char s = true).
  { subst s. unfold sanitize_player_name.
    destruct (is_empty name); [split; [cbn; lia | reflexivity]|].
    set (cleaned := filter_chars name_char
                      (collapse_spaces false (Str.strip name))).
    pose proof (all_chars_filter name_char
                  (collapse_spaces false (Str.strip name))) as Hc.
    fold cleaned in Hc.
    destruct (Nat.ltb_spec 50 (length cleaned)) as [Hlong|Hshort].
    - split.
      + pose proof (length_strip (Str.take 50 cleaned)).
        pose proof (length_take 50 cleaned). lia.
      + now apply all_chars_strip, all_chars_take.
    - now split. }
  destruct Hs as [Hlen Hall].
  split; [assumption|]. split; [assumption|].
  unfold validate_player_name.
  rewrite <- (is_empty_length (Str.strip s)).
  destruct (is_empty s) eqn:Es.
  - destruct s; [reflexivity | discriminate].
  - cbn [orb]. destruct (is_empty (Str.strip s)) eqn:Est; [reflexivity|].
    replace (50 <? length s)%nat with false
      by (symmetry; apply Nat.ltb_ge; assumption).
    cbn [negb andb]. now apply all_chars_strip.
Qed.

(** ** The players file across a restart *)

Lemma existsb_guild_id (g : string) (keys : list string) :
  In g keys -> looks_like_guild_id g = true ->
  existsb looks_like_guild_id keys = true.
Proof. intros Hin Hg. apply existsb_exists. now exists g. Qed.

(** A directory that holds a guild whose id looks like one is loaded as it
    was saved. *)
Lemma load_players_document (rp : dict (dict string)) (g : string) :
  dmem g rp = true ->
  looks_like_guild_id g = true ->
  load_registered_players (Stored (players_document rp)) = players_document rp.
Proof.
  intros Hmem Hg. cbn [load_registered_players].
  rewrite (existsb_guild_id g); [now rewrite andb_false_r| |assumption].
  unfold players_document.
  rewrite (dkeys_map_values (dict_to_json JStr)). now apply dmem_dkeys.
Qed.

(** X27. Registrations survive a restart.  For a guild whose id is written
    as Discord writes ids (digits only, more than ten of them), the players
    file that [register_player] leaves, and the one that [unregister_player]
    leaves when it removed a player, is read back by
    [load_registered_players] as the document of the directory, unchanged
    and not wrapped under a default guild. *)
Theorem registration_survives_reload (t : tracker) (g u name : string) :
  looks_like_guild_id g = true ->
  (let after := snd (register_player g u name t) in
   load_registered_players (players_file after)
   = players_document (registered_players after)) /\
  (is_player_registered t g u = true ->
   let after := snd (unregister_player g u t) in
   load_registered_players (players_file after)
   = players_document (registered_players after)).
Proof.
  intros Hg. split.
  - rewrite register_player_closed. cbn [snd players_file registered_players].
    apply (load_players_document _ g); [apply dmem_dset_same | assumption].
  - intros Hreg. unfold is_player_registered in Hreg.
    destruct (dget g (registered_players t)) as [players|] eqn:Hp; [|discriminate].
    rewrite (unregister_player_registered g u t players Hp Hreg).
    cbn [snd players_file registered_players].
    apply (load_players_document _ g); [apply dmem_dset_same | assumption].
Qed.

Lemma registration_survives_reload_witness :
  (let after := snd (register_player "900000000000000001" "44" "Carol" two_players) in
   load_registered_players (players_file after)
   = players_document (registered_players after)) /\
  (is_player_registered two_players "900000000000000001" "44" = true ->
   let after := snd (unregister_player "900000000000000001" "44" two_players) in
   load_registered_players (players_file after)
   = players_document (registered_players after)).
Proof.
  apply (registration_survives_reload two_players "900000000000000001" "44" "Carol").
  reflexivity.
Defined.

(** ** From the registration to the ledger *)




(** ** The sweep and the next donation *)

(** A window that is seven days old counts for nothing when the next
    donation comes: the donation starts the window anew, as it does for a
    player without a window. *)
Lemma credit_weekly_expired (name : string) (amount : Z) (now : instant)
  (e : Weekly.t) :
  seven_days <= now - Weekly.week_start e ->
  credit_weekly name amount now (Some e) = credit_weekly name amount now None.
Proof.
  intros H. apply days_between_expired in H. unfold credit_weekly.
  rewrite H. cbn [fresh_weekly Weekly.week_start].
  replace (7 <=? days_between now now) with false; [reflexivity|].
  unfold days_between. now rewrite Z.sub_diag.
Qed.

Lemma get_weekly_donations_swept (now : instant) (t : tracker) (g : string) :
  get_weekly_donations (snd (cleanup_expired_weeks now t)) g
  = remove_players (expired_players now (get_weekly_donations t g))
      (get_weekly_donations t g).
Proof.
  unfold get_weekly_donations.
  rewrite cleanup_expired_weeks_data, cleanup_guilds_dget.
  destruct (dget g (donations_data t)) as [gd|]; cbn; [|reflexivity].
  unfold cleanup_guild.
  destruct (weekly_donations gd) as [w|] eqn:Ew; cbn; [reflexivity|].
  now rewrite Ew.
Qed.

Lemma guild_complete_of_sections (t : tracker) (g : string) :
  sections_present (donations_data t) -> guild_complete t g.
Proof. intros Hsec gd Hg. exact (Hsec g gd (dget_In _ _ _ Hg)). Qed.

Lemma donor_after_add_donation (g u name : string) (amount : Z) (now : instant)
  (t : tracker) :
  guild_complete t g ->
  dget u (get_weekly_donations (snd (add_donation g u name amount now t)) g)
  = Some (credit_weekly name amount now (dget u (get_weekly_donations t g)))
  /\ dget u (get_total_donations (snd (add_donation g u name amount now t)) g)
     = Some (credit_total name amount now (dget u (get_total_donations t g))).
Proof.
  intros Hc.
  destruct (add_donation_complete g u name amount now t Hc) as [lr ->].
  cbn [snd save_donations]. split.
  - unfold get_weekly_donations at 1.
    cbn [donations_data set_donations_data].
    rewrite dget_dset_same. cbn [weekly_donations]. apply dget_dset_same.
  - unfold get_total_donations at 1.
    cbn [donations_data set_donations_data].
    rewrite dget_dset_same. cbn [total_donations]. apply dget_dset_same.
Qed.

(** X29. The sweep is invisible to the next donation of a player.  On a
    complete store, the window and the all-time aggregate that a donation
    leaves to its donor are the same whether or not the sweep ran before
    it, at the time of the donation or earlier: a window that the sweep
    removed is one that the donation would have started anew. *)
Theorem sweep_is_invisible_to_the_donor
  (t : tracker) (g u name : string) (amount : Z) (now now' : instant) :
  sections_present (donations_data t) ->
  distinct_windows t g ->
  now <= now' ->
  let swept := snd (cleanup_expired_weeks now t) in
  dget u (get_weekly_donations (snd (add_donation g u name amount now' swept)) g)
  = dget u (get_weekly_donations (snd (add_donation g u name amount now' t)) g)
  /\ dget u (get_total_donations (snd (add_donation g u name amount now' swept)) g)
     = dget u (get_total_donations (snd (add_donation g u name amount now' t)) g).
Proof.
  intros Hsec Hnd Hle swept. subst swept.
  assert (Hsec' : sections_present
                    (donations_data (snd (cleanup_expired_weeks now t)))).
  { rewrite cleanup_expired_weeks_data. now apply sections_present_cleanup. }
  destruct (donor_after_add_donation g u name amount now' t
              (guild_complete_of_sections t g Hsec)) as [-> ->].
  destruct (donor_after_add_donation g u name amount now' _
              (guild_complete_of_sections _ g Hsec')) as [-> ->].
  rewrite cleanup_keeps_totals. split; [|reflexivity].
  f_equal. rewrite get_weekly_donations_swept.
  set (w := get_weekly_donations t g).
  destruct (in_dec string_dec u (expired_players now w)) as [Hin|Hnotin].
  - rewrite dget_remove_players_in by assumption.
    apply In_expired_players in Hin as [e [Hin Hexp]].
    assert (Hw : NoDup (dkeys w)).
    { subst w. unfold get_weekly_donations.
      destruct (dget g (donations_data t)) as [gd|] eqn:Hg; [|constructor].
      destruct (weekly_donations gd) as [w0|] eqn:Ew; [|constructor].
      exact (Hnd gd w0 Hg Ew). }
    rewrite (In_dget_NoDup _ _ _ Hw Hin).
    symmetry. apply credit_weekly_expired. lia.
  - now rewrite dget_remove_players_notin.
Qed.

Lemma sweep_is_invisible_to_the_donor_witness :
  let swept := snd (cleanup_expired_weeks seven_days sample_tracker) in
  dget "42"
    (get_weekly_donations
       (snd (add_donation "900000000000000001" "42" "Alice" 50 (seven_days + 1) swept))
       "900000000000000001")
  = dget "42"
      (get_weekly_donations
         (snd (add_donation "900000000000000001" "42" "Alice" 50 (seven_days + 1)
                 sample_tracker))
         "900000000000000001")
  /\ dget "42"
       (get_total_donations
          (snd (add_donation "900000000000000001" "42" "Alice" 50 (seven_days + 1) swept))
          "900000000000000001")
     = dget "42"
         (get_total_donations
            (snd (add_donation "900000000000000001" "42" "Alice" 50 (seven_days + 1)
                    sample_tracker))
            "900000000000000001").
Proof.
  apply (sweep_is_invisible_to_the_donor sample_tracker
           "900000000000000001" "42" "Alice" 50 seven_days (seven_days + 1)).
  - intros g gd [[= <- <-]|[]]. split; discriminate.
  - intros gd w Hg Hw. cbn in Hg. injection Hg as <-. cbn in Hw.
    injection Hw as <-. repeat constructor. intros [].
  - lia.
Defined.

(** ** Who a message can credit *)

Lemma never_credits_bind {A B : Type} (g u : string) (m : M A) (f : A -> M B) :
  never_credits g u m ->
  (forall a, never_credits g u (f a)) ->
  never_credits g u (bind m f).
Proof.
  intros Hm Hf t Hnot. unfold bind.
  destruct (Hm t Hnot) as [H1 [H2 H3]].
  destruct (m t) as [[a|e] t1]; cbn [snd] in *; [|auto].
  assert (Hnot1 : is_player_registered t1 g u = false).
  { now rewrite (is_player_registered_ext t t1 g u H1). }
  destruct (Hf a t1 Hnot1) as [K1 [K2 K3]].
  split; [congruence|]. split; congruence.
Qed.

Lemma never_credits_ret {A : Type} (g u : string) (a : A) :
  never_credits g u (ret a).
Proof. intros t _. cbn. auto. Qed.

Lemma never_credits_add_donation (g u u' name : string) (amount : Z)
  (now : instant) :
  u <> u' -> never_credits g u (add_donation g u' name amount now).
Proof.
  intros Hne t _.
  destruct (add_donation_frame t g u' name amount now) as [_ [Husers [Hreg _]]].
  destruct (Husers u Hne) as [Hw Ht]. auto.
Qed.

Lemma never_credits_credit_mentions (g u : string) (users : list string)
  (amount : Z) (now : instant) (recorded : bool) :
  never_credits g u (credit_mentions g users amount now recorded).
Proof.
  revert recorded. induction users as [|u' users IH]; intros recorded;
    cbn [credit_mentions].
  - apply never_credits_ret.
  - intros t Hnot. destruct (is_player_registered t g u') eqn:Hreg;
      [|now apply IH].
    assert (Hne : u <> u') by (intros ->; congruence).
    revert t Hnot Hreg.
    assert (Hchain :
              never_credits g u
                (player_name <-
                   (fun t' : tracker =>
                      match dget g (registered_players t') with
                      | Some players =>
                          match dget u' players with
                          | Some n => (Return n, t')
                          | None => (Raise KeyError, t')
                          end
                      | None => (Raise KeyError, t')
                      end) ;;
                 add_donation g u' player_name amount now ;;
                 credit_mentions g users amount now true)).
    { apply never_credits_bind.
      - intros t _.
        destruct (dget g (registered_players t)) as [players|];
          [destruct (dget u' players)|]; cbn; auto.
      - intros name. apply never_credits_bind.
        + now apply never_credits_add_donation.
        + intros _. apply IH. }
    intros t Hnot _. now apply Hchain.
Qed.

Lemma never_credits_credit_by_name (g u : string) (players : dict string)
  (text : string) (amount : Z) (now : instant) :
  ~ In u (dkeys players) ->
  never_credits g u (credit_by_name g players text amount now).
Proof.
  induction players as [|[u' name] players IH]; intros Hnotin;
    cbn [credit_by_name].
  - apply never_credits_ret.
  - cbn [dkeys map fst] in Hnotin.
    destruct (Str.contains (Str.lower (clean_player_name name)) (Str.lower text)).
    + apply never_credits_bind.
      * apply never_credits_add_donation. intros ->. apply Hnotin. now left.
      * intros _. apply never_credits_ret.
    + apply IH. intros Hin. apply Hnotin. now right.
Qed.

Lemma not_registered_not_in_directory (t : tracker) (g u : string) :
  is_player_registered t g u = false ->
  ~ In u (dkeys match dget g (registered_players t) with
                | Some p => p
                | None => []
                end).
Proof.
  unfold is_player_registered.
  destruct (dget g (registered_players t)) as [players|]; [|intros _ []].
  intros Hnot Hin. apply dmem_dkeys in Hin. congruence.
Qed.

Lemma never_credits_attribute (m : message) (u : string) (amount : Z)
  (now : instant) :
  never_credits (guild_id m) u (attribute_donation m amount now).
Proof.
  unfold attribute_donation.
  apply never_credits_bind; [apply never_credits_credit_mentions|].
  intros recorded. apply never_credits_bind.
  - destruct recorded; [apply never_credits_ret|].
    intros t Hnot.
    apply never_credits_credit_by_name; [|assumption].
    now apply not_registered_not_in_directory.
  - intros r. apply never_credits_ret.
Qed.

(** X30. Only registered players are credited.  Whatever the message, a user
    who is not registered in the guild of the message is left as the store
    had them: processing the message changes neither the window nor the
    all-time aggregate stored for that user in that guild. *)
Theorem only_registered_players_are_credited
  (m : message) (now : instant) (t : tracker) (u : string) :
  is_player_registered t (guild_id m) u = false ->
  let after := snd (process_donation_message m now t) in
  dget u (get_weekly_donations after (guild_id m))
  = dget u (get_weekly_donations t (guild_id m))
  /\ dget u (get_total_donations after (guild_id m))
     = dget u (get_total_donations t (guild_id m)).
Proof.
  intros Hnot after. subst after. unfold process_donation_message.
  destruct (detect_donation m) as [[amount|]|e]; cbn [snd]; auto.
  destruct (never_credits_attribute m u amount now t Hnot) as [_ [Hw Ht]].
  destruct (attribute_donation m amount now t) as [[r|e] t1]; cbn [snd] in *;
    auto.
Qed.

Lemma only_registered_players_are_credited_witness :
  let after :=
    snd (process_donation_message
           (mk_message "Carol donated 500 coins" [] ["44"; "42"] "900000000000000001")
           0 two_players) in
  dget "44" (get_weekly_donations after "900000000000000001")
  = dget "44" (get_weekly_donations two_players "900000000000000001")
  /\ dget "44" (get_total_donations after "900000000000000001")
     = dget "44" (get_total_donations two_players "900000000000000001").
Proof.
  apply (only_registered_players_are_credited
           (mk_message "Carol donated 500 coins" [] ["44"; "42"] "900000000000000001")
           0 two_players "44").
  reflexivity.
Defined.
